(** * rulego-components-ci: the git and host-metrics nodes of package [action]

    A shallow embedding of [ci/action]: the shared accessors of [baseGitNode]
    (work directory, repository URL, reference, refspecs, auth method), the
    five git nodes that embed it (clone-or-pull, commit, create-tag, push,
    log query) and the host-metrics node [PsNode].

    Go strings are byte strings and are embedded as [string]; [map[string]string]
    metadata is a [gmap string string]; Go's [(value, error)] results are sums.
    The libraries the package calls (go-git, gopsutil, rulego's template
    helpers, [time], [os]) are collaborators outside the repository: they
    appear as operations of type classes, and every node is a program over
    them in a small state-and-early-return monad.

    The sources also hold an earlier, stand-alone [GitCloneNode] (second part
    of src/unnamed/part_001) that carries its own copies of the accessors; the
    nodes embedded here are the ones built on [baseGitNode]. *)

From Stdlib Require Import ZArith Lia Bool Ascii Sorted.
From stdpp Require Import base option list strings gmap.

Local Open Scope Z_scope.

(** ** Go standard library: package [strings] *)

Module strings.

(** [strings.Contains(s, substr)]. *)
Fixpoint Contains (s substr : string) : bool :=
  String.prefix substr s
  || match s with
     | EmptyString => false
     | String _ s' => Contains s' substr
     end.

(** [strings.Split(s, sep)] for the one-byte separators the package uses
    ("/" and ","): the substrings between the separators, in order; never
    an empty slice. *)
Fixpoint Split (s : string) (sep : ascii) : list string :=
  match s with
  | EmptyString => [EmptyString]
  | String c s' =>
      if Ascii.eqb c sep then EmptyString :: Split s' sep
      else match Split s' sep with
           | [] => [String c EmptyString]
           | seg :: segs => String c seg :: segs
           end
  end.

(** [strings.HasSuffix]: [len(s) >= len(suffix) && s[len(s)-len(suffix):] == suffix]. *)
Definition HasSuffix (s suffix : string) : bool :=
  (String.length suffix <=? String.length s)%nat
  && String.eqb
       (String.substring (String.length s - String.length suffix)
                         (String.length suffix) s)
       suffix.

(** [strings.TrimSuffix]: [s[:len(s)-len(suffix)]] when [HasSuffix], else [s]. *)
Definition TrimSuffix (s suffix : string) : string :=
  if HasSuffix s suffix
  then String.substring 0 (String.length s - String.length suffix) s
  else s.

End strings.

(** ** Go standard library: package [path] *)

Module path.

Definition slash : ascii := "/"%char.
Definition dot : ascii := "."%char.

(** The [lazybuf] of [path.Clean] is kept as the list of bytes written so
    far, last byte first; [out.w] is its length. *)
Definition buf := list ascii.

(** The backtracking of a ".." element:
    [out.w--; for out.w > dotdot && out.index(out.w) != '/' { out.w-- }]. *)
Fixpoint backtrack (out : buf) (dotdot : nat) : buf :=
  match out with
  | [] => []
  | c :: out' =>
      if (dotdot <? length out')%nat && negb (Ascii.eqb c slash)
      then backtrack out' dotdot
      else out'
  end.

(** Copy of a real path element: [for ; r < n && path[r] != '/'; r++]. *)
Fixpoint copy_element (rest : list ascii) (out : buf) : list ascii * buf :=
  match rest with
  | [] => ([], out)
  | c :: rest' =>
      if Ascii.eqb c slash then (rest, out) else copy_element rest' (c :: out)
  end.

(** The main loop of [path.Clean] over the unread bytes [rest]; every
    iteration reads at least one byte, so [length rest] iterations suffice. *)
Fixpoint clean_loop (fuel : nat) (rooted : bool) (rest : list ascii)
         (out : buf) (dotdot : nat) : buf :=
  match fuel with
  | O => out
  | S fuel' =>
      match rest with
      | [] => out
      | c :: r1 =>
          if Ascii.eqb c slash then
            (* empty path element *)
            clean_loop fuel' rooted r1 out dotdot
          else if Ascii.eqb c dot
                  && match r1 with [] => true | c1 :: _ => Ascii.eqb c1 slash end
          then
            (* . element *)
            clean_loop fuel' rooted r1 out dotdot
          else if Ascii.eqb c dot
                  && match r1 with
                     | c1 :: r2 =>
                         Ascii.eqb c1 dot
                         && match r2 with [] => true | c2 :: _ => Ascii.eqb c2 slash end
                     | [] => false
                     end
          then
            (* .. element: remove to last / *)
            let r2 := tail r1 in
            if (dotdot <? length out)%nat then
              clean_loop fuel' rooted r2 (backtrack out dotdot) dotdot
            else if negb rooted then
              let out1 := if (0 <? length out)%nat then slash :: out else out in
              let out2 := dot :: dot :: out1 in
              clean_loop fuel' rooted r2 out2 (length out2)
            else
              clean_loop fuel' rooted r2 out dotdot
          else
            (* real path element *)
            let out1 :=
              if (rooted && negb (length out =? 1)%nat)
                 || (negb rooted && negb (length out =? 0)%nat)
              then slash :: out else out in
            let '(rest', out2) := copy_element rest out1 in
            clean_loop fuel' rooted rest' out2 dotdot
      end
  end.

(** [path.Clean]. *)
Definition Clean (p : string) : string :=
  match String.list_ascii_of_string p with
  | [] => "."
  | c :: r1 =>
      let rooted := Ascii.eqb c slash in
      let out :=
        if rooted then clean_loop (length r1) true r1 [slash] 1
        else clean_loop (S (length r1)) false (c :: r1) [] 0 in
      match out with
      | [] => "."
      | _ => String.string_of_list_ascii (rev out)
      end
  end.

(** The buffer [path.Join] builds: the non-empty elements separated by "/". *)
Fixpoint join_buf (elem : list string) (b : string) : string :=
  match elem with
  | [] => b
  | e :: elem' =>
      if negb (String.eqb b "") || negb (String.eqb e "")
      then join_buf elem' ((if negb (String.eqb b "") then b +:+ "/" else b) +:+ e)
      else join_buf elem' b
  end.

(** [path.Join(elem...)]: "" when every element is empty, else the
    cleaned concatenation. *)
Definition Join (elem : list string) : string :=
  if forallb (fun e => String.eqb e "") elem then ""
  else Clean (join_buf elem "").

End path.

(** ** Go values shared by the collaborators *)

(** A Go [error] value. [err == git.NoErrAlreadyUpToDate] compares with the
    sentinel of go-git; [errors.New] builds the errors of this package; every
    other error of a collaborator is opaque. *)
Inductive error : Type :=
| NoErrAlreadyUpToDate
| errors_New (text : string)
| lib_error (text : string).

Global Instance error_eq_dec : EqDecision error.
Proof. solve_decision. Defined.

(** A Go result pair [(v, err)] of which exactly one side is meaningful. *)
Inductive result (A : Type) : Type :=
| Ok (v : A)
| Err (err : error).
Arguments Ok {A} v.
Arguments Err {A} err.

(** A [time.Time] instant: nanoseconds counted from the zero Time
    (January 1, year 1, 00:00:00 UTC). *)
Definition Time := Z.

Module time.
Definition IsZero (t : Time) : bool := t =? 0.
Definition Before (t u : Time) : bool := t <? u.
Definition After (t u : Time) : bool := u <? t.
End time.

(** ** rulego: messages, metadata and the outcome a node signals *)

Module types.

(** [types.Metadata] is a [map[string]string]. *)
Definition GetValue (md : gmap string string) (key : string) : string :=
  default "" (md !! key).

Definition PutValue (md : gmap string string) (key value : string) : gmap string string :=
  if String.eqb key "" then md else <[key := value]> md.

Record RuleMsg : Type := {
  Type_ : string;
  DataType : string;
  Data : string;
  Metadata : gmap string string
}.

Definition JSON : string := "JSON".

(** [msg.Metadata.PutValue(key, value)]: the map is shared with the caller,
    so the write is seen by whoever holds the message afterwards. *)
Definition msg_PutValue (msg : RuleMsg) (key value : string) : RuleMsg :=
  {| Type_ := Type_ msg; DataType := DataType msg; Data := Data msg;
     Metadata := PutValue (Metadata msg) key value |}.

Definition msg_SetData (msg : RuleMsg) (dataType data : string) : RuleMsg :=
  {| Type_ := Type_ msg; DataType := dataType; Data := data;
     Metadata := Metadata msg |}.

(** How an [OnMsg] hands control back: [ctx.TellSuccess(msg)],
    [ctx.TellFailure(msg, err)], or a Go run-time panic raised before either
    call (the message is kept as it was when the panic struck). *)
Inductive Outcome : Type :=
| TellSuccess (msg : RuleMsg)
| TellFailure (msg : RuleMsg) (err : error)
| Panic (msg : RuleMsg) (cause : string).

Definition outcome_msg (o : Outcome) : RuleMsg :=
  match o with
  | TellSuccess msg | TellFailure msg _ | Panic msg _ => msg
  end.

Definition is_success (o : Outcome) : bool :=
  match o with TellSuccess _ => true | _ => false end.

Definition signalled (o : Outcome) : bool :=
  match o with TellSuccess _ | TellFailure _ _ => true | Panic _ _ => false end.

End types.
Export types.

(** [LogMsg] and [Committer] (src/ci/action/git_log.go), the entries a log
    query returns. *)
Record Committer : Type := {
  Committer_Name : string;
  Committer_Email : string;
  Committer_When : Time
}.

Record LogMsg : Type := {
  LogMsg_Hash : string;
  LogMsg_Author : Committer;
  LogMsg_Committer : Committer;
  LogMsg_MergeTag : string;
  LogMsg_Message : string;
  LogMsg_TreeHash : string;
  LogMsg_Encoding : string
}.

(** The pure functions of Go's standard library that the package calls and
    that are not written out above. *)
Class GoStd : Type := {
  (** [strings.TrimSpace(s)] *)
  strings_TrimSpace : string -> string;
  (** [time.Parse(layout, value)]: both components as Go returns them *)
  time_Parse : string -> string -> Time * option error
}.

(** [time.Parse] returns the zero Time together with every error. *)
Class GoStdLawful `{GoStd} : Prop := {
  time_Parse_error layout value err :
    (time_Parse layout value).2 = Some err -> (time_Parse layout value).1 = 0
}.

(** rulego's template helpers ([utils/str]) and [base.NodeUtils]. [Env] is the
    [map[string]interface{}] built for one invocation, and what a template
    reads through it is the helpers' business; a nil map is [None] wherever
    the package passes [evn]. *)
Class Templates : Type := {
  Env : Type;
  (** [str.CheckHasVar(s)] *)
  CheckHasVar : string -> bool;
  (** [str.ExecuteTemplate(tmpl, evn)] on a non-nil [evn] *)
  ExecuteTemplate : string -> Env -> string;
  (** [str.NewTemplate(tmpl).Execute(evn)], [evn] possibly nil *)
  Template_Execute : string -> option Env -> string;
  (** [base.NodeUtils.GetEvnAndMetadata(ctx, msg)], never nil *)
  GetEvnAndMetadata : RuleMsg -> Env;
  (** [str.ToString(messages)] on a [[]LogMsg] *)
  ToString : list LogMsg -> string
}.

(** What section 4.1 of the specification fixes of the template resolver: a string
    without substitution markers renders to itself. *)
Class TemplatesLawful `{Templates} : Prop := {
  ExecuteTemplate_literal s env : CheckHasVar s = false -> ExecuteTemplate s env = s
}.

(** ** A state monad with early return

    An [OnMsg] body is a sequence of collaborator calls on the outside world
    [W], any of which may end the invocation with an outcome. *)
Section Act.
Context {W O : Type}.

Definition Act (A : Type) : Type := W -> (A + O) * W.

Definition ret {A} (a : A) : Act A := fun w => (inl a, w).
Definition leave {A} (o : O) : Act A := fun w => (inr o, w).
Definition bind {A B} (m : Act A) (k : A -> Act B) : Act B :=
  fun w => match m w with
           | (inl a, w') => k a w'
           | (inr o, w') => (inr o, w')
           end.
(** A collaborator call that cannot end the invocation. *)
Definition call {A} (f : W -> A * W) : Act A :=
  fun w => let '(a, w') := f w in (inl a, w').
(** [v, err := f(); if err != nil { <leave with onErr err> }]. *)
Definition try {A} (f : W -> result A * W) (onErr : error -> O) : Act A :=
  fun w => match f w with
           | (Ok a, w') => (inl a, w')
           | (Err e, w') => (inr (onErr e), w')
           end.
(** Runs a body whose value is the outcome it ends with. *)
Definition exec (m : Act O) : W -> O * W :=
  fun w => match m w with
           | (inl o, w') | (inr o, w') => (o, w')
           end.
End Act.
Arguments Act : clear implicits.

Declare Scope act_scope.
Delimit Scope act_scope with act.
Notation "x <- m ;; k" := (bind m (fun x => k))
  (at level 100, m at next level, right associativity) : act_scope.

(** ** go-git, [ssh], [os] and the clock *)

(** The handle types of go-git. A [*plumbing.Reference] may be nil; the other
    handles are only ever used after their [err] was checked. *)
Class GitTypes : Type := {
  Repository : Type;
  Worktree : Type;
  Status : Type;
  Reference : Type;
  PublicKeys : Type
}.

(** A [plumbing.Hash], kept as the hexadecimal text its [String()] prints. *)
Definition Hash := string.

Record Signature : Type := {
  Name : string;
  Email : string;
  When : Time
}.

(** [object.Commit], the fields the package reads. *)
Record Commit : Type := {
  Commit_Hash : Hash;
  Commit_Author : Signature;
  Commit_Committer : Signature;
  Commit_MergeTag : string;
  Commit_Message : string;
  Commit_TreeHash : Hash;
  Commit_Encoding : string
}.

Record ProxyOptions : Type := {
  Proxy_URL : string;
  Proxy_Username : string;
  Proxy_Password : string
}.

Section GitValues.
Context `{GitTypes}.

(** [transport.AuthMethod]: [*http.BasicAuth] or [*ssh.PublicKeys]. *)
Inductive AuthMethod : Type :=
| BasicAuth (Username Password : string)
| PublicKeysAuth (keys : PublicKeys).

Record CloneOptions : Type := {
  Clone_URL : string;
  Clone_ProxyOptions : ProxyOptions;
  Clone_ReferenceName : string;
  Clone_Auth : AuthMethod
}.

Record PullOptions : Type := {
  Pull_RemoteURL : string;
  Pull_Force : bool;
  Pull_ProxyOptions : ProxyOptions;
  Pull_ReferenceName : string;
  Pull_Auth : AuthMethod
}.

Record PushOptions : Type := {
  Push_RemoteURL : string;
  Push_RefSpecs : list string;
  Push_Auth : AuthMethod
}.

Record CreateTagOptions : Type := {
  Tag_Tagger : Signature;
  Tag_Message : string
}.
End GitValues.

(** The calls the package makes, each a transition of the outside world
    (file system, repositories, remotes, clock). *)
Class GitOps `{GitTypes} : Type := {
  World : Type;
  (** [_, err := os.Stat(name); os.IsNotExist(err)] *)
  os_Stat_IsNotExist : string -> World -> bool * World;
  (** [ssh.NewPublicKeysFromFile(user, pemFile, password)] *)
  NewPublicKeysFromFile : string -> string -> string -> World -> result PublicKeys * World;
  (** [git.PlainClone(path, isBare, o)], the repository handle dropped *)
  PlainClone : string -> bool -> CloneOptions -> World -> option error * World;
  PlainOpen : string -> World -> result Repository * World;
  (** [r.Worktree()] *)
  Repository_Worktree : Repository -> World -> result Worktree * World;
  (** [w.Pull(o)] *)
  Worktree_Pull : Worktree -> PullOptions -> World -> option error * World;
  (** [w.Status()] and [status.IsClean()] *)
  Worktree_Status : Worktree -> World -> result Status * World;
  Status_IsClean : Status -> bool;
  (** [w.AddGlob(pattern)] *)
  Worktree_AddGlob : Worktree -> string -> World -> option error * World;
  (** [w.Commit(msg, &git.CommitOptions{Author: author})] *)
  Worktree_Commit : Worktree -> string -> Signature -> World -> result Hash * World;
  (** [r.Head()]: both components as Go returns them *)
  Repository_Head : Repository -> World -> (option Reference * option error) * World;
  (** [ref.Hash()] on a non-nil reference *)
  Reference_Hash : Reference -> Hash;
  (** [r.CommitObject(h)] *)
  Repository_CommitObject : Repository -> Hash -> World -> result Commit * World;
  (** [r.CreateTag(name, hash, opts)] *)
  Repository_CreateTag : Repository -> string -> Hash -> CreateTagOptions -> World -> result Reference * World;
  (** [r.Push(o)] *)
  Repository_Push : Repository -> PushOptions -> World -> option error * World;
  (** [r.Log(&git.LogOptions{Order: git.LogOrderCommitterTime})] followed by
      [iter.Next()] until it returns an error: the commits the iterator
      yields, in the order it yields them *)
  Repository_Log : Repository -> World -> result (list Commit) * World;
  (** [time.Now()] *)
  time_Now : World -> Time * World
}.

(** ** Package [action]: keys and node configuration *)

(** KeyWorkDir, KeyRef, KeyGitSshUrl, KeyGitHttpUrl (src/ci/action/git_clone.go). *)
Definition KeyWorkDir : string := "workDir".
Definition KeyRef : string := "ref".
Definition KeyGitSshUrl : string := "gitSshUrl".
Definition KeyGitHttpUrl : string := "gitHttpUrl".

(** Modelled from the spec: the constant [KeyHash], whose declaration is not
    among the sources; section 6 of the specification names the metadata key "hash"
    for the resulting commit or tag identifier. *)
Definition KeyHash : string := "hash".

(** Modelled from the spec: the struct [Signature] of the commit and tag
    configurations, whose declaration is not among the sources; the nodes read
    its fields [AuthorName] and [AuthorEmail]. *)
Record SignatureConfig : Type := {
  AuthorName : string;
  AuthorEmail : string
}.

(** [types.Configuration], the map a node is initialised from: one optional
    entry per key that [maps.Map2Struct] decodes into a field of the package. *)
Record types_Configuration : Type := {
  repository : option string;
  directory : option string;
  reference : option string;
  authType : option string;
  authUser : option string;
  authPassword : option string;
  authPemFile : option string;
  proxyUrl : option string;
  proxyUsername : option string;
  proxyPassword : option string;
  refSpecs : option string;
  pattern : option string;
  message : option string;
  tag : option string;
  signature : option SignatureConfig;
  limit : option Z;
  startTime : option string;
  endTime : option string;
  options : option (list string)
}.

(** One field of [maps.Map2Struct]: an entry of the map overwrites the field,
    a missing entry leaves it as it was. *)
Definition decode {A} (entry : option A) (field : A) : A := default field entry.

(** ** [baseGitNode] (second part of src/ci/action/ps_test.go) *)

Module baseGitNode.

Record Configuration : Type := {
  Repository : string;
  Directory : string;
  Reference : string;
  AuthType : string;
  AuthUser : string;
  AuthPassword : string;
  AuthPemFile : string;
  ProxyUrl : string;
  ProxyUsername : string;
  ProxyPassword : string;
  RefSpecs : string
}.

Definition zero : Configuration :=
  {| Repository := ""; Directory := ""; Reference := ""; AuthType := "";
     AuthUser := ""; AuthPassword := ""; AuthPemFile := ""; ProxyUrl := "";
     ProxyUsername := ""; ProxyPassword := ""; RefSpecs := "" |}.

(** [maps.Map2Struct(configuration, &x.baseGitNode.Config)]. *)
Definition Map2Struct (c : types_Configuration) (x : Configuration) : Configuration :=
  {| Repository := decode (repository c) (Repository x);
     Directory := decode (directory c) (Directory x);
     Reference := decode (reference c) (Reference x);
     AuthType := decode (authType c) (AuthType x);
     AuthUser := decode (authUser c) (AuthUser x);
     AuthPassword := decode (authPassword c) (AuthPassword x);
     AuthPemFile := decode (authPemFile c) (AuthPemFile x);
     ProxyUrl := decode (proxyUrl c) (ProxyUrl x);
     ProxyUsername := decode (proxyUsername c) (ProxyUsername x);
     ProxyPassword := decode (proxyPassword c) (ProxyPassword x);
     RefSpecs := decode (refSpecs c) (RefSpecs x) |}.

Record t : Type := { Config : Configuration }.

Section Accessors.
Context `{Templates} `{GitOps}.

Definition getAuthMethod (x : t) : World -> result AuthMethod * World :=
  fun w =>
    let authType := AuthType (Config x) in
    if String.eqb authType "ssh-key" || String.eqb authType "ssh" then
      match NewPublicKeysFromFile (AuthUser (Config x)) (AuthPemFile (Config x))
                                  (AuthPassword (Config x)) w with
      | (Err err, w') => (Err err, w')
      | (Ok sshKey, w') => (Ok (PublicKeysAuth sshKey), w')
      end
    else if String.eqb authType "username-password" || String.eqb authType "password" then
      (Ok (BasicAuth (AuthUser (Config x)) (AuthPassword (Config x))), w)
    else if String.eqb authType "token" then
      (Ok (BasicAuth (AuthUser (Config x)) (AuthPassword (Config x))), w)
    else
      (Err (errors_New ("not authType=" +:+ authType)), w).

Definition getRepository (x : t) (msg : RuleMsg) (evn : option Env) : string :=
  let repository := Repository (Config x) in
  if String.eqb repository "" then
    if String.eqb (AuthType (Config x)) "ssh-key" || String.eqb (AuthType (Config x)) "ssh"
    then GetValue (Metadata msg) KeyGitSshUrl
    else GetValue (Metadata msg) KeyGitHttpUrl
  else match evn with
       | Some evn => ExecuteTemplate repository evn
       | None => repository
       end.

Definition getReferenceName (x : t) (msg : RuleMsg) (evn : option Env) : string :=
  let ref := Reference (Config x) in
  if String.eqb ref "" then GetValue (Metadata msg) KeyRef
  else match evn with
       | Some evn => ExecuteTemplate ref evn
       | None => ref
       end.

(** [parts[len(parts)-1]]: [strings.Split] never returns an empty slice,
    so the index is in range (lemma [Split_last_in_range]). *)
Definition getRepoName (repoURL : string) : string :=
  let parts := strings.Split repoURL "/" in
  let repoName := List.last parts "" in
  strings.TrimSuffix repoName ".git".

(** The directory [getWorkDir] holds before it joins the repository name
    (its first five statements). *)
Definition baseDir (x : t) (msg : RuleMsg) (evn : option Env) : string :=
  let workDir := Directory (Config x) in
  if String.eqb workDir "" then GetValue (Metadata msg) KeyWorkDir
  else match evn with
       | Some evn => ExecuteTemplate workDir evn
       | None => workDir
       end.

Definition getWorkDir (x : t) (msg : RuleMsg) (evn : option Env) : string :=
  let workDir := baseDir x msg evn in
  path.Join [workDir; getRepoName (getRepository x msg evn)].

Definition getRefSpecs (x : t) (msg : RuleMsg) (evn : option Env) : list string :=
  let ref := RefSpecs (Config x) in
  let ref := match evn with
             | Some evn => ExecuteTemplate ref evn
             | None => ref
             end in
  strings.Split ref ",".

Definition getProxy (x : t) : ProxyOptions :=
  if negb (String.eqb (ProxyUrl (Config x)) "") then
    {| Proxy_URL := ProxyUrl (Config x);
       Proxy_Username := ProxyUsername (Config x);
       Proxy_Password := ProxyPassword (Config x) |}
  else {| Proxy_URL := ""; Proxy_Username := ""; Proxy_Password := "" |}.

(** [var evn map[string]interface{}; if x.hasVar { evn = GetEvnAndMetadata(ctx, msg) }],
    the opening of every git [OnMsg]. *)
Definition evnOf (hasVar : bool) (msg : RuleMsg) : option Env :=
  if hasVar then Some (GetEvnAndMetadata msg) else None.

End Accessors.
End baseGitNode.

Local Open Scope act_scope.

(** ** [GitCloneNode] (first part of src/ci/action/git_clone.go) *)

Module GitCloneNode.

Record Configuration : Type := {
  Repository : string;
  Directory : string;
  Reference : string;
  AuthType : string;
  AuthUser : string;
  AuthPassword : string;
  AuthPemFile : string;
  ProxyUrl : string;
  ProxyUsername : string;
  ProxyPassword : string
}.

Definition Map2Struct (c : types_Configuration) (x : Configuration) : Configuration :=
  {| Repository := decode (repository c) (Repository x);
     Directory := decode (directory c) (Directory x);
     Reference := decode (reference c) (Reference x);
     AuthType := decode (authType c) (AuthType x);
     AuthUser := decode (authUser c) (AuthUser x);
     AuthPassword := decode (authPassword c) (AuthPassword x);
     AuthPemFile := decode (authPemFile c) (AuthPemFile x);
     ProxyUrl := decode (proxyUrl c) (ProxyUrl x);
     ProxyUsername := decode (proxyUsername c) (ProxyUsername x);
     ProxyPassword := decode (proxyPassword c) (ProxyPassword x) |}.

Record t : Type := {
  base : baseGitNode.t;
  Config : Configuration;
  hasVar : bool
}.

Definition Type_ : string := "ci/gitClone".

Definition New : t :=
  {| base := {| baseGitNode.Config := baseGitNode.zero |};
     Config := {| Repository := ""; Directory := ""; Reference := "refs/heads/main";
                  AuthType := ""; AuthUser := ""; AuthPassword := ""; AuthPemFile := "";
                  ProxyUrl := ""; ProxyUsername := ""; ProxyPassword := "" |};
     hasVar := false |}.

Section Node.
Context `{Templates} `{GitOps}.

Definition Init (x : t) (configuration : types_Configuration) : t :=
  let cfg := Map2Struct configuration (Config x) in
  let bcfg := baseGitNode.Map2Struct configuration (baseGitNode.Config (base x)) in
  {| base := {| baseGitNode.Config := bcfg |};
     Config := cfg;
     hasVar := if CheckHasVar (Repository cfg) || CheckHasVar (Directory cfg)
                  || CheckHasVar (Reference cfg)
               then true else hasVar x |}.

Definition OnMsg (x : t) (msg : RuleMsg) : Act World Outcome Outcome :=
  let evn := baseGitNode.evnOf (hasVar x) msg in
  let ref := baseGitNode.getReferenceName (base x) msg evn in
  let workDir := baseGitNode.getWorkDir (base x) msg evn in
  let msg := msg_PutValue msg KeyWorkDir workDir in
  let repository := baseGitNode.getRepository (base x) msg evn in
  (* does the directory exist? the proxy and the reference name are assigned
     only when non-empty, and are the zero value otherwise, as they are here *)
  notExist <- call (os_Stat_IsNotExist workDir) ;;
  if notExist : bool then
    let proxy := baseGitNode.getProxy (base x) in
    auth <- try (baseGitNode.getAuthMethod (base x)) (TellFailure msg) ;;
    let cloneOptions :=
      {| Clone_URL := repository;
         Clone_ProxyOptions := proxy;
         Clone_ReferenceName := ref;
         Clone_Auth := auth |} in
    err <- call (PlainClone workDir false cloneOptions) ;;
    match err with
    | Some err => ret (TellFailure msg err)
    | None => ret (TellSuccess msg)
    end
  else
    (* the directory exists: pull *)
    r <- try (PlainOpen workDir) (TellFailure msg) ;;
    w <- try (Repository_Worktree r) (TellFailure msg) ;;
    let proxy := baseGitNode.getProxy (base x) in
    auth <- try (baseGitNode.getAuthMethod (base x)) (TellFailure msg) ;;
    let pullOptions :=
      {| Pull_RemoteURL := repository;
         Pull_Force := true;
         Pull_ProxyOptions := proxy;
         Pull_ReferenceName := ref;
         Pull_Auth := auth |} in
    err <- call (Worktree_Pull w pullOptions) ;;
    match err with
    | Some err =>
        if decide (err = NoErrAlreadyUpToDate)
        then ret (TellSuccess msg)
        else ret (TellFailure msg err)
    | None => ret (TellSuccess msg)
    end.

End Node.
End GitCloneNode.

(** ** [GitCommitNode] (first part of src/unnamed/part_001) *)

Module GitCommitNode.

Record Configuration : Type := {
  Directory : string;
  Pattern : string;
  Message : string;
  Signature : SignatureConfig
}.

Definition Map2Struct (c : types_Configuration) (x : Configuration) : Configuration :=
  {| Directory := decode (directory c) (Directory x);
     Pattern := decode (pattern c) (Pattern x);
     Message := decode (message c) (Message x);
     Signature := decode (signature c) (Signature x) |}.

Record t : Type := {
  base : baseGitNode.t;
  Config : Configuration;
  hasVar : bool
}.

Definition Type_ : string := "ci/gitCommit".

Definition New : t :=
  {| base := {| baseGitNode.Config := baseGitNode.zero |};
     Config := {| Directory := ""; Pattern := ""; Message := "";
                  Signature := {| AuthorName := ""; AuthorEmail := "" |} |};
     hasVar := false |}.

Section Node.
Context `{Templates} `{GitOps}.

Definition Init (x : t) (configuration : types_Configuration) : t :=
  let cfg := Map2Struct configuration (Config x) in
  let bcfg := baseGitNode.Map2Struct configuration (baseGitNode.Config (base x)) in
  {| base := {| baseGitNode.Config := bcfg |};
     Config := cfg;
     hasVar := if CheckHasVar (Directory cfg) || CheckHasVar (Pattern cfg)
                  || CheckHasVar (AuthorName (Signature cfg))
                  || CheckHasVar (AuthorEmail (Signature cfg))
               then true else hasVar x |}.

Definition render (field : string) (evn : option Env) : string :=
  match evn with
  | Some evn => ExecuteTemplate field evn
  | None => field
  end.

Definition getPattern (x : t) (_ : RuleMsg) (evn : option Env) : string :=
  render (Pattern (Config x)) evn.
Definition getMessage (x : t) (_ : RuleMsg) (evn : option Env) : string :=
  render (Message (Config x)) evn.
Definition getSignatureName (x : t) (_ : RuleMsg) (evn : option Env) : string :=
  render (AuthorName (Signature (Config x))) evn.
Definition getSignatureEmail (x : t) (_ : RuleMsg) (evn : option Env) : string :=
  render (AuthorEmail (Signature (Config x))) evn.

Definition OnMsg (x : t) (msg : RuleMsg) : Act World Outcome Outcome :=
  let evn := baseGitNode.evnOf (hasVar x) msg in
  let workDir := baseGitNode.getWorkDir (base x) msg evn in
  let msg := msg_PutValue msg KeyWorkDir workDir in
  r <- try (PlainOpen workDir) (TellFailure msg) ;;
  w <- try (Repository_Worktree r) (TellFailure msg) ;;
  (* are there changes? *)
  status <- try (Worktree_Status w) (TellFailure msg) ;;
  if Status_IsClean status then
    ret (TellFailure msg (errors_New "no changes to commit"))
  else
    err <- call (Worktree_AddGlob w (getPattern x msg evn)) ;;
    match err with
    | Some err => ret (TellFailure msg err)
    | None =>
        now <- call time_Now ;;
        let author := {| Name := getSignatureName x msg evn;
                         Email := getSignatureEmail x msg evn;
                         When := now |} in
        commit <- try (Worktree_Commit w (getMessage x msg evn) author) (TellFailure msg) ;;
        let msg := msg_PutValue msg KeyHash commit in
        ret (TellSuccess msg)
    end.

End Node.
End GitCommitNode.

(** ** [GitCreateTagNode] (src/unnamed/part_000) *)

Module GitCreateTagNode.

Record Configuration : Type := {
  Directory : string;
  Tag : string;
  Message : string;
  Signature : SignatureConfig
}.

Definition Map2Struct (c : types_Configuration) (x : Configuration) : Configuration :=
  {| Directory := decode (directory c) (Directory x);
     Tag := decode (tag c) (Tag x);
     Message := decode (message c) (Message x);
     Signature := decode (signature c) (Signature x) |}.

Record t : Type := {
  base : baseGitNode.t;
  Config : Configuration;
  hasVar : bool
}.

Definition Type_ : string := "ci/gitCreateTag".

Definition New : t :=
  {| base := {| baseGitNode.Config := baseGitNode.zero |};
     Config := {| Directory := ""; Tag := ""; Message := "";
                  Signature := {| AuthorName := ""; AuthorEmail := "" |} |};
     hasVar := false |}.

(** The run-time panic of a method call through a nil pointer. *)
Definition nil_dereference : string :=
  "runtime error: invalid memory address or nil pointer dereference".

Section Node.
Context `{Templates} `{GitOps}.

Definition Init (x : t) (configuration : types_Configuration) : t :=
  let cfg := Map2Struct configuration (Config x) in
  let bcfg := baseGitNode.Map2Struct configuration (baseGitNode.Config (base x)) in
  {| base := {| baseGitNode.Config := bcfg |};
     Config := cfg;
     hasVar := if CheckHasVar (Directory cfg) || CheckHasVar (Tag cfg)
                  || CheckHasVar (AuthorName (Signature cfg))
                  || CheckHasVar (AuthorEmail (Signature cfg))
               then true else hasVar x |}.

Definition render (field : string) (evn : option Env) : string :=
  match evn with
  | Some evn => ExecuteTemplate field evn
  | None => field
  end.

Definition getTag (x : t) (_ : RuleMsg) (evn : option Env) : string :=
  render (Tag (Config x)) evn.
Definition getMessage (x : t) (_ : RuleMsg) (evn : option Env) : string :=
  render (Message (Config x)) evn.
Definition getSignatureName (x : t) (_ : RuleMsg) (evn : option Env) : string :=
  render (AuthorName (Signature (Config x))) evn.
Definition getSignatureEmail (x : t) (_ : RuleMsg) (evn : option Env) : string :=
  render (AuthorEmail (Signature (Config x))) evn.

Definition OnMsg (x : t) (msg : RuleMsg) : Act World Outcome Outcome :=
  let evn := baseGitNode.evnOf (hasVar x) msg in
  let workDir := baseGitNode.getWorkDir (base x) msg evn in
  let msg := msg_PutValue msg KeyWorkDir workDir in
  r <- try (PlainOpen workDir) (TellFailure msg) ;;
  (* commit, err := r.Head(); if err != nil { }: the branch is empty *)
  head <- call (Repository_Head r) ;;
  let commit := head.1 in
  (* commit.Hash() *)
  match commit with
  | None => leave (Panic msg nil_dereference)
  | Some commit =>
      commitObj <- try (Repository_CommitObject r (Reference_Hash commit)) (TellFailure msg) ;;
      let name := getSignatureName x msg evn in
      let email := getSignatureEmail x msg evn in
      now <- call time_Now ;;
      let opts := {| Tag_Tagger := {| Name := name; Email := email; When := now |};
                     Tag_Message := getMessage x msg evn |} in
      annotatedTag <- try (Repository_CreateTag r (getTag x msg evn)
                                                (Commit_Hash commitObj) opts)
                          (TellFailure msg) ;;
      let msg := msg_PutValue msg KeyHash (Reference_Hash annotatedTag) in
      ret (TellSuccess msg)
  end.

End Node.
End GitCreateTagNode.

(** ** [GitPushNode] (src/ci/action/git_push.go) *)

Module GitPushNode.

Record Configuration : Type := {
  Repository : string;
  Directory : string;
  RefSpecs : string;
  AuthType : string;
  AuthUser : string;
  AuthPassword : string;
  AuthPemFile : string;
  ProxyUrl : string;
  ProxyUsername : string;
  ProxyPassword : string
}.

Definition Map2Struct (c : types_Configuration) (x : Configuration) : Configuration :=
  {| Repository := decode (repository c) (Repository x);
     Directory := decode (directory c) (Directory x);
     RefSpecs := decode (refSpecs c) (RefSpecs x);
     AuthType := decode (authType c) (AuthType x);
     AuthUser := decode (authUser c) (AuthUser x);
     AuthPassword := decode (authPassword c) (AuthPassword x);
     AuthPemFile := decode (authPemFile c) (AuthPemFile x);
     ProxyUrl := decode (proxyUrl c) (ProxyUrl x);
     ProxyUsername := decode (proxyUsername c) (ProxyUsername x);
     ProxyPassword := decode (proxyPassword c) (ProxyPassword x) |}.

Record t : Type := {
  base : baseGitNode.t;
  Config : Configuration;
  hasVar : bool
}.

Definition Type_ : string := "ci/gitPush".

Definition New : t :=
  {| base := {| baseGitNode.Config := baseGitNode.zero |};
     Config := {| Repository := ""; Directory := ""; RefSpecs := "";
                  AuthType := ""; AuthUser := ""; AuthPassword := ""; AuthPemFile := "";
                  ProxyUrl := ""; ProxyUsername := ""; ProxyPassword := "" |};
     hasVar := false |}.

Section Node.
Context `{Templates} `{GitOps}.

Definition Init (x : t) (configuration : types_Configuration) : t :=
  let cfg := Map2Struct configuration (Config x) in
  let bcfg := baseGitNode.Map2Struct configuration (baseGitNode.Config (base x)) in
  {| base := {| baseGitNode.Config := bcfg |};
     Config := cfg;
     hasVar := if CheckHasVar (Repository cfg) || CheckHasVar (Directory cfg)
                  || CheckHasVar (RefSpecs cfg)
               then true else hasVar x |}.

Definition OnMsg (x : t) (msg : RuleMsg) : Act World Outcome Outcome :=
  let evn := baseGitNode.evnOf (hasVar x) msg in
  let refSpecs := baseGitNode.getRefSpecs (base x) msg evn in
  let workDir := baseGitNode.getWorkDir (base x) msg evn in
  let msg := msg_PutValue msg KeyWorkDir workDir in
  let repository := baseGitNode.getRepository (base x) msg evn in
  r <- try (PlainOpen workDir) (TellFailure msg) ;;
  auth <- try (baseGitNode.getAuthMethod (base x)) (TellFailure msg) ;;
  let pushOptions :=
    {| Push_RemoteURL := repository;
       Push_RefSpecs := refSpecs;
       Push_Auth := auth |} in
  err <- call (Repository_Push r pushOptions) ;;
  match err with
  | Some err => ret (TellFailure msg err)
  | None => ret (TellSuccess msg)
  end.

End Node.
End GitPushNode.

(** ** [GitLogNode] (src/ci/action/git_log.go) *)

Module GitLogNode.

Record Configuration : Type := {
  Directory : string;
  Limit : Z;
  StartTime : string;
  EndTime : string
}.

Definition Map2Struct (c : types_Configuration) (x : Configuration) : Configuration :=
  {| Directory := decode (directory c) (Directory x);
     Limit := decode (limit c) (Limit x);
     StartTime := decode (startTime c) (StartTime x);
     EndTime := decode (endTime c) (EndTime x) |}.

(** [startTimeTemplate] and [endTimeTemplate] hold [str.NewTemplate] of
    the text they were built from. *)
Record t : Type := {
  base : baseGitNode.t;
  Config : Configuration;
  hasVar : bool;
  startTimeTemplate : string;
  endTimeTemplate : string
}.

Definition Type_ : string := "ci/gitLog".

Definition New : t :=
  {| base := {| baseGitNode.Config := baseGitNode.zero |};
     Config := {| Directory := ""; Limit := 10; StartTime := ""; EndTime := "" |};
     hasVar := false; startTimeTemplate := ""; endTimeTemplate := "" |}.

Definition layout : string := "2006-01-02 15:04:05".

Definition toCommitter (s : Signature) : Committer :=
  {| Committer_Name := Name s; Committer_Email := Email s; Committer_When := When s |}.

(** The [LogMsg] literal appended for a commit. *)
Definition toLogMsg (commit : Commit) : LogMsg :=
  {| LogMsg_Hash := Commit_Hash commit;
     LogMsg_Author := toCommitter (Commit_Author commit);
     LogMsg_Committer := toCommitter (Commit_Committer commit);
     LogMsg_MergeTag := Commit_MergeTag commit;
     LogMsg_Message := Commit_Message commit;
     LogMsg_TreeHash := Commit_TreeHash commit;
     LogMsg_Encoding := Commit_Encoding commit |}.

(** The time-range test of the loop: [true] when the commit is skipped. *)
Definition outOfRange (startTime endTime : Time) (commit : Commit) : bool :=
  (negb (time.IsZero startTime)
   && time.Before (When (Commit_Committer commit)) startTime)
  || (negb (time.IsZero endTime)
      && time.After (When (Commit_Committer commit)) endTime).

(** The [for] loop of [OnMsg] over the commits the iterator still yields;
    [i] counts the entries appended so far and never exceeds their number. *)
Fixpoint logLoop (limit : Z) (startTime endTime : Time) (iter : list Commit)
         (i : Z) (messages : list LogMsg) : list LogMsg :=
  match iter with
  | [] => messages
  | commit :: iter' =>
      if outOfRange startTime endTime commit then
        logLoop limit startTime endTime iter' i messages
      else
        let messages := messages ++ [toLogMsg commit] in
        let i := i + 1 in
        if negb (limit =? 0) && (limit <=? i) then messages
        else logLoop limit startTime endTime iter' i messages
  end.

(** The bare-date normalisation of the rendered bounds. *)
Definition normalize (timeStr suffix : string) : string :=
  if negb (String.eqb timeStr "") && (String.length timeStr =? 10)%nat
  then timeStr +:+ suffix else timeStr.

Section Node.
Context `{GoStd} `{Templates} `{GitOps}.

Definition Init (x : t) (configuration : types_Configuration) : t :=
  let cfg := Map2Struct configuration (Config x) in
  let bcfg := baseGitNode.Map2Struct configuration (baseGitNode.Config (base x)) in
  let cfg := {| Directory := Directory cfg; Limit := Limit cfg;
                StartTime := strings_TrimSpace (StartTime cfg);
                EndTime := strings_TrimSpace (EndTime cfg) |} in
  {| base := {| baseGitNode.Config := bcfg |};
     Config := cfg;
     hasVar := if CheckHasVar (StartTime cfg) || CheckHasVar (EndTime cfg)
               then true else hasVar x;
     startTimeTemplate := StartTime cfg;
     endTimeTemplate := EndTime cfg |}.

Definition OnMsg (x : t) (msg : RuleMsg) : Act World Outcome Outcome :=
  let evn := baseGitNode.evnOf (hasVar x) msg in
  let workDir := baseGitNode.getWorkDir (base x) msg evn in
  let msg := msg_PutValue msg KeyWorkDir workDir in
  let startTimeStr := Template_Execute (startTimeTemplate x) evn in
  let endTimeStr := Template_Execute (endTimeTemplate x) evn in
  let startTimeStr := normalize startTimeStr " 00:00:00" in
  let endTimeStr := normalize endTimeStr " 23:59:59" in
  r <- try (PlainOpen workDir) (TellFailure msg) ;;
  let startTime := (time_Parse layout startTimeStr).1 in
  let endTime := (time_Parse layout endTimeStr).1 in
  iter <- try (Repository_Log r) (TellFailure msg) ;;
  let messages := logLoop (Limit (Config x)) startTime endTime iter 0 [] in
  let msg := msg_SetData msg JSON (ToString messages) in
  ret (TellSuccess msg).

End Node.
End GitLogNode.

(** ** [PsNode] (second part of src/ci/action/git_clone.go) *)

(** gopsutil: the statistics types and the collectors, each returning its Go
    pair [(value, err)]; a pointer result is an [option], a slice a list, and
    the map of [disk.IOCounters] the list of its entries in the order the
    [range] loop visits them. *)
Class Gopsutil : Type := {
  Host : Type;
  HostInfoStat : Type;
  CpuInfoStat : Type;
  Float64 : Type;
  VirtualMemoryStat : Type;
  SwapMemoryStat : Type;
  PartitionStat : Type;
  Mountpoint : PartitionStat -> string;
  UsageStat : Type;
  DiskIOCountersStat : Type;
  NetIOCountersStat : Type;
  InterfaceStat : Type;
  host_Info : Host -> (option HostInfoStat * option error) * Host;
  cpu_Info : Host -> (list CpuInfoStat * option error) * Host;
  (** [cpu.Percent(time.Second, false)] *)
  cpu_Percent : Host -> (list Float64 * option error) * Host;
  mem_VirtualMemory : Host -> (option VirtualMemoryStat * option error) * Host;
  mem_SwapMemory : Host -> (option SwapMemoryStat * option error) * Host;
  (** [disk.Partitions(true)] *)
  disk_Partitions : Host -> (list PartitionStat * option error) * Host;
  disk_Usage : string -> Host -> (option UsageStat * option error) * Host;
  disk_IOCounters : Host -> (list (string * DiskIOCountersStat) * option error) * Host;
  (** [net.IOCounters(true)] *)
  net_IOCounters : Host -> (list NetIOCountersStat * option error) * Host;
  net_Interfaces : Host -> (list InterfaceStat * option error) * Host
}.

Module PsNode.

Definition OptionsHostInfo : string := "host/info".
Definition OptionsCpuInfo : string := "cpu/info".
Definition OptionsCpuPercent : string := "cpu/percent".
Definition OptionsVirtualMemory : string := "mem/virtualMemory".
Definition OptionsSwapMemory : string := "mem/swapMemory".
Definition OptionsDiskUsage : string := "disk/usage".
Definition OptionsDiskIOCounters : string := "disk/ioCounters".
Definition OptionsNetIOCounters : string := "net/ioCounters".
Definition OptionsInterfaces : string := "net/interfaces".

Definition allOptions : list string :=
  [OptionsHostInfo; OptionsCpuInfo; OptionsCpuPercent; OptionsVirtualMemory;
   OptionsSwapMemory; OptionsDiskUsage; OptionsDiskIOCounters;
   OptionsNetIOCounters; OptionsInterfaces].

Record Configuration : Type := { Options : list string }.

Definition Map2Struct (c : types_Configuration) (x : Configuration) : Configuration :=
  {| Options := decode (options c) (Options x) |}.

Record t : Type := {
  Config : Configuration;
  All : bool;
  Metrics : gmap string bool
}.

Definition Type_ : string := "ci/ps".

Definition New : t := {| Config := {| Options := [] |}; All := false; Metrics := ∅ |}.

Definition Init (x : t) (configuration : types_Configuration) : t :=
  let cfg := Map2Struct configuration (Config x) in
  {| Config := cfg;
     All := (length (Options cfg) =? 0)%nat;
     Metrics := foldl (fun m item => <[item := true]> m) ∅ (Options cfg) |}.

Definition contains (x : t) (target : string) : bool :=
  if All x then true
  else match Metrics x !! target with
       | Some _ => true
       | None => false
       end.

Section Node.
Context `{Gopsutil}.

(** The dynamic values stored in [result map[string]interface{}]. *)
Inductive Value : Type :=
| HostInfoValue (v : option HostInfoStat)
| CpuInfoValue (v : list CpuInfoStat)
| CpuPercentValue (v : list Float64)
| VirtualMemoryValue (v : option VirtualMemoryStat)
| SwapMemoryValue (v : option SwapMemoryStat)
| DiskUsageValue (v : list UsageStat)
| DiskIOCountersValue (v : list DiskIOCountersStat)
| NetIOCountersValue (v : list NetIOCountersStat)
| InterfacesValue (v : list InterfaceStat).

(** [json.Marshal(result)] followed by [string(resultJSON)], with the
    error dropped as [OnMsg] drops it. *)
Context (json_Marshal : gmap string Value -> string).

(** The loop over the partitions: [disk.Usage] per mount point, the
    non-nil results appended. *)
Fixpoint diskUsagesOf (diskInfo : list PartitionStat) (diskUsages : list UsageStat)
  : Act Host Outcome (list UsageStat) :=
  match diskInfo with
  | [] => ret diskUsages
  | part :: diskInfo' =>
      u <- call (disk_Usage (Mountpoint part)) ;;
      match u.1 with
      | Some diskUsage => diskUsagesOf diskInfo' (diskUsages ++ [diskUsage])
      | None => diskUsagesOf diskInfo' diskUsages
      end
  end.

(** One [if <wanted> { v, _ := collect(); result[key] = v }] block. *)
Definition collect {A} (wanted : bool) (key : string)
           (collector : Act Host Outcome A) (box : A -> Value)
           (result : gmap string Value) : Act Host Outcome (gmap string Value) :=
  if wanted then
    v <- collector ;;
    ret (<[key := box v]> result)
  else ret result.

Definition fst_of {A} (f : Host -> (A * option error) * Host) : Act Host Outcome A :=
  r <- call f ;; ret r.1.

(** The [result] map that [OnMsg] fills (its lines 285-347). *)
Definition collectAll (x : t) : Act Host Outcome (gmap string Value) :=
  let result : gmap string Value := ∅ in
  result <- collect (All x || contains x OptionsHostInfo) OptionsHostInfo
                    (fst_of host_Info) HostInfoValue result ;;
  result <- collect (All x || contains x OptionsCpuInfo) OptionsCpuInfo
                    (fst_of cpu_Info) CpuInfoValue result ;;
  result <- collect (All x || contains x OptionsCpuPercent) OptionsCpuPercent
                    (fst_of cpu_Percent) CpuPercentValue result ;;
  result <- collect (contains x OptionsVirtualMemory) OptionsVirtualMemory
                    (fst_of mem_VirtualMemory) VirtualMemoryValue result ;;
  result <- collect (contains x OptionsSwapMemory) OptionsSwapMemory
                    (fst_of mem_SwapMemory) SwapMemoryValue result ;;
  result <- collect (contains x OptionsDiskUsage) OptionsDiskUsage
                    (diskInfo <- fst_of disk_Partitions ;; diskUsagesOf diskInfo [])
                    DiskUsageValue result ;;
  result <- collect (contains x OptionsDiskIOCounters) OptionsDiskIOCounters
                    (diskIOCounters <- fst_of disk_IOCounters ;;
                     ret (map snd diskIOCounters))
                    DiskIOCountersValue result ;;
  result <- collect (contains x OptionsNetIOCounters) OptionsNetIOCounters
                    (fst_of net_IOCounters) NetIOCountersValue result ;;
  result <- collect (contains x OptionsInterfaces) OptionsInterfaces
                    (fst_of net_Interfaces) InterfacesValue result ;;
  ret result.

Definition OnMsg (x : t) (msg : RuleMsg) : Act Host Outcome Outcome :=
  result <- collectAll x ;;
  (* msg.SetData(string(resultJSON)) *)
  let msg := msg_SetData msg (DataType msg) (json_Marshal result) in
  ret (TellSuccess msg).

End Node.
End PsNode.

(** ** A reference instance of the collaborators

    A small executable stand-in for the libraries, on which the nodes can be
    run: "${name}" templates over the metadata, a parser for the one time
    layout the package uses, a file system of repository directories with
    their histories, and a host whose collectors fail on demand. *)

Module Ref.

(** *** Templates *)

(** The variables of an environment: "metadata.k" and "k" for a metadata
    key [k], and "data", "type", "dataType". *)
Definition lookupVar (msg : RuleMsg) (name : string) : option string :=
  if String.prefix "metadata." name
  then Metadata msg !! String.substring 9 (String.length name - 9) name
  else if String.eqb name "data" then Some (Data msg)
  else if String.eqb name "type" then Some (Type_ msg)
  else if String.eqb name "dataType" then Some (DataType msg)
  else Metadata msg !! name.

(** Rendering: [open = None] outside a marker, [Some key] after "${" with
    the bytes of the name read so far. An unbound or unterminated marker is
    left as written. *)
Fixpoint render (env : RuleMsg) (s : string) (open : option string) : string :=
  match s with
  | EmptyString =>
      match open with
      | None => ""
      | Some key => "${" +:+ key
      end
  | String c rest =>
      match open with
      | Some key =>
          if Ascii.eqb c "}" then
            match lookupVar env key with
            | Some v => v
            | None => "${" +:+ key +:+ "}"
            end +:+ render env rest None
          else render env rest (Some (key +:+ String c ""))
      | None =>
          match rest with
          | String c' rest' =>
              if Ascii.eqb c "$" && Ascii.eqb c' "{"
              then render env rest' (Some "")
              else String c (render env rest None)
          | EmptyString => String c ""
          end
      end
  end.

Definition hasVar (s : string) : bool :=
  strings.Contains s "${" && strings.Contains s "}".

Definition hashes (messages : list LogMsg) : string :=
  foldr (fun m acc => LogMsg_Hash m +:+ ";" +:+ acc) "" messages.

Definition templates : Templates :=
  {| Env := RuleMsg;
     CheckHasVar := hasVar;
     ExecuteTemplate := fun tmpl evn => render evn tmpl None;
     Template_Execute := fun tmpl evn =>
       match evn with
       | Some evn => render evn tmpl None
       | None => tmpl
       end;
     GetEvnAndMetadata := fun msg => msg;
     ToString := hashes |}.

(** *** Time *)

Definition digit (c : ascii) : option Z :=
  let n := Z.of_nat (nat_of_ascii c) in
  if (48 <=? n) && (n <=? 57) then Some (n - 48) else None.

Fixpoint number (cs : list ascii) (acc : Z) : option Z :=
  match cs with
  | [] => Some acc
  | c :: cs' =>
      match digit c with
      | Some d => number cs' (10 * acc + d)
      | None => None
      end
  end.

Definition isLeap (y : Z) : bool :=
  (y mod 4 =? 0) && (negb (y mod 100 =? 0) || (y mod 400 =? 0)).

Definition daysIn (y m : Z) : Z :=
  if m =? 2 then (if isLeap y then 29 else 28)
  else if (m =? 4) || (m =? 6) || (m =? 9) || (m =? 11) then 30 else 31.

Fixpoint daysBefore (y : Z) (m : nat) : Z :=
  match m with
  | O => 0
  | S m' => daysBefore y m' + daysIn y (Z.of_nat m)
  end.

(** Seconds from January 1, year 1, 00:00:00 UTC. *)
Definition unixish (y m d hh mm ss : Z) : Z :=
  let y' := y - 1 in
  let days := 365 * y' + y' / 4 - y' / 100 + y' / 400
              + daysBefore y (Z.to_nat (m - 1)) + (d - 1) in
  ((days * 24 + hh) * 60 + mm) * 60 + ss.

Definition parseError : error := lib_error "parsing time: cannot parse".

(** "yyyy-MM-dd HH:mm:ss", nineteen bytes, every field in range. *)
Definition instant (value : string) : option Time :=
  match String.list_ascii_of_string value with
  | [y1; y2; y3; y4; s1; m1; m2; s2; d1; d2; s3; h1; h2; s4; n1; n2; s5; c1; c2] =>
      match number [y1; y2; y3; y4] 0, number [m1; m2] 0, number [d1; d2] 0,
            number [h1; h2] 0, number [n1; n2] 0, number [c1; c2] 0 with
      | Some y, Some m, Some d, Some hh, Some mm, Some ss =>
          if Ascii.eqb s1 "-" && Ascii.eqb s2 "-" && Ascii.eqb s3 " "
             && Ascii.eqb s4 ":" && Ascii.eqb s5 ":"
             && (1 <=? m) && (m <=? 12) && (1 <=? d) && (d <=? daysIn y m)
             && (hh <? 24) && (mm <? 60) && (ss <? 60)
          then Some (unixish y m d hh mm ss * 1000000000)
          else None
      | _, _, _, _, _, _ => None
      end
  | _ => None
  end.

Definition parse (layout value : string) : Time * option error :=
  match instant value with
  | Some t => (t, None)
  | None => (0, Some parseError)
  end.

Definition isSpace (c : ascii) : bool :=
  let n := nat_of_ascii c in
  (n =? 32)%nat || ((9 <=? n)%nat && (n <=? 13)%nat).

Fixpoint trimLeft (s : string) : string :=
  match s with
  | String c rest => if isSpace c then trimLeft rest else s
  | EmptyString => ""
  end.

Fixpoint trimRight (s : string) : string :=
  match s with
  | String c rest =>
      match trimRight rest with
      | EmptyString => if isSpace c then "" else String c ""
      | rest' => String c rest'
      end
  | EmptyString => ""
  end.

(** White space of the ASCII range only. *)
Definition go : GoStd :=
  {| strings_TrimSpace := fun s => trimRight (trimLeft s);
     time_Parse := parse |}.

End Ref.

Module RefWorld.

(** *** Repositories

    The directories that hold a repository, each with its history (newest
    commit first) and whether its working tree has pending changes; the
    remote never changes, so a pull finds nothing new. *)
Record Repo : Type := {
  history : list Commit;
  pending : bool
}.

Record State : Type := {
  repos : gmap string Repo;
  clock : Time
}.

Definition types : GitTypes :=
  {| Repository := string; Worktree := string; Status := bool;
     Reference := Hash; PublicKeys := string |}.

Definition notFound : error := lib_error "repository does not exist".
Definition noRemote : error := lib_error "repository not found".
Definition noReference : error := lib_error "reference not found".
Definition noObject : error := lib_error "object not found".
Definition noKeyFile : error := lib_error "open: no such file or directory".

Definition withRepo (w : State) (dir : string) (r : Repo) : State :=
  {| repos := <[dir := r]> (repos w); clock := clock w |}.

Definition historyOf (w : State) (dir : string) : list Commit :=
  match repos w !! dir with
  | Some r => history r
  | None => []
  end.

Definition newCommit (h : Hash) (msg : string) (author : Signature) : Commit :=
  {| Commit_Hash := h; Commit_Author := author; Commit_Committer := author;
     Commit_MergeTag := ""; Commit_Message := msg; Commit_TreeHash := "tree-" +:+ h;
     Commit_Encoding := "UTF-8" |}.

Definition stat (name : string) (w : State) : bool * State :=
  (match repos w !! name with Some _ => false | None => true end, w).

Definition keys (user pemFile password : string) (w : State) : result string * State :=
  (if String.eqb pemFile "" then Err noKeyFile else Ok pemFile, w).

Definition clone (dir : string) (isBare : bool) (o : @CloneOptions types) (w : State)
  : option error * State :=
  if String.eqb (Clone_URL o) "" then (Some noRemote, w)
  else (None, withRepo w dir {| history := []; pending := false |}).

Definition open (dir : string) (w : State) : result string * State :=
  (match repos w !! dir with Some _ => Ok dir | None => Err notFound end, w).

Definition pull (dir : string) (o : @PullOptions types) (w : State) : option error * State :=
  (Some NoErrAlreadyUpToDate, w).

Definition status (dir : string) (w : State) : result bool * State :=
  (match repos w !! dir with
   | Some r => Ok (negb (pending r))
   | None => Err notFound
   end, w).

Definition commit (dir msg : string) (author : Signature) (w : State) : result Hash * State :=
  let h := "c" +:+ String (ascii_of_nat (48 + length (historyOf w dir))) "" in
  (Ok h, withRepo w dir {| history := newCommit h msg author :: historyOf w dir;
                           pending := false |}).

Definition head (dir : string) (w : State) : (option Hash * option error) * State :=
  (match historyOf w dir with
   | c :: _ => (Some (Commit_Hash c), None)
   | [] => (None, Some noReference)
   end, w).

Definition commitObject (dir : string) (h : Hash) (w : State) : result Commit * State :=
  (match List.find (fun c => String.eqb (Commit_Hash c) h) (historyOf w dir) with
   | Some c => Ok c
   | None => Err noObject
   end, w).

Definition createTag (dir name : string) (h : Hash) (o : CreateTagOptions) (w : State)
  : result Hash * State :=
  (Ok ("tag-" +:+ name), w).

Definition now (w : State) : Time * State :=
  (clock w, {| repos := repos w; clock := clock w + 1 |}).

Definition git : @GitOps types :=
  @Build_GitOps types State
    stat                          (* os_Stat_IsNotExist *)
    keys                          (* NewPublicKeysFromFile *)
    clone                         (* PlainClone *)
    open                          (* PlainOpen *)
    (fun dir w => (Ok dir, w))    (* Repository_Worktree *)
    pull                          (* Worktree_Pull *)
    status                        (* Worktree_Status *)
    (fun clean => clean)          (* Status_IsClean *)
    (fun _ _ w => (None, w))      (* Worktree_AddGlob *)
    commit                        (* Worktree_Commit *)
    head                          (* Repository_Head *)
    (fun h => h)                  (* Reference_Hash *)
    commitObject                  (* Repository_CommitObject *)
    createTag                     (* Repository_CreateTag *)
    (fun _ _ w => (None, w))      (* Repository_Push *)
    (fun dir w => (Ok (historyOf w dir), w))   (* Repository_Log *)
    now.                          (* time_Now *)

(** *** The host of the metrics node: the options whose collector fails. *)
Definition failure : error := lib_error "not implemented yet".

Definition probe {A} (key : string) (ok bad : A) (failing : list string)
  : (A * option error) * list string :=
  (if bool_decide (key ∈ failing) then (bad, Some failure) else (ok, None), failing).

Definition ps : Gopsutil :=
  {| Host := list string;
     HostInfoStat := string; CpuInfoStat := string; Float64 := Z;
     VirtualMemoryStat := Z; SwapMemoryStat := Z;
     PartitionStat := string; Mountpoint := fun p => p;
     UsageStat := Z; DiskIOCountersStat := Z; NetIOCountersStat := Z;
     InterfaceStat := string;
     host_Info := probe PsNode.OptionsHostInfo (Some "linux") None;
     cpu_Info := probe PsNode.OptionsCpuInfo ["cpu0"] [];
     cpu_Percent := probe PsNode.OptionsCpuPercent [12] [];
     mem_VirtualMemory := probe PsNode.OptionsVirtualMemory (Some 4096) None;
     mem_SwapMemory := probe PsNode.OptionsSwapMemory (Some 0) None;
     disk_Partitions := probe PsNode.OptionsDiskUsage ["/"; "/data"] [];
     disk_Usage := fun mount => probe mount (Some 50) None;
     disk_IOCounters := probe PsNode.OptionsDiskIOCounters [("sda", 7)] [];
     net_IOCounters := probe PsNode.OptionsNetIOCounters [3] [];
     net_Interfaces := probe PsNode.OptionsInterfaces ["lo"] [] |}.

(** The keys of the marshalled map. *)
Definition marshal (result : gmap string (@PsNode.Value ps)) : string :=
  foldr (fun kv acc => kv.1 +:+ ";" +:+ acc) "" (map_to_list result).

End RefWorld.

(** ** The five git nodes behind the [types.Node] interface *)

Inductive GitNode : Type :=
| Clone (x : GitCloneNode.t)
| CommitChanges (x : GitCommitNode.t)
| CreateTag (x : GitCreateTagNode.t)
| Push (x : GitPushNode.t)
| Log (x : GitLogNode.t).

Definition embedded (n : GitNode) : baseGitNode.t :=
  match n with
  | Clone x => GitCloneNode.base x
  | CommitChanges x => GitCommitNode.base x
  | CreateTag x => GitCreateTagNode.base x
  | Push x => GitPushNode.base x
  | Log x => GitLogNode.base x
  end.

Definition flag (n : GitNode) : bool :=
  match n with
  | Clone x => GitCloneNode.hasVar x
  | CommitChanges x => GitCommitNode.hasVar x
  | CreateTag x => GitCreateTagNode.hasVar x
  | Push x => GitPushNode.hasVar x
  | Log x => GitLogNode.hasVar x
  end.

Section Dispatch.
Context `{GoStd} `{Templates} `{GitOps}.

(** [node.OnMsg(ctx, msg)] run to the outcome it hands back. *)
Definition OnMsg (n : GitNode) (msg : RuleMsg) : World -> Outcome * World :=
  match n with
  | Clone x => exec (GitCloneNode.OnMsg x msg)
  | CommitChanges x => exec (GitCommitNode.OnMsg x msg)
  | CreateTag x => exec (GitCreateTagNode.OnMsg x msg)
  | Push x => exec (GitPushNode.OnMsg x msg)
  | Log x => exec (GitLogNode.OnMsg x msg)
  end.

(** One node invoked on a sequence of messages, one after the other, in
    the world the previous invocation left behind. *)
Fixpoint invocations (n : GitNode) (msgs : list RuleMsg) (w : World) : list Outcome :=
  match msgs with
  | [] => []
  | msg :: msgs' =>
      let '(o, w') := OnMsg n msg w in
      o :: invocations n msgs' w'
  end.
End Dispatch.

(** ** The work-directory mapping in the words of the specification *)

(** [seg] is the last "/"-separated segment of [U]. *)
Definition last_segment (U seg : string) : Prop :=
  ("/"%char ∉ String.list_ascii_of_string seg)
  /\ (U = seg \/ exists p, U = p +:+ "/" +:+ seg).

(** [r] is [seg] with a trailing ".git" removed. *)
Definition without_git_suffix (seg r : string) : Prop :=
  seg = r +:+ ".git" \/ (r = seg /\ forall r', seg <> r' +:+ ".git").

(** The short name of the repository at URL [U]. *)
Definition short_name (U r : string) : Prop :=
  exists seg, last_segment U seg /\ without_git_suffix seg r.

(** ** Pull and commit steps, for stating what the nodes do at them *)

Section Steps.
Context `{Templates} `{GitOps}.

(** The [git.PullOptions] that [GitCloneNode.OnMsg] builds. *)
Definition pullOptionsOf (x : GitCloneNode.t) (msg : RuleMsg) (auth : AuthMethod)
  : PullOptions :=
  let evn := baseGitNode.evnOf (GitCloneNode.hasVar x) msg in
  let workDir := baseGitNode.getWorkDir (GitCloneNode.base x) msg evn in
  {| Pull_RemoteURL :=
       baseGitNode.getRepository (GitCloneNode.base x)
                                 (msg_PutValue msg KeyWorkDir workDir) evn;
     Pull_Force := true;
     Pull_ProxyOptions := baseGitNode.getProxy (GitCloneNode.base x);
     Pull_ReferenceName := baseGitNode.getReferenceName (GitCloneNode.base x) msg evn;
     Pull_Auth := auth |}.

(** In world [w] the work directory of [msg] exists, opens, and its pull
    step is reached and reports [perr], leaving the world [w']. *)
Definition pull_reports (x : GitCloneNode.t) (msg : RuleMsg) (w : World)
           (perr : option error) (w' : World) : Prop :=
  let evn := baseGitNode.evnOf (GitCloneNode.hasVar x) msg in
  let workDir := baseGitNode.getWorkDir (GitCloneNode.base x) msg evn in
  exists w1 w2 w3 w4 r wt auth,
    os_Stat_IsNotExist workDir w = (false, w1)
    /\ PlainOpen workDir w1 = (Ok r, w2)
    /\ Repository_Worktree r w2 = (Ok wt, w3)
    /\ baseGitNode.getAuthMethod (GitCloneNode.base x) w3 = (Ok auth, w4)
    /\ Worktree_Pull wt (pullOptionsOf x msg auth) w4 = (perr, w').

(** In world [w] the work directory of [msg] opens and the status of its
    working tree is computed, with [clean] for [status.IsClean()]. *)
Definition status_reports (x : GitCommitNode.t) (msg : RuleMsg) (w : World)
           (clean : bool) (w' : World) : Prop :=
  let evn := baseGitNode.evnOf (GitCommitNode.hasVar x) msg in
  let workDir := baseGitNode.getWorkDir (GitCommitNode.base x) msg evn in
  exists w1 w2 r wt status,
    PlainOpen workDir w = (Ok r, w1)
    /\ Repository_Worktree r w1 = (Ok wt, w2)
    /\ Worktree_Status wt w2 = (Ok status, w')
    /\ Status_IsClean status = clean.
End Steps.

(** ** The log query in the words of the specification *)

Definition committerTime (c : Commit) : Time := When (Commit_Committer c).

(** [t] lies inside each bound that is set; a zero bound is unbounded. *)
Definition inBounds (startTime endTime t : Time) : Prop :=
  (startTime = 0 \/ startTime <= t) /\ (endTime = 0 \/ t <= endTime).

Global Instance inBounds_dec startTime endTime t : Decision (inBounds startTime endTime t).
Proof. unfold inBounds. apply _. Defined.

(** The commits of the history that match the window, in history order. *)
Definition matching (startTime endTime : Time) (history : list Commit) : list Commit :=
  filter (fun c => inBounds startTime endTime (committerTime c)) history.

(** Most recent first. *)
Definition newestFirst (history : list Commit) : Prop :=
  StronglySorted (fun a b => committerTime b <= committerTime a) history.

(** How many more entries the loop may append when it has appended [i]:
    unbounded for the limit 0, else [limit - i], and never less than one,
    because the limit is only tested after an entry was appended. *)
Definition quota (limit i : Z) : option nat :=
  if limit =? 0 then None else Some (Z.to_nat (Z.max 1 (limit - i))).

Definition upTo {A} (q : option nat) (l : list A) : list A :=
  match q with
  | None => l
  | Some k => take k l
  end.

Section LogSteps.
Context `{GoStd} `{Templates} `{GitOps}.

(** The bound strings [GitLogNode.OnMsg] hands to [time.Parse]: the
    rendered templates after the bare-date normalisation. *)
Definition startTimeStr (x : GitLogNode.t) (msg : RuleMsg) : string :=
  GitLogNode.normalize
    (Template_Execute (GitLogNode.startTimeTemplate x)
                      (baseGitNode.evnOf (GitLogNode.hasVar x) msg))
    " 00:00:00".

Definition endTimeStr (x : GitLogNode.t) (msg : RuleMsg) : string :=
  GitLogNode.normalize
    (Template_Execute (GitLogNode.endTimeTemplate x)
                      (baseGitNode.evnOf (GitLogNode.hasVar x) msg))
    " 23:59:59".

(** The bounds it filters with. *)
Definition startTimeOf (x : GitLogNode.t) (msg : RuleMsg) : Time :=
  (time_Parse GitLogNode.layout (startTimeStr x msg)).1.

Definition endTimeOf (x : GitLogNode.t) (msg : RuleMsg) : Time :=
  (time_Parse GitLogNode.layout (endTimeStr x msg)).1.

(** In world [w] the work directory of [msg] opens and its log iterator
    yields the commits [iter]. *)
Definition log_reports (x : GitLogNode.t) (msg : RuleMsg) (w : World)
           (iter : list Commit) (w' : World) : Prop :=
  let evn := baseGitNode.evnOf (GitLogNode.hasVar x) msg in
  let workDir := baseGitNode.getWorkDir (GitLogNode.base x) msg evn in
  exists w1 r,
    PlainOpen workDir w = (Ok r, w1) /\ Repository_Log r w1 = (Ok iter, w').

(** The message a log query tells Success with when it returns [entries]. *)
Definition logged (x : GitLogNode.t) (msg : RuleMsg) (entries : list LogMsg) : RuleMsg :=
  let evn := baseGitNode.evnOf (GitLogNode.hasVar x) msg in
  let workDir := baseGitNode.getWorkDir (GitLogNode.base x) msg evn in
  msg_SetData (msg_PutValue msg KeyWorkDir workDir) JSON (ToString entries).
End LogSteps.

(** ** Concrete nodes, messages and worlds on the reference collaborators *)

Module Scenario.

Definition url : string := "https://example/repo.git".

(** Metadata {workDir: "/base", ref: "dev", gitHttpUrl: url, root: "/srv"}. *)
Definition msg : RuleMsg :=
  {| Type_ := "test"; DataType := JSON; Data := "";
     Metadata := {[ "workDir" := "/base"; "ref" := "dev"; "gitHttpUrl" := url;
                    "root" := "/srv" ]} |}.

Definition configured (repository directory reference authType : string)
           (limit : option Z) (startTime endTime : string) : types_Configuration :=
  {| repository := Some repository; directory := Some directory;
     reference := Some reference; authType := Some authType;
     authUser := Some "ci"; authPassword := Some "secret"; authPemFile := None;
     proxyUrl := None; proxyUsername := None; proxyPassword := None;
     refSpecs := None; pattern := Some "*"; message := Some "update";
     tag := Some "v1"; signature := None; limit := limit;
     startTime := Some startTime; endTime := Some endTime; options := None |}.

(** The end-to-end scenario of the specification: repository set, directory
    and reference left empty. *)
Definition plain : types_Configuration := configured url "" "" "token" None "" "".

(** The directory given as a template. *)
Definition templated : types_Configuration :=
  configured url "${metadata.root}" "" "token" None "" "".

Definition only (opts : list string) : types_Configuration :=
  {| repository := None; directory := None; reference := None; authType := None;
     authUser := None; authPassword := None; authPemFile := None; proxyUrl := None;
     proxyUsername := None; proxyPassword := None; refSpecs := None; pattern := None;
     message := None; tag := None; signature := None; limit := None;
     startTime := None; endTime := None; options := Some opts |}.

Definition at_ (value : string) : Time := (Ref.parse GitLogNode.layout value).1.

Definition by_dev (t : Time) : Signature :=
  {| Name := "dev"; Email := "dev@example"; When := t |}.

Definition c1 : Commit := RefWorld.newCommit "c1" "first" (by_dev (at_ "2024-01-01 12:00:00")).
Definition c2 : Commit := RefWorld.newCommit "c2" "second" (by_dev (at_ "2024-01-02 12:00:00")).
Definition c3 : Commit := RefWorld.newCommit "c3" "third" (by_dev (at_ "2024-01-03 12:00:00")).

Definition holding (history : list Commit) (pending : bool) : RefWorld.State :=
  {| RefWorld.repos := {[ "/base/repo" := {| RefWorld.history := history;
                                             RefWorld.pending := pending |} ]};
     RefWorld.clock := at_ "2024-01-04 00:00:00" |}.

(** No repository yet; a clone without commits; three commits, clean. *)
Definition empty : RefWorld.State :=
  {| RefWorld.repos := ∅; RefWorld.clock := at_ "2024-01-04 00:00:00" |}.
Definition unborn : RefWorld.State := holding [] false.
Definition clean : RefWorld.State := holding [c3; c2; c1] false.

(** The nodes initialised from the [plain] configuration. *)
Definition clone : GitCloneNode.t :=
  @GitCloneNode.Init Ref.templates GitCloneNode.New plain.
Definition commit : GitCommitNode.t :=
  @GitCommitNode.Init Ref.templates GitCommitNode.New plain.
Definition tagger : GitCreateTagNode.t :=
  @GitCreateTagNode.Init Ref.templates GitCreateTagNode.New plain.

(** Log queries: the limit -1; the one-day window of January 2 with no
    limit; a start time that is no date with no limit. *)
Definition logNode (limit : Z) (startTime endTime : string) : GitLogNode.t :=
  @GitLogNode.Init Ref.go Ref.templates GitLogNode.New
                   (configured url "" "" "token" (Some limit) startTime endTime).
Definition minusOne : GitLogNode.t := logNode (-1) "" "".
Definition oneDay : GitLogNode.t := logNode 0 "2024-01-02" " 2024-01-02 ".
Definition sinceYesterday : GitLogNode.t := logNode 0 "yesterday" "".

(** The nodes initialised from the [templated] configuration. *)
Definition templatedLog : GitLogNode.t :=
  @GitLogNode.Init Ref.go Ref.templates GitLogNode.New templated.
Definition templatedCommit : GitCommitNode.t :=
  @GitCommitNode.Init Ref.templates GitCommitNode.New templated.

(** The metrics node asked for "host/info" only, and a host on which
    [host.Info] fails. *)
Definition hostInfoOnly : PsNode.t := PsNode.Init PsNode.New (only [PsNode.OptionsHostInfo]).
Definition noHostInfo : list string := [PsNode.OptionsHostInfo].

End Scenario.

(** [strings.Join(segs, sep)] for a one-byte separator. *)
Fixpoint joined (sep : ascii) (segs : list string) : string :=
  match segs with
  | [] => ""
  | [seg] => seg
  | seg :: segs' => seg +:+ String sep (joined sep segs')
  end.

Section Total.
Context `{Gopsutil}.

(** A collector never ends the invocation: its error is dropped. *)
Definition total {A} (collector : Act Host Outcome A) : Prop :=
  forall h, exists v h', collector h = (inl v, h').
End Total.

(** ** The stand-alone [GitCloneNode] (second part of src/unnamed/part_001)

    The earlier clone node, which carries its own accessors instead of
    embedding [baseGitNode]: no key-file field, no "ssh" and "password"
    aliases, and the default reference "main". *)

Module StandaloneGitCloneNode.

Record Configuration : Type := {
  Repository : string;
  Directory : string;
  Reference : string;
  AuthType : string;
  AuthUser : string;
  AuthPassword : string;
  ProxyUrl : string;
  ProxyUsername : string;
  ProxyPassword : string
}.

Definition Map2Struct (c : types_Configuration) (x : Configuration) : Configuration :=
  {| Repository := decode (repository c) (Repository x);
     Directory := decode (directory c) (Directory x);
     Reference := decode (reference c) (Reference x);
     AuthType := decode (authType c) (AuthType x);
     AuthUser := decode (authUser c) (AuthUser x);
     AuthPassword := decode (authPassword c) (AuthPassword x);
     ProxyUrl := decode (proxyUrl c) (ProxyUrl x);
     ProxyUsername := decode (proxyUsername c) (ProxyUsername x);
     ProxyPassword := decode (proxyPassword c) (ProxyPassword x) |}.

Record t : Type := {
  Config : Configuration;
  hasVar : bool
}.

Definition Type_ : string := "ci/gitClone".

Definition New : t :=
  {| Config := {| Repository := ""; Directory := ""; Reference := "main";
                  AuthType := ""; AuthUser := ""; AuthPassword := "";
                  ProxyUrl := ""; ProxyUsername := ""; ProxyPassword := "" |};
     hasVar := false |}.

Section Node.
Context `{Templates} `{GitOps}.

Definition Init (x : t) (configuration : types_Configuration) : t :=
  let cfg := Map2Struct configuration (Config x) in
  {| Config := cfg;
     hasVar := if CheckHasVar (Repository cfg) || CheckHasVar (Directory cfg)
                  || CheckHasVar (Reference cfg)
               then true else hasVar x |}.

Definition getAuthMethod (x : t) : World -> result AuthMethod * World :=
  fun w =>
    let authType := AuthType (Config x) in
    if String.eqb authType "ssh-key" then
      match NewPublicKeysFromFile "git" (AuthUser (Config x)) (AuthPassword (Config x)) w with
      | (Err err, w') => (Err err, w')
      | (Ok sshKey, w') => (Ok (PublicKeysAuth sshKey), w')
      end
    else if String.eqb authType "username-password" then
      (Ok (BasicAuth (AuthUser (Config x)) (AuthPassword (Config x))), w)
    else if String.eqb authType "token" then
      (Ok (BasicAuth (AuthUser (Config x)) (AuthPassword (Config x))), w)
    else
      (Err (errors_New ("not authType=" +:+ authType)), w).

Definition getRepository (x : t) (msg : RuleMsg) (evn : option Env) : string :=
  let repository := Repository (Config x) in
  if String.eqb repository "" then
    if String.eqb (AuthType (Config x)) "ssh-key"
    then GetValue (Metadata msg) KeyGitSshUrl
    else GetValue (Metadata msg) KeyGitHttpUrl
  else match evn with
       | Some evn => ExecuteTemplate repository evn
       | None => repository
       end.

Definition getReferenceName (x : t) (msg : RuleMsg) (evn : option Env) : string :=
  let ref := Reference (Config x) in
  if String.eqb ref "" then GetValue (Metadata msg) KeyRef
  else match evn with
       | Some evn => ExecuteTemplate ref evn
       | None => ref
       end.

Definition getRepoName (repoURL : string) : string :=
  let parts := strings.Split repoURL "/" in
  let repoName := List.last parts "" in
  strings.TrimSuffix repoName ".git".

Definition getWorkDir (x : t) (msg : RuleMsg) (evn : option Env) : string :=
  let workDir := Directory (Config x) in
  let workDir :=
    if String.eqb workDir "" then GetValue (Metadata msg) KeyWorkDir
    else match evn with
         | Some evn => ExecuteTemplate workDir evn
         | None => workDir
         end in
  path.Join [workDir; getRepoName (getRepository x msg evn)].

Definition getProxy (x : t) : ProxyOptions :=
  if negb (String.eqb (ProxyUrl (Config x)) "") then
    {| Proxy_URL := ProxyUrl (Config x);
       Proxy_Username := ProxyUsername (Config x);
       Proxy_Password := ProxyPassword (Config x) |}
  else {| Proxy_URL := ""; Proxy_Username := ""; Proxy_Password := "" |}.

Definition OnMsg (x : t) (msg : RuleMsg) : Act World Outcome Outcome :=
  let evn := baseGitNode.evnOf (hasVar x) msg in
  let ref := getReferenceName x msg evn in
  let workDir := getWorkDir x msg evn in
  let msg := msg_PutValue msg KeyWorkDir workDir in
  let repository := getRepository x msg evn in
  notExist <- call (os_Stat_IsNotExist workDir) ;;
  if notExist : bool then
    let proxy := getProxy x in
    auth <- try (getAuthMethod x) (TellFailure msg) ;;
    let cloneOptions :=
      {| Clone_URL := repository;
         Clone_ProxyOptions := proxy;
         Clone_ReferenceName := ref;
         Clone_Auth := auth |} in
    err <- call (PlainClone workDir false cloneOptions) ;;
    match err with
    | Some err => ret (TellFailure msg err)
    | None => ret (TellSuccess msg)
    end
  else
    r <- try (PlainOpen workDir) (TellFailure msg) ;;
    w <- try (Repository_Worktree r) (TellFailure msg) ;;
    let proxy := getProxy x in
    auth <- try (getAuthMethod x) (TellFailure msg) ;;
    let pullOptions :=
      {| Pull_RemoteURL := repository;
         Pull_Force := true;
         Pull_ProxyOptions := proxy;
         Pull_ReferenceName := ref;
         Pull_Auth := auth |} in
    err <- call (Worktree_Pull w pullOptions) ;;
    match err with
    | Some err =>
        if decide (err = NoErrAlreadyUpToDate)
        then ret (TellSuccess msg)
        else ret (TellFailure msg err)
    | None => ret (TellSuccess msg)
    end.

End Node.

(** The [baseGitNode] that holds the same configuration, the key-file field
    being the one the stand-alone node lacks. *)
Definition rebased (x : t) (pemFile : string) : baseGitNode.t :=
  {| baseGitNode.Config :=
       {| baseGitNode.Repository := Repository (Config x);
          baseGitNode.Directory := Directory (Config x);
          baseGitNode.Reference := Reference (Config x);
          baseGitNode.AuthType := AuthType (Config x);
          baseGitNode.AuthUser := AuthUser (Config x);
          baseGitNode.AuthPassword := AuthPassword (Config x);
          baseGitNode.AuthPemFile := pemFile;
          baseGitNode.ProxyUrl := ProxyUrl (Config x);
          baseGitNode.ProxyUsername := ProxyUsername (Config x);
          baseGitNode.ProxyPassword := ProxyPassword (Config x);
          baseGitNode.RefSpecs := "" |} |}.

End StandaloneGitCloneNode.

(** ** What the outcome message of a git node may differ in *)

(** The nodes that write the metadata key "hash". *)
Definition writesHash (n : GitNode) : bool :=
  match n with
  | CommitChanges _ | CreateTag _ => true
  | _ => false
  end.

(** The node that replaces the message data. *)
Definition writesData (n : GitNode) : bool :=
  match n with
  | Log _ => true
  | _ => false
  end.

(** The fields of [baseGitNode.Configuration] that [GitPushNode.OnMsg] reads
    through its accessors: everything but the proxy and the reference. *)
Definition pushView (c : baseGitNode.Configuration) : baseGitNode.Configuration :=
  {| baseGitNode.Repository := baseGitNode.Repository c;
     baseGitNode.Directory := baseGitNode.Directory c;
     baseGitNode.Reference := "";
     baseGitNode.AuthType := baseGitNode.AuthType c;
     baseGitNode.AuthUser := baseGitNode.AuthUser c;
     baseGitNode.AuthPassword := baseGitNode.AuthPassword c;
     baseGitNode.AuthPemFile := baseGitNode.AuthPemFile c;
     baseGitNode.ProxyUrl := "";
     baseGitNode.ProxyUsername := "";
     baseGitNode.ProxyPassword := "";
     baseGitNode.RefSpecs := baseGitNode.RefSpecs c |}.

(** ** The options the nodes hand to go-git *)

Section Options.
Context `{Templates} `{GitOps}.

(** The [git.CloneOptions] that [GitCloneNode.OnMsg] builds. *)
Definition cloneOptionsOf (x : GitCloneNode.t) (msg : RuleMsg) (auth : AuthMethod)
  : CloneOptions :=
  let evn := baseGitNode.evnOf (GitCloneNode.hasVar x) msg in
  let workDir := baseGitNode.getWorkDir (GitCloneNode.base x) msg evn in
  {| Clone_URL :=
       baseGitNode.getRepository (GitCloneNode.base x)
                                 (msg_PutValue msg KeyWorkDir workDir) evn;
     Clone_ProxyOptions := baseGitNode.getProxy (GitCloneNode.base x);
     Clone_ReferenceName := baseGitNode.getReferenceName (GitCloneNode.base x) msg evn;
     Clone_Auth := auth |}.

(** The [git.PushOptions] that [GitPushNode.OnMsg] builds. *)
Definition pushOptionsOf (x : GitPushNode.t) (msg : RuleMsg) (auth : AuthMethod)
  : PushOptions :=
  let evn := baseGitNode.evnOf (GitPushNode.hasVar x) msg in
  let workDir := baseGitNode.getWorkDir (GitPushNode.base x) msg evn in
  {| Push_RemoteURL :=
       baseGitNode.getRepository (GitPushNode.base x)
                                 (msg_PutValue msg KeyWorkDir workDir) evn;
     Push_RefSpecs := baseGitNode.getRefSpecs (GitPushNode.base x) msg evn;
     Push_Auth := auth |}.

(** The signature a commit is authored with, and the options of a tag. *)
Definition authorOf (x : GitCommitNode.t) (msg : RuleMsg) (now : Time) : Signature :=
  let evn := baseGitNode.evnOf (GitCommitNode.hasVar x) msg in
  {| Name := GitCommitNode.getSignatureName x msg evn;
     Email := GitCommitNode.getSignatureEmail x msg evn;
     When := now |}.

Definition tagOptionsOf (x : GitCreateTagNode.t) (msg : RuleMsg) (now : Time)
  : CreateTagOptions :=
  let evn := baseGitNode.evnOf (GitCreateTagNode.hasVar x) msg in
  {| Tag_Tagger := {| Name := GitCreateTagNode.getSignatureName x msg evn;
                      Email := GitCreateTagNode.getSignatureEmail x msg evn;
                      When := now |};
     Tag_Message := GitCreateTagNode.getMessage x msg evn |}.
End Options.

(** ** Further configurations, messages and worlds *)

Module Cases.

(** The configuration with no entry at all. *)
Definition bare : types_Configuration :=
  {| repository := None; directory := None; reference := None; authType := None;
     authUser := None; authPassword := None; authPemFile := None; proxyUrl := None;
     proxyUsername := None; proxyPassword := None; refSpecs := None; pattern := None;
     message := None; tag := None; signature := None; limit := None;
     startTime := None; endTime := None; options := None |}.

(** The repository and a directory, with a message, refspecs and proxy. *)
Definition full (directory message refSpecs proxyUrl : string) : types_Configuration :=
  {| repository := Some Scenario.url; directory := Some directory; reference := None;
     authType := Some "token"; authUser := Some "ci"; authPassword := Some "secret";
     authPemFile := None; proxyUrl := Some proxyUrl; proxyUsername := Some "proxy";
     proxyPassword := Some "proxy-secret"; refSpecs := Some refSpecs;
     pattern := Some "*"; message := Some message; tag := Some "v1";
     signature := None; limit := None; startTime := None; endTime := None;
     options := None |}.

(** A working tree with pending changes on top of the three commits. *)
Definition dirty : RefWorld.State := Scenario.holding [Scenario.c3; Scenario.c2; Scenario.c1] true.

Definition committer (configuration : types_Configuration) : GitCommitNode.t :=
  @GitCommitNode.Init Ref.templates GitCommitNode.New configuration.
Definition tagger (configuration : types_Configuration) : GitCreateTagNode.t :=
  @GitCreateTagNode.Init Ref.templates GitCreateTagNode.New configuration.
Definition pusher (configuration : types_Configuration) : GitPushNode.t :=
  @GitPushNode.Init Ref.templates GitPushNode.New configuration.
Definition cloner (configuration : types_Configuration) : GitCloneNode.t :=
  @GitCloneNode.Init Ref.templates GitCloneNode.New configuration.
Definition standalone (configuration : types_Configuration) : StandaloneGitCloneNode.t :=
  @StandaloneGitCloneNode.Init Ref.templates StandaloneGitCloneNode.New configuration.

(** A message without metadata. *)
Definition blank : RuleMsg :=
  {| Type_ := "test"; DataType := JSON; Data := ""; Metadata := ∅ |}.

End Cases.

(** ** A world in which every directory exists *)

Module PlainDirs.

(** The reference world, except that [os.Stat] finds every directory: one
    that holds no repository exists and does not open. *)
Definition git : @GitOps RefWorld.types :=
  @Build_GitOps RefWorld.types RefWorld.State
    (fun _ w => (false, w))
    RefWorld.keys
    RefWorld.clone
    RefWorld.open
    (fun dir w => (Ok dir, w))
    RefWorld.pull
    RefWorld.status
    (fun clean => clean)
    (fun _ _ w => (None, w))
    RefWorld.commit
    RefWorld.head
    (fun h => h)
    RefWorld.commitObject
    RefWorld.createTag
    (fun _ _ w => (None, w))
    (fun dir w => (Ok (RefWorld.historyOf w dir), w))
    RefWorld.now.

End PlainDirs.

Module MoreCases.

(** A clone node with an auth type that is none of the known tags. *)
Definition oauth : GitCloneNode.t :=
  Cases.cloner (Scenario.configured Scenario.url "" "" "oauth" None "" "").

(** Nodes with the directory "/work" configured and no template. *)
Definition atWork : types_Configuration := Cases.full "/work" "update" "" "".

(** A message with a marker, and the push configuration with and without a
    proxy. *)
Definition release : types_Configuration :=
  Cases.full "" "release ${metadata.root}" "" "".
Definition direct : types_Configuration :=
  Cases.full "" "update" "refs/heads/main:refs/heads/main" "".
Definition proxied : types_Configuration :=
  Cases.full "" "update" "refs/heads/main:refs/heads/main" "http://proxy:3128".

(** Log nodes: the limit left to [New], and a window that ends before it
    starts. *)
Definition defaultLimit : GitLogNode.t :=
  @GitLogNode.Init Ref.go Ref.templates GitLogNode.New Scenario.plain.
Definition backwards : GitLogNode.t := Scenario.logNode 0 "2024-01-03" "2024-01-01".

End MoreCases.

(** * Properties *)

(** ** The models of the Go library on sample inputs *)

Example Split_url :
  strings.Split "https://example/repo.git" "/" = ["https:"; ""; "example"; "repo.git"].
Proof. reflexivity. Qed.

Example Clean_samples :
  map path.Clean ["d:///x"; "/a/./b/../c/"; "../../a"; "/.."; "a/.."; ""; "abc/def/../.."; "/base//repo"]
  = ["d:/x"; "/a/c"; "../../a"; "/"; "."; "."; "."; "/base/repo"].
Proof. vm_compute. reflexivity. Qed.

Example Join_samples :
  map path.Join [["d://"; "rulego-components-ci"]; ["/base"; "repo"]; [""; ""]; [""; "repo"]; ["a"; ""]]
  = ["d:/rulego-components-ci"; "/base/repo"; ""; "repo"; "a"].
Proof. vm_compute. reflexivity. Qed.

Example Ref_render :
  Ref.render {| Type_ := "t"; DataType := "JSON"; Data := "{}";
                Metadata := {[ "workDir" := "/base"; "ref" := "dev" ]} |}
             "${metadata.workDir}/x-${ref}-${none}-${" None
  = "/base/x-dev-${none}-${".
Proof. vm_compute. reflexivity. Qed.

Example Ref_parse :
  map (Ref.parse GitLogNode.layout)
      ["0001-01-01 00:00:00"; "0001-01-02 00:00:01"; "2024-02-30 00:00:00"; "2024-07-29"; "yesterday"]
  = [(0, None); (86401 * 1000000000, None); (0, Some Ref.parseError);
     (0, Some Ref.parseError); (0, Some Ref.parseError)].
Proof. vm_compute. reflexivity. Qed.

Example Ref_parse_2024 :
  (Ref.parse GitLogNode.layout "2024-07-29 09:36:13").1 = 63857842573 * 1000000000.
Proof. vm_compute. reflexivity. Qed.

(** ** Strings and paths *)

Lemma append_cons (x : ascii) (a b : string) : String x a +:+ b = String x (a +:+ b).
Proof. reflexivity. Qed.

Lemma append_assoc (a b c : string) : (a +:+ b) +:+ c = a +:+ b +:+ c.
Proof.
  induction a as [|x a IH]; [reflexivity|].
  rewrite !append_cons. now rewrite IH.
Qed.

Lemma append_empty_r (a : string) : a +:+ "" = a.
Proof.
  induction a as [|x a IH]; [reflexivity|].
  rewrite append_cons. now rewrite IH.
Qed.

Lemma length_append (a b : string) :
  String.length (a +:+ b) = (String.length a + String.length b)%nat.
Proof.
  induction a as [|x a IH]; [reflexivity|].
  rewrite append_cons. simpl. now rewrite IH.
Qed.

Lemma substring_all (s : string) : String.substring 0 (String.length s) s = s.
Proof. induction s as [|x s IH]; simpl; [reflexivity | now rewrite IH]. Qed.

Lemma substring_skip (a b : string) (n : nat) :
  String.substring (String.length a) n (a +:+ b) = String.substring 0 n b.
Proof.
  induction a as [|x a IH]; [reflexivity|].
  rewrite append_cons. simpl. exact IH.
Qed.

Lemma substring_take (a b : string) :
  String.substring 0 (String.length a) (a +:+ b) = a.
Proof.
  induction a as [|x a IH].
  - destruct b; reflexivity.
  - rewrite append_cons. simpl. now rewrite IH.
Qed.

Lemma substring_split (s : string) (k : nat) :
  (k <= String.length s)%nat ->
  s = String.substring 0 k s +:+ String.substring k (String.length s - k) s.
Proof.
  revert k; induction s as [|x s IH]; intros k Hk; simpl in *.
  - destruct k; [reflexivity | lia].
  - destruct k as [|k]; simpl.
    + now rewrite substring_all.
    + rewrite append_cons. f_equal. apply IH. lia.
Qed.

(** [strings.Split] never returns an empty slice. *)
Lemma Split_nonempty (s : string) (sep : ascii) : strings.Split s sep <> [].
Proof.
  destruct s as [|c s]; simpl; [discriminate|].
  destruct (Ascii.eqb c sep); [discriminate|].
  destruct (strings.Split s sep); discriminate.
Qed.

(** The index [len(parts)-1] of [getRepoName] is in range and holds the
    element the embedding takes. *)
Lemma Split_last_in_range (s : string) (sep : ascii) :
  strings.Split s sep !! (length (strings.Split s sep) - 1)%nat
  = Some (List.last (strings.Split s sep) "").
Proof.
  pose proof (Split_nonempty s sep) as Hne.
  induction (strings.Split s sep) as [|a l IH]; [congruence|].
  destruct l as [|b l]; [reflexivity|].
  specialize (IH ltac:(discriminate)).
  replace (length (a :: b :: l) - 1)%nat with (S (length (b :: l) - 1))
    by (simpl; lia).
  exact IH.
Qed.

(** Joining the segments of [strings.Split] with the separator gives the
    string back, and no segment holds the separator. *)
Lemma Split_joined (s : string) (sep : ascii) : joined sep (strings.Split s sep) = s.
Proof.
  induction s as [|c s IH]; [reflexivity|].
  simpl. destruct (Ascii.eqb_spec c sep) as [->|Hc].
  - pose proof (Split_nonempty s sep).
    destruct (strings.Split s sep) as [|a l] eqn:E; [congruence|].
    change (joined sep ("" :: a :: l)) with ("" +:+ String sep (joined sep (a :: l))).
    now rewrite IH.
  - destruct (strings.Split s sep) as [|a l] eqn:E.
    + now destruct (Split_nonempty s sep).
    + destruct l as [|b l].
      * simpl in *. now subst.
      * change (joined sep (String c a :: b :: l))
          with (String c (a +:+ String sep (joined sep (b :: l)))).
        f_equal. exact IH.
Qed.

Lemma Split_no_sep (s : string) (sep : ascii) :
  Forall (fun seg => sep ∉ String.list_ascii_of_string seg) (strings.Split s sep).
Proof.
  induction s as [|c s IH]; simpl.
  - constructor; [|constructor]. simpl. apply not_elem_of_nil.
  - destruct (Ascii.eqb_spec c sep) as [->|Hc].
    + constructor; [simpl; apply not_elem_of_nil | exact IH].
    + destruct (strings.Split s sep) as [|a l].
      * constructor; [|constructor]. simpl.
        intros Hin. apply list_elem_of_singleton in Hin. congruence.
      * inversion IH as [|? ? Ha Hl]; subst. constructor; [|exact Hl].
        simpl. intros Hin. apply elem_of_cons in Hin as [->|Hin]; [congruence|].
        now apply Ha.
Qed.

Lemma joined_last (sep : ascii) (segs : list string) :
  segs <> [] ->
  joined sep segs = List.last segs ""
  \/ exists p, joined sep segs = p +:+ String sep (List.last segs "").
Proof.
  induction segs as [|a l IH]; [congruence|]. intros _.
  destruct l as [|b l]; [left; reflexivity|].
  right. destruct (IH ltac:(discriminate)) as [E|[p E]].
  - exists a. change (joined sep (a :: b :: l)) with (a +:+ String sep (joined sep (b :: l))).
    rewrite E. reflexivity.
  - exists (a +:+ String sep p).
    change (joined sep (a :: b :: l)) with (a +:+ String sep (joined sep (b :: l))).
    rewrite E. rewrite append_assoc. reflexivity.
Qed.

Lemma last_Forall {A} (P : A -> Prop) (l : list A) (d : A) :
  l <> [] -> Forall P l -> P (List.last l d).
Proof.
  induction l as [|a l IH]; [congruence|]. intros _ HF.
  inversion HF as [|? ? Ha Hl]; subst.
  destruct l as [|b l]; [exact Ha|].
  apply IH; [discriminate | exact Hl].
Qed.

Lemma Split_last_segment (U : string) :
  last_segment U (List.last (strings.Split U "/") "").
Proof.
  split.
  - apply (last_Forall (fun seg => "/"%char ∉ String.list_ascii_of_string seg)).
    + apply Split_nonempty.
    + apply Split_no_sep.
  - destruct (joined_last "/" (strings.Split U "/") (Split_nonempty U "/")) as [E|[p E]];
      rewrite Split_joined in E.
    + now left.
    + right. exists p. exact E.
Qed.

Lemma TrimSuffix_git (seg : string) :
  without_git_suffix seg (strings.TrimSuffix seg ".git").
Proof.
  unfold without_git_suffix, strings.TrimSuffix, strings.HasSuffix.
  destruct (Nat.leb_spec (String.length ".git") (String.length seg)) as [Hle|Hlt]; simpl.
  - destruct (String.eqb_spec
                (String.substring (String.length seg - 4) 4 seg) ".git") as [E|NE].
    + left. simpl in Hle.
      pose proof (substring_split seg (String.length seg - 4) ltac:(lia)) as Hs.
      replace (String.length seg - (String.length seg - 4))%nat with 4%nat in Hs by lia.
      rewrite E in Hs. exact Hs.
    + right. split; [reflexivity|]. intros r' ->. apply NE.
      rewrite length_append. simpl.
      replace (String.length r' + 4 - 4)%nat with (String.length r') by lia.
      now rewrite substring_skip.
  - right. split; [reflexivity|]. intros r' ->.
    rewrite length_append in Hlt. simpl in Hlt. lia.
Qed.

(** [getRepoName] computes the short name. *)
Lemma getRepoName_short_name (U : string) : short_name U (baseGitNode.getRepoName U).
Proof.
  exists (List.last (strings.Split U "/") ""). split.
  - apply Split_last_segment.
  - apply TrimSuffix_git.
Qed.

(** ** The reference collaborators keep the contracts assumed of the libraries *)

Lemma Contains_tail (c : ascii) (s sub : string) :
  strings.Contains (String c s) sub = false ->
  String.prefix sub (String c s) = false /\ strings.Contains s sub = false.
Proof. simpl. intros E. apply orb_false_iff in E. exact E. Qed.

Lemma render_open_unterminated (env : RuleMsg) (s key : string) :
  strings.Contains s "}" = false ->
  Ref.render env s (Some key) = "${" +:+ key +:+ s.
Proof.
  revert key; induction s as [|c s IH]; intros key Hs.
  - simpl. now rewrite append_empty_r.
  - apply Contains_tail in Hs as [Hp Hs]. simpl in Hp.
    destruct (Ascii.eqb_spec c "}") as [->|Hc].
    + simpl in Hp. destruct s; discriminate.
    + simpl. destruct (Ascii.eqb c "}") eqn:E; [apply Ascii.eqb_eq in E; congruence|].
      rewrite IH by exact Hs. now rewrite append_assoc.
Qed.

Lemma render_no_close (env : RuleMsg) (s : string) :
  strings.Contains s "}" = false -> Ref.render env s None = s.
Proof.
  induction s as [|c s IH]; intros Hs; [reflexivity|].
  apply Contains_tail in Hs as [_ Hs].
  simpl. destruct s as [|c' s']; [reflexivity|].
  destruct (Ascii.eqb_spec c "$") as [->|Hc]; simpl.
  - destruct (Ascii.eqb_spec c' "{") as [->|Hc'].
    + apply Contains_tail in Hs as [_ Hs].
      now rewrite render_open_unterminated.
    + f_equal. now apply IH.
  - f_equal. now apply IH.
Qed.

Lemma render_no_open (env : RuleMsg) (s : string) :
  strings.Contains s "${" = false -> Ref.render env s None = s.
Proof.
  induction s as [|c s IH]; intros Hs; [reflexivity|].
  apply Contains_tail in Hs as [Hp Hs].
  simpl. destruct s as [|c' s']; [reflexivity|].
  destruct (Ascii.eqb_spec c "$") as [->|Hc]; simpl.
  - destruct (Ascii.eqb_spec c' "{") as [->|Hc'].
    + simpl in Hp. destruct s'; discriminate.
    + f_equal. now apply IH.
  - f_equal. now apply IH.
Qed.

Lemma Ref_templates_lawful : @TemplatesLawful Ref.templates.
Proof.
  assert (forall s env, Ref.hasVar s = false -> Ref.render env s None = s) as Hr.
  { intros s env Hs. unfold Ref.hasVar in Hs. apply andb_false_iff in Hs as [Hs|Hs].
    - now apply render_no_open.
    - now apply render_no_close. }
  split; simpl. intros s env. apply Hr.
Qed.

Lemma Ref_go_lawful : @GoStdLawful Ref.go.
Proof.
  split. intros layout value err. simpl. unfold Ref.parse.
  destruct (Ref.instant value); simpl; [discriminate | reflexivity].
Qed.

(** ** The accessors of [baseGitNode] *)

Section Accessors.
Context `{Templates} `{GitOps}.
Import baseGitNode.

Lemma eqb_false (a b : string) : a <> b -> String.eqb a b = false.
Proof. apply String.eqb_neq. Qed.

(** C6. The auth method selector: the tags "token", "username-password" and
    "password" yield the basic credential built from the user and secret
    fields; "ssh-key" and "ssh" yield the key loaded from the key file, or
    the loader's error; every other tag yields the error
    "not authType=<tag>" and no credential. *)
Theorem getAuthMethod_selector (x : t) (w : World) :
  let c := Config x in
  (AuthType c ∈ ["token"; "username-password"; "password"] ->
   getAuthMethod x w = (Ok (BasicAuth (AuthUser c) (AuthPassword c)), w))
  /\ (AuthType c ∈ ["ssh-key"; "ssh"] ->
      getAuthMethod x w
      = match NewPublicKeysFromFile (AuthUser c) (AuthPemFile c) (AuthPassword c) w with
        | (Ok sshKey, w') => (Ok (PublicKeysAuth sshKey), w')
        | (Err err, w') => (Err err, w')
        end)
  /\ (AuthType c ∉ ["token"; "username-password"; "password"; "ssh-key"; "ssh"] ->
      getAuthMethod x w = (Err (errors_New ("not authType=" +:+ AuthType c)), w)).
Proof.
  intros c. unfold getAuthMethod. fold c. repeat split.
  - intros Hin. repeat (apply elem_of_cons in Hin as [->|Hin]); try reflexivity.
    now apply elem_of_nil in Hin.
  - intros Hin. repeat (apply elem_of_cons in Hin as [->|Hin]); simpl.
    + destruct (NewPublicKeysFromFile _ _ _ w) as [[k|e] w']; reflexivity.
    + destruct (NewPublicKeysFromFile _ _ _ w) as [[k|e] w']; reflexivity.
    + now apply elem_of_nil in Hin.
  - intros Hnot.
    rewrite !eqb_false; [reflexivity | | | | |];
      intros E; apply Hnot; rewrite E; repeat constructor.
Qed.

(** C1, as amended. Reference and repository URL: an empty literal resolves
    to the metadata value (key "ref"; "gitSshUrl" under the auth types
    "ssh-key" and "ssh", "gitHttpUrl" otherwise); a non-empty literal without
    markers resolves to itself whatever the metadata holds; a non-empty
    literal resolves to the template rendered against the environment
    whenever the node built one. The base directory follows the same three
    rules under the key "workDir", and the resolved work directory is that
    base joined with the short name of the resolved repository. *)
Theorem config_precedence `{!TemplatesLawful} (x : t) (msg : RuleMsg) (evn : option Env) :
  let c := Config x in
  let md := Metadata msg in
  ((Reference c = "" -> getReferenceName x msg evn = GetValue md KeyRef)
   /\ (Reference c <> "" -> CheckHasVar (Reference c) = false ->
       getReferenceName x msg evn = Reference c)
   /\ (Reference c <> "" -> forall env, evn = Some env ->
       getReferenceName x msg evn = ExecuteTemplate (Reference c) env))
  /\ ((Repository c = "" ->
       getRepository x msg evn
       = GetValue md (if bool_decide (AuthType c ∈ ["ssh-key"; "ssh"])
                      then KeyGitSshUrl else KeyGitHttpUrl))
      /\ (Repository c <> "" -> CheckHasVar (Repository c) = false ->
          getRepository x msg evn = Repository c)
      /\ (Repository c <> "" -> forall env, evn = Some env ->
          getRepository x msg evn = ExecuteTemplate (Repository c) env))
  /\ ((Directory c = "" -> baseDir x msg evn = GetValue md KeyWorkDir)
      /\ (Directory c <> "" -> CheckHasVar (Directory c) = false ->
          baseDir x msg evn = Directory c)
      /\ (Directory c <> "" -> forall env, evn = Some env ->
          baseDir x msg evn = ExecuteTemplate (Directory c) env))
  /\ getWorkDir x msg evn
     = path.Join [baseDir x msg evn; getRepoName (getRepository x msg evn)].
Proof.
  intros c md.
  assert (forall s, s <> "" -> CheckHasVar s = false ->
                    match evn with Some e => ExecuteTemplate s e | None => s end = s) as Hlit.
  { intros s _ Hs. destruct evn; [now apply ExecuteTemplate_literal | reflexivity]. }
  unfold getReferenceName, getRepository, baseDir, getWorkDir. fold c md.
  repeat split.
  - intros ->. reflexivity.
  - intros Hne Hv. rewrite eqb_false by exact Hne. now apply Hlit.
  - intros Hne env ->. now rewrite eqb_false by exact Hne.
  - intros ->. simpl.
    destruct (String.eqb_spec (AuthType c) "ssh-key") as [E|N1]; simpl.
    + rewrite bool_decide_eq_true_2; [reflexivity | rewrite E; repeat constructor].
    + destruct (String.eqb_spec (AuthType c) "ssh") as [E|N2].
      * rewrite bool_decide_eq_true_2; [reflexivity | rewrite E; repeat constructor].
      * rewrite bool_decide_eq_false_2; [reflexivity|].
        intros Hin. repeat (apply elem_of_cons in Hin as [?|Hin]); try congruence.
        now apply elem_of_nil in Hin.
  - intros Hne Hv. rewrite eqb_false by exact Hne. now apply Hlit.
  - intros Hne env ->. now rewrite eqb_false by exact Hne.
  - intros ->. reflexivity.
  - intros Hne Hv. rewrite eqb_false by exact Hne. now apply Hlit.
  - intros Hne env ->. now rewrite eqb_false by exact Hne.
Qed.

End Accessors.

(** ** Clone-or-pull and commit *)

Ltac run_act := unfold exec, bind, try, call, ret, leave; cbv beta zeta.

Section CloneCommit.
Context `{GoStd} `{Templates} `{GitOps}.

Lemma pull_outcome (x : GitCloneNode.t) (msg : RuleMsg) (w w' : World)
      (perr : option error) :
  let evn := baseGitNode.evnOf (GitCloneNode.hasVar x) msg in
  let workDir := baseGitNode.getWorkDir (GitCloneNode.base x) msg evn in
  let msg' := msg_PutValue msg KeyWorkDir workDir in
  pull_reports x msg w perr w' ->
  OnMsg (Clone x) msg w
  = (match perr with
     | None => TellSuccess msg'
     | Some err => if decide (err = NoErrAlreadyUpToDate)
                   then TellSuccess msg' else TellFailure msg' err
     end, w').
Proof.
  intros evn workDir msg' (w1 & w2 & w3 & w4 & r & wt & auth & Hs & Ho & Hw & Ha & Hp).
  fold evn workDir in Hs, Ho. unfold pullOptionsOf in Hp. fold evn workDir msg' in Hp.
  unfold OnMsg, GitCloneNode.OnMsg. fold evn workDir msg'. run_act.
  rewrite Hs, Ho, Hw, Ha, Hp.
  destruct perr as [err|]; [|reflexivity].
  destruct (decide (err = NoErrAlreadyUpToDate)); reflexivity.
Qed.

(** C3. When the work directory exists and the pull step reports "already
    up to date", clone-or-pull tells Success; any other pull error is told
    as a Failure carrying that error; hence a sequence of invocations, each
    of which finds the clone up to date, tells Success every time. *)
Theorem clone_or_pull_up_to_date (x : GitCloneNode.t) :
  (forall msg w w',
      let evn := baseGitNode.evnOf (GitCloneNode.hasVar x) msg in
      let workDir := baseGitNode.getWorkDir (GitCloneNode.base x) msg evn in
      let msg' := msg_PutValue msg KeyWorkDir workDir in
      (pull_reports x msg w (Some NoErrAlreadyUpToDate) w' ->
       OnMsg (Clone x) msg w = (TellSuccess msg', w'))
      /\ (forall err, err <> NoErrAlreadyUpToDate ->
          pull_reports x msg w (Some err) w' ->
          OnMsg (Clone x) msg w = (TellFailure msg' err, w')))
  /\ (forall (unchanged : World -> Prop) (msgs : list RuleMsg),
         (forall msg w, msg ∈ msgs -> unchanged w ->
                        exists w', pull_reports x msg w (Some NoErrAlreadyUpToDate) w'
                                   /\ unchanged w') ->
         forall w, unchanged w ->
                   Forall (fun o => is_success o = true) (invocations (Clone x) msgs w)).
Proof.
  split.
  - intros msg w w' evn workDir msg'. split.
    + intros Hp. rewrite (pull_outcome x msg w w' _ Hp).
      destruct (decide (NoErrAlreadyUpToDate = NoErrAlreadyUpToDate));
        [reflexivity | congruence].
    + intros err Hne Hp. rewrite (pull_outcome x msg w w' _ Hp).
      destruct (decide (err = NoErrAlreadyUpToDate)); [congruence | reflexivity].
  - intros unchanged msgs. induction msgs as [|msg msgs IH]; intros Hall w Hw.
    + constructor.
    + destruct (Hall msg w ltac:(left) Hw) as (w' & Hp & Hw').
      cbn [invocations]. rewrite (pull_outcome x msg w w' _ Hp).
      destruct (decide (NoErrAlreadyUpToDate = NoErrAlreadyUpToDate)); [|congruence].
      constructor; [reflexivity|].
      apply IH; [|exact Hw'].
      intros m v Hm Hv. apply Hall; [now right | exact Hv].
Qed.

(** C4. A commit invoked on a working tree whose status reports no pending
    changes tells Failure with the error "no changes to commit", and the
    metadata entry "hash" is what it was before the invocation. *)
Theorem commit_clean_tree (x : GitCommitNode.t) (msg : RuleMsg) (w w' : World) :
  let evn := baseGitNode.evnOf (GitCommitNode.hasVar x) msg in
  let workDir := baseGitNode.getWorkDir (GitCommitNode.base x) msg evn in
  let msg' := msg_PutValue msg KeyWorkDir workDir in
  status_reports x msg w true w' ->
  OnMsg (CommitChanges x) msg w
  = (TellFailure msg' (errors_New "no changes to commit"), w')
  /\ Metadata msg' !! KeyHash = Metadata msg !! KeyHash.
Proof.
  intros evn workDir msg' (w1 & w2 & r & wt & status & Ho & Hw & Hs & Hc).
  split.
  - unfold OnMsg, GitCommitNode.OnMsg. run_act.
    fold evn workDir msg'. fold evn workDir in Ho.
    rewrite Ho, Hw, Hs, Hc. reflexivity.
  - apply lookup_insert_ne. discriminate.
Qed.

End CloneCommit.

(** ** The work-directory mapping *)

Lemma list_ascii_append (a b : string) :
  String.list_ascii_of_string (a +:+ b)
  = String.list_ascii_of_string a ++ String.list_ascii_of_string b.
Proof.
  induction a as [|x a IH]; [reflexivity|].
  rewrite append_cons. simpl. now rewrite IH.
Qed.

Lemma list_ascii_inj (a b : string) :
  String.list_ascii_of_string a = String.list_ascii_of_string b -> a = b.
Proof.
  intros E. rewrite <- (String.string_of_list_ascii_of_string a),
              <- (String.string_of_list_ascii_of_string b).
  now rewrite E.
Qed.

Lemma append_inj_r (a b c : string) : a +:+ c = b +:+ c -> a = b.
Proof.
  intros E. apply list_ascii_inj.
  apply (f_equal String.list_ascii_of_string) in E.
  rewrite !list_ascii_append in E. now apply app_inv_tail in E.
Qed.

Lemma slash_in_middle (p seg : string) :
  "/"%char ∈ String.list_ascii_of_string (p +:+ "/" +:+ seg).
Proof.
  rewrite list_ascii_append. apply elem_of_app. right.
  change ("/" +:+ seg) with (String "/" seg). simpl. left.
Qed.

Lemma slash_append (p seg : string) : p +:+ "/" +:+ seg = p +:+ String "/" seg.
Proof. reflexivity. Qed.

Lemma last_segment_unique (U seg seg' : string) :
  last_segment U seg -> last_segment U seg' -> seg = seg'.
Proof.
  intros [Hno [E|[p E]]] [Hno' [E'|[p' E']]]; subst.
  - reflexivity.
  - destruct Hno. apply slash_in_middle.
  - destruct Hno'. apply slash_in_middle.
  - rewrite !slash_append in E'.
    revert p' E'. induction p as [|c p IH]; intros p' E'.
    + destruct p' as [|c' p'].
      * now inversion E'.
      * rewrite append_cons in E'. change ("" +:+ String "/" seg) with (String "/" seg) in E'.
        inversion E'; subst. destruct Hno. rewrite <- slash_append. apply slash_in_middle.
    + destruct p' as [|c' p'].
      * rewrite append_cons in E'.
        change ("" +:+ String "/" seg') with (String "/" seg') in E'.
        inversion E'; subst. destruct Hno'. rewrite <- slash_append. apply slash_in_middle.
      * rewrite !append_cons in E'. inversion E'; subst. now apply (IH p').
Qed.

Lemma without_git_suffix_unique (seg r r' : string) :
  without_git_suffix seg r -> without_git_suffix seg r' -> r = r'.
Proof.
  intros [E|[E N]] [E'|[E' N']].
  - rewrite E in E'. now apply append_inj_r in E'.
  - now destruct (N' r).
  - now destruct (N r').
  - congruence.
Qed.

(** The short name of a URL is unique: the mapping is a function of the URL. *)
Lemma short_name_unique (U r r' : string) : short_name U r -> short_name U r' -> r = r'.
Proof.
  intros (seg & Hs & Hr) (seg' & Hs' & Hr').
  rewrite (last_segment_unique U seg seg' Hs Hs') in Hr.
  exact (without_git_suffix_unique seg' r r' Hr Hr').
Qed.

Lemma GetValue_PutValue (md : gmap string string) (key value : string) :
  key <> "" -> GetValue (PutValue md key value) key = value.
Proof.
  intros Hk. unfold GetValue, PutValue. rewrite eqb_false by exact Hk.
  now rewrite lookup_insert_eq.
Qed.

Lemma GetValue_PutValue_ne (md : gmap string string) (key key' value : string) :
  key <> key' -> GetValue (PutValue md key value) key' = GetValue md key'.
Proof.
  intros Hk. unfold GetValue, PutValue.
  destruct (String.eqb key ""); [reflexivity|].
  now rewrite lookup_insert_ne.
Qed.

Section WorkDir.
Context `{GoStd} `{Templates} `{GitOps}.

(** Every git node records the directory [getWorkDir] resolves under the
    metadata key "workDir", whatever the outcome. *)
Lemma recorded_workDir (n : GitNode) (msg : RuleMsg) (w : World) :
  GetValue (Metadata (outcome_msg (OnMsg n msg w).1)) KeyWorkDir
  = baseGitNode.getWorkDir (embedded n) msg (baseGitNode.evnOf (flag n) msg).
Proof.
  assert (forall md v h, GetValue (PutValue (PutValue md KeyWorkDir v) KeyHash h) KeyWorkDir = v)
    as Hh.
  { intros md v h. rewrite GetValue_PutValue_ne by discriminate.
    now apply GetValue_PutValue. }
  destruct n as [x|x|x|x|x]; simpl;
    [unfold GitCloneNode.OnMsg | unfold GitCommitNode.OnMsg
     | unfold GitCreateTagNode.OnMsg | unfold GitPushNode.OnMsg
     | unfold GitLogNode.OnMsg];
    run_act;
    repeat case_match; simplify_eq/=;
    first [ now apply GetValue_PutValue | apply Hh ].
Qed.

(** C2. For every git node (clone, commit, tag, push, log query), with [D]
    the base directory and [U] the repository URL it resolves: the work
    directory it resolves and records is [path.Join] of [D] and the short
    name of [U] (the last "/"-separated segment without a trailing ".git"),
    and that short name is a function of [U]. *)
Theorem work_directory_mapping (n : GitNode) (msg : RuleMsg) (w : World) :
  let evn := baseGitNode.evnOf (flag n) msg in
  let D := baseGitNode.baseDir (embedded n) msg evn in
  let U := baseGitNode.getRepository (embedded n) msg evn in
  (exists r, short_name U r)
  /\ (forall r, short_name U r ->
                baseGitNode.getWorkDir (embedded n) msg evn = path.Join [D; r]
                /\ GetValue (Metadata (outcome_msg (OnMsg n msg w).1)) KeyWorkDir
                   = path.Join [D; r]).
Proof.
  intros evn D U. split.
  - exists (baseGitNode.getRepoName U). apply getRepoName_short_name.
  - intros r Hr.
    rewrite (short_name_unique U r _ Hr (getRepoName_short_name U)).
    split; [reflexivity|]. apply recorded_workDir.
Qed.

End WorkDir.

(** ** The log query *)

Lemma outOfRange_inBounds (startTime endTime : Time) (c : Commit) :
  GitLogNode.outOfRange startTime endTime c = false
  <-> inBounds startTime endTime (committerTime c).
Proof.
  unfold GitLogNode.outOfRange, inBounds, committerTime,
    time.IsZero, time.Before, time.After.
  rewrite orb_false_iff, !andb_false_iff, !negb_false_iff, !Z.eqb_eq, !Z.ltb_ge.
  reflexivity.
Qed.

(** The loop appends the matching commits, as many as the quota allows. *)
Lemma logLoop_upTo (limit : Z) (startTime endTime : Time) (iter : list Commit)
      (i : Z) (messages : list LogMsg) :
  GitLogNode.logLoop limit startTime endTime iter i messages
  = messages ++ map GitLogNode.toLogMsg
                    (upTo (quota limit i) (matching startTime endTime iter)).
Proof.
  revert i messages. induction iter as [|c iter IH]; intros i messages.
  - simpl. unfold matching, upTo. rewrite filter_nil.
    destruct (quota limit i); [rewrite take_nil|]; simpl; now rewrite app_nil_r.
  - simpl. unfold matching. rewrite filter_cons. fold (matching startTime endTime iter).
    destruct (GitLogNode.outOfRange startTime endTime c) eqn:Hout.
    + rewrite decide_False; [apply IH|].
      intros Hin. apply outOfRange_inBounds in Hin. congruence.
    + rewrite decide_True by (now apply outOfRange_inBounds).
      unfold quota at 1. destruct (Z.eqb_spec limit 0) as [->|Hl]; simpl.
      * rewrite IH. unfold quota. simpl. now rewrite <- app_assoc.
      * destruct (Z.leb_spec limit (i + 1)) as [Hle|Hgt].
        -- replace (Z.to_nat (Z.max 1 (limit - i))) with 1%nat by lia.
           simpl. rewrite ?take_0. reflexivity.
        -- rewrite IH. unfold quota. destruct (Z.eqb_spec limit 0); [lia|].
           replace (Z.to_nat (Z.max 1 (limit - i)))
             with (S (Z.to_nat (Z.max 1 (limit - (i + 1))))) by lia.
           simpl. now rewrite <- app_assoc.
Qed.

Lemma newestFirst_filter (P : Commit -> Prop) `{!forall c, Decision (P c)}
      (history : list Commit) :
  newestFirst history -> newestFirst (filter P history).
Proof.
  unfold newestFirst. induction 1 as [|c l Hl IH Hc]; [constructor|].
  rewrite filter_cons. destruct (decide (P c)); [|exact IH].
  constructor; [exact IH|].
  apply Forall_forall. intros d Hd. apply list_elem_of_filter in Hd as [_ Hd].
  rewrite Forall_forall in Hc. now apply Hc.
Qed.

Lemma newestFirst_take (k : nat) (history : list Commit) :
  newestFirst history -> newestFirst (take k history).
Proof.
  unfold newestFirst. intros Hs. revert k.
  induction Hs as [|c l Hl IH Hc]; intros k.
  - rewrite take_nil. constructor.
  - destruct k as [|k]; [constructor|]. simpl.
    constructor; [apply IH|].
    apply Forall_forall. intros d Hd. rewrite Forall_forall in Hc.
    apply Hc. now apply (subseteq_take k l).
Qed.

Section LogQuery.
Context `{GoStd} `{Templates} `{GitOps}.

Lemma log_outcome (x : GitLogNode.t) (msg : RuleMsg) (w w' : World) (iter : list Commit) :
  log_reports x msg w iter w' ->
  OnMsg (Log x) msg w
  = (TellSuccess
       (logged x msg
          (GitLogNode.logLoop (GitLogNode.Limit (GitLogNode.Config x))
                              (startTimeOf x msg) (endTimeOf x msg) iter 0 [])), w').
Proof.
  intros (w1 & r & Ho & Hl).
  unfold OnMsg, GitLogNode.OnMsg. run_act. rewrite Ho, Hl. reflexivity.
Qed.

(** C5, as amended. A log query over a history that the iterator yields
    most recent first tells Success with entries for commits [returned]
    such that: [returned] is most recent first; when the limit is 0, or is
    positive and no more commits match than it allows, [returned] is
    exactly the commits of the history whose committer time lies inside
    each bound that is set; when the limit N is positive and more than N
    commits match, [returned] is the first N of them. *)
Theorem log_query_window_and_limit (x : GitLogNode.t) (msg : RuleMsg) (w w' : World)
        (iter : list Commit) :
  let limit := GitLogNode.Limit (GitLogNode.Config x) in
  let wanted := matching (startTimeOf x msg) (endTimeOf x msg) iter in
  log_reports x msg w iter w' ->
  newestFirst iter ->
  0 <= limit ->
  exists returned,
    OnMsg (Log x) msg w
    = (TellSuccess (logged x msg (map GitLogNode.toLogMsg returned)), w')
    /\ newestFirst returned
    /\ (limit = 0 \/ Z.of_nat (length wanted) <= limit ->
        returned = wanted
        /\ forall c, c ∈ returned
                     <-> c ∈ iter
                         /\ inBounds (startTimeOf x msg) (endTimeOf x msg) (committerTime c))
    /\ (0 < limit < Z.of_nat (length wanted) ->
        Z.of_nat (length returned) = limit
        /\ returned = take (Z.to_nat limit) wanted).
Proof.
  intros limit wanted Hlog Hsorted Hlimit.
  exists (upTo (quota limit 0) wanted).
  assert (newestFirst wanted) as Hw by (now apply newestFirst_filter).
  split; [|split; [|split]].
  - rewrite (log_outcome x msg w w' iter Hlog). fold limit.
    now rewrite logLoop_upTo.
  - unfold upTo. destruct (quota limit 0); [now apply newestFirst_take | exact Hw].
  - intros Hcase.
    assert (upTo (quota limit 0) wanted = wanted) as ->.
    { unfold upTo, quota. destruct (Z.eqb_spec limit 0); [reflexivity|].
      apply take_ge. lia. }
    split; [reflexivity|].
    intros c. unfold wanted, matching. rewrite list_elem_of_filter. tauto.
  - intros [Hpos Hmore]. unfold upTo, quota.
    destruct (Z.eqb_spec limit 0); [lia|].
    replace (Z.to_nat (Z.max 1 (limit - 0))) with (Z.to_nat limit) by lia.
    split; [|reflexivity]. rewrite length_take. lia.
Qed.

(** C10. A start or end time string that [time.Parse] rejects in the layout
    "2006-01-02 15:04:05", after the bare-date suffix was appended to
    whatever rendered string is ten bytes long, leaves that bound unset:
    the query still tells Success, and its entries are those of the loop
    run with the zero bound, which tests the commits against the other
    bound only. *)
Theorem unparsable_bound_is_unbounded `{!GoStdLawful} (x : GitLogNode.t) (msg : RuleMsg)
        (w w' : World) (iter : list Commit) :
  let limit := GitLogNode.Limit (GitLogNode.Config x) in
  log_reports x msg w iter w' ->
  (forall s suffix, String.length s = 10%nat ->
                    GitLogNode.normalize s suffix = s +:+ suffix)
  /\ (forall err, (time_Parse GitLogNode.layout (startTimeStr x msg)).2 = Some err ->
      OnMsg (Log x) msg w
      = (TellSuccess (logged x msg (GitLogNode.logLoop limit 0 (endTimeOf x msg) iter 0 [])),
         w')
      /\ forall c, GitLogNode.outOfRange 0 (endTimeOf x msg) c
                   = negb (time.IsZero (endTimeOf x msg))
                     && time.After (committerTime c) (endTimeOf x msg))
  /\ (forall err, (time_Parse GitLogNode.layout (endTimeStr x msg)).2 = Some err ->
      OnMsg (Log x) msg w
      = (TellSuccess (logged x msg (GitLogNode.logLoop limit (startTimeOf x msg) 0 iter 0 [])),
         w')
      /\ forall c, GitLogNode.outOfRange (startTimeOf x msg) 0 c
                   = negb (time.IsZero (startTimeOf x msg))
                     && time.Before (committerTime c) (startTimeOf x msg)).
Proof.
  intros limit Hlog. split; [|split].
  - intros s suffix Hs. unfold GitLogNode.normalize. rewrite Hs.
    destruct s; [discriminate | reflexivity].
  - intros err Herr. apply time_Parse_error in Herr.
    split.
    + rewrite (log_outcome x msg w w' iter Hlog). unfold startTimeOf. now rewrite Herr.
    + intros c. reflexivity.
  - intros err Herr. apply time_Parse_error in Herr.
    split.
    + rewrite (log_outcome x msg w w' iter Hlog). unfold endTimeOf at 1. now rewrite Herr.
    + intros c. unfold GitLogNode.outOfRange. simpl. now rewrite orb_false_r.
Qed.

End LogQuery.

(** ** Host metrics *)

Section HostMetrics.
Context `{Gopsutil}.
Import PsNode.

Lemma fst_of_total {A} (f : Host -> (A * option error) * Host) : total (fst_of f).
Proof.
  intros h. unfold fst_of. run_act.
  destruct (f h) as [[v e] h']. eauto.
Qed.

Lemma diskUsagesOf_total (diskInfo : list PartitionStat) (acc : list UsageStat) :
  total (diskUsagesOf diskInfo acc).
Proof.
  revert acc. induction diskInfo as [|part diskInfo IH]; intros acc h; simpl.
  - unfold ret. eauto.
  - run_act. destruct (disk_Usage (Mountpoint part) h) as [[[u|] e] h']; simpl; apply IH.
Qed.

Lemma diskUsage_total :
  total (bind (fst_of disk_Partitions) (fun diskInfo => diskUsagesOf diskInfo [])).
Proof.
  intros h. unfold bind.
  destruct (fst_of_total disk_Partitions h) as (v & h' & ->).
  apply diskUsagesOf_total.
Qed.

Lemma diskIOCounters_total :
  total (bind (fst_of disk_IOCounters)
              (fun diskIOCounters => ret (map snd diskIOCounters))).
Proof.
  intros h. unfold bind.
  destruct (fst_of_total disk_IOCounters h) as (v & h' & ->).
  unfold ret. eauto.
Qed.

Lemma collect_run {A} (wanted : bool) (key : string) (collector : Act Host Outcome A)
      (box : A -> Value) (result : gmap string Value) (h : Host) :
  total collector ->
  exists result' h',
    collect wanted key collector box result h = (inl result', h')
    /\ (wanted = false -> result' = result)
    /\ (wanted = true -> exists v, result' = <[key := box v]> result
                                   /\ (collector h).1 = inl v).
Proof.
  intros Ht. unfold collect. destruct wanted.
  - unfold bind. destruct (Ht h) as (v & h' & E). rewrite E. unfold ret.
    do 2 eexists. split; [reflexivity|]. split; [discriminate|].
    intros _. exists v. split; reflexivity.
  - unfold ret. do 2 eexists. split; [reflexivity|]. split; [reflexivity | discriminate].
Qed.

Lemma contains_All (x : t) (key : string) : All x || contains x key = contains x key.
Proof. unfold contains. destruct (All x); reflexivity. Qed.

Lemma contains_Init (configuration : types_Configuration) (key : string) :
  let x := Init New configuration in
  contains x key = true <-> Options (Config x) = [] \/ key ∈ Options (Config x).
Proof.
  simpl. unfold contains, Init. simpl.
  set (opts := decode (options configuration) []).
  assert (forall (l : list string) (m : gmap string bool),
             is_Some (foldl (fun m item => <[item := true]> m) m l !! key)
             <-> key ∈ l \/ is_Some (m !! key)) as Hfold.
  { induction l as [|a l IH]; intros m; simpl.
    - rewrite elem_of_nil. tauto.
    - rewrite IH, elem_of_cons, lookup_insert_is_Some.
      destruct (decide (a = key)) as [->|]; [tauto|].
      split; [intros [?|[?|[? ?]]] | intros [[?|?]|?]]; auto; congruence. }
  clearbody opts. destruct opts as [|o l].
  - simpl. split; [now left | reflexivity].
  - specialize (Hfold (o :: l) ∅). rewrite lookup_empty in Hfold.
    assert (~ is_Some (None : option bool)) as Hnone by (intros [? ?]; discriminate).
    change (length (o :: l) =? 0)%nat with false. cbv iota.
    destruct (foldl _ ∅ (o :: l) !! key) eqn:L.
    + split; [|reflexivity]. intros _. right.
      destruct Hfold as [Hf _]. destruct (Hf ltac:(eauto)); [assumption | contradiction].
    + split; [discriminate|]. intros [?|Hin]; [discriminate|].
      destruct Hnone. apply Hfold. now left.
Qed.

End HostMetrics.

Section HostMetricsResult.
Context `{Gopsutil}.
Import PsNode.

Lemma bind_inl {W O A B} (m : Act W O A) (k : A -> Act W O B) (w w' : W) (a : A) :
  m w = (inl a, w') -> bind m k w = k a w'.
Proof. intros E. unfold bind. now rewrite E. Qed.

Lemma collect_dom {A} (wanted : bool) (key : string) (collector : Act Host Outcome A)
      (box : A -> Value) (result : gmap string Value) (h : Host) :
  total collector ->
  exists result' h',
    collect wanted key collector box result h = (inl result', h')
    /\ (forall k, k ∈ dom result' <-> (k = key /\ wanted = true) \/ k ∈ dom result)
    /\ (forall k, k <> key -> result' !! k = result !! k).
Proof.
  intros Ht. destruct (collect_run wanted key collector box result h Ht)
    as (result' & h' & E & Hf & Hw).
  exists result', h'. split; [exact E|].
  destruct wanted.
  - destruct (Hw eq_refl) as (v & -> & _). split.
    + intros k. rewrite dom_insert_L, elem_of_union, elem_of_singleton. tauto.
    + intros k Hk. now rewrite lookup_insert_ne.
  - rewrite (Hf eq_refl). split; [|reflexivity].
    intros k. split; [now right | intros [[_ ?]|?]; [discriminate | assumption]].
Qed.

(** The [result] map holds exactly the requested options among the nine,
    whatever the collectors report; the entry of a requested "host/info"
    is the value [host.Info] returned next to its error. *)
Lemma collectAll_run (x : t) (h : Host) :
  exists result h',
    collectAll x h = (inl result, h')
    /\ (forall k, k ∈ dom result <-> k ∈ allOptions /\ contains x k = true)
    /\ (contains x OptionsHostInfo = true ->
        result !! OptionsHostInfo = Some (HostInfoValue (host_Info h).1.1)).
Proof.
  destruct (collect_run (All x || contains x OptionsHostInfo) OptionsHostInfo
                        (fst_of host_Info) HostInfoValue ∅ h (fst_of_total _))
    as (r1 & h1 & E1 & F1 & T1).
  assert (forall k, k ∈ dom r1 <-> k = OptionsHostInfo /\ contains x k = true) as D1.
  { rewrite contains_All in F1, T1. intros k.
    destruct (contains x OptionsHostInfo) eqn:C.
    - destruct (T1 eq_refl) as (v & -> & _).
      rewrite dom_insert_L, dom_empty_L, elem_of_union, elem_of_singleton, elem_of_empty.
      split; [intros [->|[]]; auto | intros [-> _]; auto].
    - rewrite (F1 eq_refl), dom_empty_L, elem_of_empty.
      split; [intros [] | intros [-> ?]; congruence]. }
  assert (contains x OptionsHostInfo = true ->
          r1 !! OptionsHostInfo = Some (HostInfoValue (host_Info h).1.1)) as L1.
  { intros C. rewrite contains_All in T1. destruct (T1 C) as (v & -> & Hv).
    rewrite lookup_insert_eq. f_equal. f_equal.
    unfold fst_of in Hv. revert Hv. run_act.
    destruct (host_Info h) as [[v' e] h'']. simpl. congruence. }
  destruct (collect_dom (All x || contains x OptionsCpuInfo) OptionsCpuInfo
                        (fst_of cpu_Info) CpuInfoValue r1 h1 (fst_of_total _))
    as (r2 & h2 & E2 & D2 & L2).
  destruct (collect_dom (All x || contains x OptionsCpuPercent) OptionsCpuPercent
                        (fst_of cpu_Percent) CpuPercentValue r2 h2 (fst_of_total _))
    as (r3 & h3 & E3 & D3 & L3).
  destruct (collect_dom (contains x OptionsVirtualMemory) OptionsVirtualMemory
                        (fst_of mem_VirtualMemory) VirtualMemoryValue r3 h3 (fst_of_total _))
    as (r4 & h4 & E4 & D4 & L4).
  destruct (collect_dom (contains x OptionsSwapMemory) OptionsSwapMemory
                        (fst_of mem_SwapMemory) SwapMemoryValue r4 h4 (fst_of_total _))
    as (r5 & h5 & E5 & D5 & L5).
  destruct (collect_dom (contains x OptionsDiskUsage) OptionsDiskUsage
                        _ DiskUsageValue r5 h5 diskUsage_total)
    as (r6 & h6 & E6 & D6 & L6).
  destruct (collect_dom (contains x OptionsDiskIOCounters) OptionsDiskIOCounters
                        _ DiskIOCountersValue r6 h6 diskIOCounters_total)
    as (r7 & h7 & E7 & D7 & L7).
  destruct (collect_dom (contains x OptionsNetIOCounters) OptionsNetIOCounters
                        (fst_of net_IOCounters) NetIOCountersValue r7 h7 (fst_of_total _))
    as (r8 & h8 & E8 & D8 & L8).
  destruct (collect_dom (contains x OptionsInterfaces) OptionsInterfaces
                        (fst_of net_Interfaces) InterfacesValue r8 h8 (fst_of_total _))
    as (r9 & h9 & E9 & D9 & L9).
  rewrite contains_All in D2, D3.
  exists r9, h9. split; [|split].
  - unfold collectAll.
    rewrite (bind_inl _ _ _ _ _ E1), (bind_inl _ _ _ _ _ E2), (bind_inl _ _ _ _ _ E3),
      (bind_inl _ _ _ _ _ E4), (bind_inl _ _ _ _ _ E5), (bind_inl _ _ _ _ _ E6),
      (bind_inl _ _ _ _ _ E7), (bind_inl _ _ _ _ _ E8), (bind_inl _ _ _ _ _ E9).
    reflexivity.
  - intros k. rewrite D9, D8, D7, D6, D5, D4, D3, D2, D1.
    unfold allOptions. rewrite !elem_of_cons, elem_of_nil.
    split.
    + intros [[-> ?]|[[-> ?]|[[-> ?]|[[-> ?]|[[-> ?]|[[-> ?]|[[-> ?]|[[-> ?]|[-> ?]]]]]]]]];
        split; auto 12.
    + intros [[->|[->|[->|[->|[->|[->|[->|[->|[->|[]]]]]]]]]] ?]; auto 12.
  - intros C. rewrite L9, L8, L7, L6, L5, L4, L3, L2 by discriminate. now apply L1.
Qed.

End HostMetricsResult.

(** ** The has-variables flag *)

Section Flag.
Context `{GoStd} `{Templates} `{!TemplatesLawful}.

Lemma render_literal (s : string) (msg : RuleMsg) :
  CheckHasVar s = false -> ExecuteTemplate s (GetEvnAndMetadata msg) = s.
Proof. apply ExecuteTemplate_literal. Qed.

(** The flag of the clone node scans the three fields its accessors
    render, so resolving with the flag equals resolving with the
    environment always built. *)
Lemma clone_flag_is_sound (configuration : types_Configuration) (msg : RuleMsg) :
  let x := GitCloneNode.Init GitCloneNode.New configuration in
  let evn := baseGitNode.evnOf (GitCloneNode.hasVar x) msg in
  let built := Some (GetEvnAndMetadata msg) in
  baseGitNode.getReferenceName (GitCloneNode.base x) msg evn
  = baseGitNode.getReferenceName (GitCloneNode.base x) msg built
  /\ baseGitNode.getRepository (GitCloneNode.base x) msg evn
     = baseGitNode.getRepository (GitCloneNode.base x) msg built
  /\ baseGitNode.getWorkDir (GitCloneNode.base x) msg evn
     = baseGitNode.getWorkDir (GitCloneNode.base x) msg built.
Proof.
  destruct configuration as [r d f ? ? ? ? ? ? ? ? ? ? ? ? ? ? ? ?].
  unfold baseGitNode.getWorkDir, baseGitNode.baseDir, baseGitNode.getRepository,
    baseGitNode.getReferenceName, baseGitNode.evnOf. simpl.
  destruct r as [r|], d as [d|], f as [f|]; simpl;
    repeat match goal with
           | |- context [CheckHasVar ?s] => destruct (CheckHasVar s) eqn:?; simpl
           end;
    repeat match goal with
           | E : CheckHasVar ?s = false |- _ => rewrite (render_literal s msg E)
           end;
    repeat split; reflexivity.
Qed.

(** So does the flag of the push node. *)
Lemma push_flag_is_sound (configuration : types_Configuration) (msg : RuleMsg) :
  let x := GitPushNode.Init GitPushNode.New configuration in
  let evn := baseGitNode.evnOf (GitPushNode.hasVar x) msg in
  let built := Some (GetEvnAndMetadata msg) in
  baseGitNode.getRefSpecs (GitPushNode.base x) msg evn
  = baseGitNode.getRefSpecs (GitPushNode.base x) msg built
  /\ baseGitNode.getRepository (GitPushNode.base x) msg evn
     = baseGitNode.getRepository (GitPushNode.base x) msg built
  /\ baseGitNode.getWorkDir (GitPushNode.base x) msg evn
     = baseGitNode.getWorkDir (GitPushNode.base x) msg built.
Proof.
  destruct configuration as [r d ? ? ? ? ? ? ? ? f ? ? ? ? ? ? ? ?].
  unfold baseGitNode.getWorkDir, baseGitNode.baseDir, baseGitNode.getRepository,
    baseGitNode.getRefSpecs, baseGitNode.evnOf. simpl.
  destruct r as [r|], d as [d|], f as [f|]; simpl;
    repeat match goal with
           | |- context [CheckHasVar ?s] => destruct (CheckHasVar s) eqn:?; simpl
           end;
    repeat match goal with
           | E : CheckHasVar ?s = false |- _ => rewrite (render_literal s msg E)
           end;
    repeat split; reflexivity.
Qed.

(** The flag of the log node scans the start and end time only: when
    neither holds a marker no environment is built, and a configured
    directory is used as written, markers or not. *)
Lemma log_flag_skips_directory (configuration : types_Configuration) (msg : RuleMsg)
      (dir : string) :
  let x := GitLogNode.Init GitLogNode.New configuration in
  CheckHasVar (GitLogNode.StartTime (GitLogNode.Config x)) = false ->
  CheckHasVar (GitLogNode.EndTime (GitLogNode.Config x)) = false ->
  directory configuration = Some dir -> dir <> "" ->
  GitLogNode.hasVar x = false
  /\ baseGitNode.baseDir (GitLogNode.base x) msg
                         (baseGitNode.evnOf (GitLogNode.hasVar x) msg) = dir.
Proof.
  intros x Hs He Hd Hne. subst x. simpl in *. rewrite Hs, He. simpl.
  split; [reflexivity|].
  unfold baseGitNode.baseDir. simpl. rewrite Hd. simpl.
  now rewrite eqb_false.
Qed.

End Flag.

(** ** Every invocation hands control back *)

Section Signalling.
Context `{GoStd} `{Templates} `{GitOps}.

(** Clone-or-pull, commit, push and log query always tell Success or
    Failure. *)
Lemma git_nodes_signal (n : GitNode) (msg : RuleMsg) (w : World) :
  (forall x, n <> CreateTag x) -> signalled (OnMsg n msg w).1 = true.
Proof.
  intros Hn. destruct n as [x|x|x|x|x]; simpl;
    [unfold GitCloneNode.OnMsg | unfold GitCommitNode.OnMsg
     | now destruct (Hn x) | unfold GitPushNode.OnMsg
     | unfold GitLogNode.OnMsg];
    run_act; repeat case_match; simplify_eq/=; reflexivity.
Qed.

(** Create-tag drops the error of [r.Head()] and calls [Hash()] on the
    reference it returned: with a nil reference the invocation panics,
    with any other it tells Success or Failure. *)
Lemma create_tag_head (x : GitCreateTagNode.t) (msg : RuleMsg) (w w1 w2 : World)
      (r : Repository) (head : option Reference) (err : option error) :
  let evn := baseGitNode.evnOf (GitCreateTagNode.hasVar x) msg in
  let workDir := baseGitNode.getWorkDir (GitCreateTagNode.base x) msg evn in
  PlainOpen workDir w = (Ok r, w1) ->
  Repository_Head r w1 = ((head, err), w2) ->
  match head with
  | None => OnMsg (CreateTag x) msg w
            = (Panic (msg_PutValue msg KeyWorkDir workDir)
                     GitCreateTagNode.nil_dereference, w2)
  | Some _ => signalled (OnMsg (CreateTag x) msg w).1 = true
  end.
Proof.
  intros evn workDir Ho Hh. unfold OnMsg, GitCreateTagNode.OnMsg. run_act.
  fold evn workDir. rewrite Ho, Hh. simpl.
  destruct head as [ref|]; [|reflexivity].
  repeat case_match; simplify_eq/=; reflexivity.
Qed.

End Signalling.

Section HostMetricsClaim.
Context `{Gopsutil} (json_Marshal : gmap string PsNode.Value -> string).
Import PsNode.


End HostMetricsClaim.

(** ** The nodes run on the reference collaborators *)

Section OnReference.
#[local] Existing Instances Ref.go Ref.templates RefWorld.types RefWorld.git RefWorld.ps.
Import Scenario.

(** C1, counterexample. The end-to-end scenario of the specification: with
    the directory configured empty and "/base" under the metadata key
    "workDir", the resolved work directory is "/base/repo", not the
    metadata value. *)
Lemma work_directory_differs_from_metadata :
  let x := GitCloneNode.base clone in
  let evn := baseGitNode.evnOf (GitCloneNode.hasVar clone) msg in
  baseGitNode.Directory (baseGitNode.Config x) = ""
  /\ GetValue (Metadata msg) KeyWorkDir = "/base"
  /\ baseGitNode.getWorkDir x msg evn = "/base/repo"
  /\ baseGitNode.getWorkDir x msg evn <> GetValue (Metadata msg) KeyWorkDir.
Proof. vm_compute. repeat split. discriminate. Qed.

(** C1 on the reference collaborators: the end-to-end scenario of the
    specification resolves the reference "dev", the configured repository
    URL and the work directory "/base/repo". *)
Lemma config_precedence_witness :
  let x := GitCloneNode.base clone in
  TemplatesLawful
  /\ baseGitNode.getReferenceName x msg None = "dev"
  /\ baseGitNode.getRepository x msg None = url
  /\ baseGitNode.getWorkDir x msg None = "/base/repo".
Proof.
  intros x.
  destruct (@config_precedence Ref.templates Ref_templates_lawful x msg None)
    as (Href & Hrepo & Hdir & Hwd).
  split; [exact Ref_templates_lawful|]. split; [|split].
  - rewrite (proj1 Href eq_refl). reflexivity.
  - rewrite (proj1 (proj2 Hrepo) ltac:(discriminate) eq_refl). reflexivity.
  - rewrite Hwd, (proj1 Hdir eq_refl),
      (proj1 (proj2 Hrepo) ltac:(discriminate) eq_refl).
    reflexivity.
Defined.

(** C6 on the reference collaborators: a token, a key file, a missing key
    file and an unknown tag. *)
Lemma getAuthMethod_selector_witness :
  let node authType pemFile :=
    {| baseGitNode.Config :=
         baseGitNode.Map2Struct (configured url "" "" authType None "" "")
           {| baseGitNode.Repository := ""; baseGitNode.Directory := "";
              baseGitNode.Reference := ""; baseGitNode.AuthType := "";
              baseGitNode.AuthUser := ""; baseGitNode.AuthPassword := "";
              baseGitNode.AuthPemFile := pemFile; baseGitNode.ProxyUrl := "";
              baseGitNode.ProxyUsername := ""; baseGitNode.ProxyPassword := "";
              baseGitNode.RefSpecs := "" |} |} in
  baseGitNode.getAuthMethod (node "token" "") empty = (Ok (BasicAuth "ci" "secret"), empty)
  /\ baseGitNode.getAuthMethod (node "ssh" "/keys/id_rsa") empty
     = (Ok (PublicKeysAuth "/keys/id_rsa"), empty)
  /\ baseGitNode.getAuthMethod (node "ssh-key" "") empty = (Err RefWorld.noKeyFile, empty)
  /\ baseGitNode.getAuthMethod (node "oauth" "") empty
     = (Err (errors_New "not authType=oauth"), empty).
Proof.
  intros node. split; [|split; [|split]].
  - apply (proj1 (@getAuthMethod_selector RefWorld.types RefWorld.git (node "token" "") empty)).
    vm_compute. repeat constructor.
  - rewrite (proj1 (proj2 (@getAuthMethod_selector RefWorld.types RefWorld.git (node "ssh" "/keys/id_rsa") empty)));
      [reflexivity|]. vm_compute. repeat constructor.
  - rewrite (proj1 (proj2 (@getAuthMethod_selector RefWorld.types RefWorld.git (node "ssh-key" "") empty)));
      [reflexivity|]. vm_compute. repeat constructor.
  - apply (proj2 (proj2 (@getAuthMethod_selector RefWorld.types RefWorld.git (node "oauth" "") empty))).
    apply (bool_decide_eq_false_1 _). vm_compute. reflexivity.
Defined.

Lemma clone_finds_up_to_date (w : RefWorld.State) :
  is_Some (RefWorld.repos w !! "/base/repo") ->
  pull_reports clone msg w (Some NoErrAlreadyUpToDate) w.
Proof.
  intros [r Hr]. unfold pull_reports.
  change (baseGitNode.getWorkDir (GitCloneNode.base clone) msg
            (baseGitNode.evnOf (GitCloneNode.hasVar clone) msg)) with "/base/repo".
  exists w, w, w, w, "/base/repo", "/base/repo", (BasicAuth "ci" "secret").
  simpl. unfold RefWorld.stat, RefWorld.open. rewrite Hr. repeat split.
Qed.

(** C3 on the reference collaborators: the clone exists and the remote has
    nothing new; one invocation and three in a row. *)
Lemma clone_or_pull_up_to_date_witness :
  OnMsg (Clone clone) msg clean
  = (TellSuccess (msg_PutValue msg KeyWorkDir "/base/repo"), clean)
  /\ Forall (fun o => is_success o = true)
            (invocations (Clone clone) [msg; msg; msg] clean).
Proof.
  split.
  - apply (proj1 (proj1 (@clone_or_pull_up_to_date Ref.go Ref.templates RefWorld.types RefWorld.git clone) msg clean clean)).
    apply clone_finds_up_to_date. vm_compute. eauto.
  - apply (proj2 (@clone_or_pull_up_to_date Ref.go Ref.templates RefWorld.types RefWorld.git clone)
                 (fun w => is_Some (RefWorld.repos w !! "/base/repo")) [msg; msg; msg]).
    + intros m w Hm Hw. exists w. split; [|exact Hw].
      repeat (apply elem_of_cons in Hm as [->|Hm]);
        try (now apply clone_finds_up_to_date).
      now apply elem_of_nil in Hm.
    + vm_compute. eauto.
Defined.

(** C4 on the reference collaborators: a clean working tree. *)
Lemma commit_clean_tree_witness :
  status_reports commit msg clean true clean
  /\ OnMsg (CommitChanges commit) msg clean
     = (TellFailure (msg_PutValue msg KeyWorkDir "/base/repo")
                    (errors_New "no changes to commit"), clean)
  /\ GetValue (Metadata (outcome_msg (OnMsg (CommitChanges commit) msg clean).1)) KeyHash = "".
Proof.
  assert (status_reports commit msg clean true clean) as Hs.
  { exists clean, clean, "/base/repo", "/base/repo", true. repeat split. }
  destruct (@commit_clean_tree Ref.go Ref.templates RefWorld.types RefWorld.git
                               commit msg clean clean Hs) as [Ho Hh].
  split; [exact Hs|]. split; [exact Ho|].
  rewrite Ho. unfold GetValue. cbn [fst outcome_msg]. rewrite Hh. reflexivity.
Defined.

End OnReference.

Section LogOnReference.
#[local] Existing Instances Ref.go Ref.templates RefWorld.types RefWorld.git RefWorld.ps.
Import Scenario.

Lemma log_finds_history (x : GitLogNode.t) :
  baseGitNode.getWorkDir (GitLogNode.base x) msg
                         (baseGitNode.evnOf (GitLogNode.hasVar x) msg) = "/base/repo" ->
  log_reports x msg clean [c3; c2; c1] clean.
Proof.
  intros Hd. unfold log_reports. rewrite Hd.
  exists clean, "/base/repo". split; reflexivity.
Qed.

Lemma history_newestFirst : newestFirst [c3; c2; c1].
Proof.
  unfold newestFirst. repeat constructor; vm_compute; discriminate.
Qed.

(** C5, counterexample. With the limit -1 and three commits matching (no
    bound is set), the query returns one entry: the limit is nonzero and
    more than -1 commits match, yet the number returned is not the limit. *)
Lemma negative_limit_returns_one_entry :
  let limit := GitLogNode.Limit (GitLogNode.Config minusOne) in
  let wanted := matching (startTimeOf minusOne msg) (endTimeOf minusOne msg) [c3; c2; c1] in
  limit = -1
  /\ wanted = [c3; c2; c1]
  /\ OnMsg (Log minusOne) msg clean
     = (TellSuccess (logged minusOne msg [GitLogNode.toLogMsg c3]), clean)
  /\ limit < Z.of_nat (length wanted)
  /\ Z.of_nat (length [GitLogNode.toLogMsg c3]) <> limit.
Proof. vm_compute. repeat split; discriminate. Qed.

(** C5 on the reference collaborators: commits at noon of January 1, 2
    and 3 and the window of January 2, given as bare dates; only the commit
    of January 2 is returned. *)
Lemma log_query_window_and_limit_witness :
  log_reports oneDay msg clean [c3; c2; c1] clean
  /\ newestFirst [c3; c2; c1]
  /\ 0 <= GitLogNode.Limit (GitLogNode.Config oneDay)
  /\ startTimeStr oneDay msg = "2024-01-02 00:00:00"
  /\ endTimeStr oneDay msg = "2024-01-02 23:59:59"
  /\ OnMsg (Log oneDay) msg clean
     = (TellSuccess (logged oneDay msg [GitLogNode.toLogMsg c2]), clean).
Proof.
  pose proof (log_finds_history oneDay eq_refl) as Hlog.
  pose proof history_newestFirst as Hsorted.
  assert (0 <= GitLogNode.Limit (GitLogNode.Config oneDay)) as Hlimit
      by (vm_compute; discriminate).
  destruct (@log_query_window_and_limit Ref.go Ref.templates RefWorld.types RefWorld.git
              oneDay msg clean clean [c3; c2; c1] Hlog Hsorted Hlimit)
    as (returned & Ho & _ & Hall & _).
  destruct (Hall ltac:(left; reflexivity)) as [-> _].
  repeat (split; [assumption || reflexivity|]).
  exact Ho.
Defined.

(** C10 on the reference collaborators: the start time "yesterday" does not
    parse, and the query returns the whole history. *)
Lemma unparsable_bound_is_unbounded_witness :
  GoStdLawful
  /\ log_reports sinceYesterday msg clean [c3; c2; c1] clean
  /\ startTimeStr sinceYesterday msg = "yesterday"
  /\ (time_Parse GitLogNode.layout (startTimeStr sinceYesterday msg)).2 = Some Ref.parseError
  /\ OnMsg (Log sinceYesterday) msg clean
     = (TellSuccess (logged sinceYesterday msg (map GitLogNode.toLogMsg [c3; c2; c1])), clean)
  /\ GitLogNode.normalize "2024-01-02" " 00:00:00" = "2024-01-02 00:00:00"
  /\ GitLogNode.normalize "0123456789" " 23:59:59" = "0123456789 23:59:59".
Proof.
  pose proof (log_finds_history sinceYesterday eq_refl) as Hlog.
  destruct (@unparsable_bound_is_unbounded Ref.go Ref.templates RefWorld.types RefWorld.git
              Ref_go_lawful sinceYesterday msg clean clean [c3; c2; c1] Hlog)
    as (Hnorm & Hstart & _).
  destruct (Hstart Ref.parseError eq_refl) as [Ho _].
  split; [exact Ref_go_lawful|]. split; [exact Hlog|]. split; [reflexivity|]. split; [reflexivity|].
  split; [exact Ho|]. split; apply Hnorm; reflexivity.
Defined.

(** C7. The log node initialised with the directory "${metadata.root}" and
    no start or end time: its flag is off although the directory holds a
    marker, so the directory is not rendered and the recorded work
    directory is "${metadata.root}/repo"; built and rendered against the
    environment it is "/srv/repo", which is also what the commit node
    records for the same configuration, because its flag scans the
    directory. *)
Theorem log_directory_is_not_rendered :
  let base := GitLogNode.base templatedLog in
  CheckHasVar (baseGitNode.Directory (baseGitNode.Config base)) = true
  /\ GitLogNode.hasVar templatedLog = false
  /\ GetValue (Metadata (outcome_msg (OnMsg (Log templatedLog) msg clean).1)) KeyWorkDir
     = "${metadata.root}/repo"
  /\ baseGitNode.getWorkDir base msg (Some (GetEvnAndMetadata msg)) = "/srv/repo"
  /\ GitCommitNode.hasVar templatedCommit = true
  /\ GetValue (Metadata (outcome_msg (OnMsg (CommitChanges templatedCommit) msg clean).1))
              KeyWorkDir
     = "/srv/repo".
Proof. vm_compute. repeat split. Qed.

(** C8. Create-tag on a repository without commits: [r.Head()] returns a
    nil reference with its error, the error is dropped, and the call of
    [Hash()] on the nil reference panics; the invocation tells neither
    Success nor Failure. *)
Theorem create_tag_without_head_panics :
  (Repository_Head "/base/repo" unborn).1 = (None, Some RefWorld.noReference)
  /\ OnMsg (CreateTag tagger) msg unborn
     = (Panic (msg_PutValue msg KeyWorkDir "/base/repo") GitCreateTagNode.nil_dereference,
        unborn)
  /\ signalled (OnMsg (CreateTag tagger) msg unborn).1 = false.
Proof.
  split; [reflexivity|].
  pose proof (@create_tag_head Ref.go Ref.templates RefWorld.types RefWorld.git
                tagger msg unborn unborn unborn "/base/repo" None
                (Some RefWorld.noReference) eq_refl eq_refl) as Hp.
  cbv beta iota zeta in Hp. split; [exact Hp|].
  rewrite Hp. reflexivity.
Qed.



End LogOnReference.

(** * Further properties of the package *)

(** ** Repository names and refspecs *)

Lemma no_slash_in_git : "/"%char ∉ String.list_ascii_of_string ".git".
Proof. apply (bool_decide_eq_false_1 _). reflexivity. Qed.

Lemma HasSuffix_false_git (seg : string) :
  strings.HasSuffix seg ".git" = false -> forall r, seg <> r +:+ ".git".
Proof.
  intros Hs. destruct (TrimSuffix_git seg) as [E|[_ N]]; [|exact N].
  unfold strings.TrimSuffix in E. rewrite Hs in E.
  apply (f_equal String.length) in E. rewrite length_append in E. simpl in E. lia.
Qed.

Lemma short_name_of_name (p name : string) :
  "/"%char ∉ String.list_ascii_of_string name ->
  short_name (p +:+ "/" +:+ name +:+ ".git") name
  /\ short_name (name +:+ ".git") name
  /\ (strings.HasSuffix name ".git" = false ->
      short_name (p +:+ "/" +:+ name) name /\ short_name name name).
Proof.
  intros Hno.
  assert ("/"%char ∉ String.list_ascii_of_string (name +:+ ".git")) as Hno'.
  { rewrite list_ascii_append. intros Hin. apply elem_of_app in Hin as [Hin|Hin].
    - now apply Hno.
    - now apply no_slash_in_git. }
  split; [|split].
  - exists (name +:+ ".git"). split; [|now left].
    split; [exact Hno' | right; now exists p].
  - exists (name +:+ ".git"). split; [|now left].
    split; [exact Hno' | now left].
  - intros Hs. pose proof (HasSuffix_false_git name Hs) as N. split.
    + exists name. split; [split; [exact Hno | right; now exists p] | now right].
    + exists name. split; [split; [exact Hno | now left] | now right].
Qed.

(** X1. For a name without "/", [getRepoName] returns the name from a URL
    that ends in "<name>.git", with or without a path before it, and from a
    URL that ends in the name itself when the name has no ".git" suffix:
    everything up to the last "/" is dropped and ".git" is removed once. *)
Theorem getRepoName_strips_path_and_git (p name : string) :
  "/"%char ∉ String.list_ascii_of_string name ->
  baseGitNode.getRepoName (p +:+ "/" +:+ name +:+ ".git") = name
  /\ baseGitNode.getRepoName (name +:+ ".git") = name
  /\ (strings.HasSuffix name ".git" = false ->
      baseGitNode.getRepoName (p +:+ "/" +:+ name) = name
      /\ baseGitNode.getRepoName name = name).
Proof.
  intros Hno. destruct (short_name_of_name p name Hno) as (H1 & H2 & H3).
  split; [|split].
  - exact (short_name_unique _ _ _ (getRepoName_short_name _) H1).
  - exact (short_name_unique _ _ _ (getRepoName_short_name _) H2).
  - intros Hs. destruct (H3 Hs) as [H4 H5]. split.
    + exact (short_name_unique _ _ _ (getRepoName_short_name _) H4).
    + exact (short_name_unique _ _ _ (getRepoName_short_name _) H5).
Qed.

(** X1 at the SSH URL of the package's test and at a name that keeps an
    inner ".git". *)
Lemma getRepoName_strips_path_and_git_witness :
  ("/"%char ∉ String.list_ascii_of_string "rulego-components-ci")
  /\ baseGitNode.getRepoName "git@github.com:rulego/rulego-components-ci.git"
     = "rulego-components-ci"
  /\ baseGitNode.getRepoName "https://github.com/rulego/rulego-components-ci"
     = "rulego-components-ci"
  /\ baseGitNode.getRepoName "https://example/repo.git.git" = "repo.git".
Proof.
  assert ("/"%char ∉ String.list_ascii_of_string "rulego-components-ci") as Hno
      by (apply (bool_decide_eq_false_1 _); reflexivity).
  assert ("/"%char ∉ String.list_ascii_of_string "repo.git") as Hno'
      by (apply (bool_decide_eq_false_1 _); reflexivity).
  split; [exact Hno|]. split; [|split].
  - exact (proj1 (getRepoName_strips_path_and_git "git@github.com:rulego"
                    "rulego-components-ci" Hno)).
  - exact (proj1 (proj2 (proj2 (getRepoName_strips_path_and_git "https://github.com/rulego"
                                  "rulego-components-ci" Hno)) eq_refl)).
  - exact (proj1 (getRepoName_strips_path_and_git "https://example" "repo.git" Hno')).
Defined.

(** X2. The name [getRepoName] returns never holds a "/", and it is empty
    for a URL that ends in "/" (and for the empty URL). *)
Theorem getRepoName_has_no_slash (U : string) :
  ("/"%char ∉ String.list_ascii_of_string (baseGitNode.getRepoName U))
  /\ baseGitNode.getRepoName (U +:+ "/") = ""
  /\ baseGitNode.getRepoName "" = "".
Proof.
  split; [|split; [|reflexivity]].
  - destruct (getRepoName_short_name U) as (seg & [Hno _] & [E|[E _]]).
    + intros Hin. apply Hno. rewrite E, list_ascii_append. apply elem_of_app. now left.
    + now rewrite E.
  - apply (short_name_unique (U +:+ "/") _ "" (getRepoName_short_name _)).
    exists "". split.
    + split; [simpl; apply not_elem_of_nil | right; now exists U].
    + right. split; [reflexivity|]. intros r E.
      apply (f_equal String.length) in E. rewrite length_append in E. simpl in E. lia.
Qed.

Section RefSpecs.
Context `{Templates}.

(** X3. The refspecs of a push are the comma-separated pieces of the
    (rendered) configuration string: joining them with "," gives the string
    back, no piece holds a comma, and there is always at least one piece, so
    an unset [RefSpecs] yields the single empty refspec. *)
Theorem getRefSpecs_round_trip (x : baseGitNode.t) (msg : RuleMsg) (evn : option Env) :
  let rendered := match evn with
                  | Some evn => ExecuteTemplate (baseGitNode.RefSpecs (baseGitNode.Config x)) evn
                  | None => baseGitNode.RefSpecs (baseGitNode.Config x)
                  end in
  joined "," (baseGitNode.getRefSpecs x msg evn) = rendered
  /\ Forall (fun spec => ","%char ∉ String.list_ascii_of_string spec)
            (baseGitNode.getRefSpecs x msg evn)
  /\ baseGitNode.getRefSpecs x msg evn <> []
  /\ (rendered = "" -> baseGitNode.getRefSpecs x msg evn = [""]).
Proof.
  intros rendered. unfold baseGitNode.getRefSpecs. fold rendered.
  split; [apply Split_joined|]. split; [apply Split_no_sep|].
  split; [apply Split_nonempty|]. intros ->. reflexivity.
Qed.

(** X4. With nothing configured and nothing in the metadata, resolution
    raises no error: reference, repository URL and base directory are the
    empty string, and so is the work directory. *)
Theorem nothing_configured_resolves_to_empty (x : baseGitNode.t) (msg : RuleMsg)
        (evn : option Env) :
  let c := baseGitNode.Config x in
  baseGitNode.Repository c = "" -> baseGitNode.Directory c = "" ->
  baseGitNode.Reference c = "" ->
  (forall key, key ∈ [KeyWorkDir; KeyRef; KeyGitSshUrl; KeyGitHttpUrl] ->
               Metadata msg !! key = None) ->
  baseGitNode.getReferenceName x msg evn = ""
  /\ baseGitNode.getRepository x msg evn = ""
  /\ baseGitNode.getWorkDir x msg evn = "".
Proof.
  intros c Hr Hd Hf Hmd.
  assert (forall key, key ∈ [KeyWorkDir; KeyRef; KeyGitSshUrl; KeyGitHttpUrl] ->
                      GetValue (Metadata msg) key = "") as Hget.
  { intros key Hk. unfold GetValue. now rewrite (Hmd key Hk). }
  assert (baseGitNode.getRepository x msg evn = "") as Hrepo.
  { unfold baseGitNode.getRepository. fold c. rewrite Hr. simpl.
    destruct (_ || _); apply Hget; repeat constructor. }
  split; [|split; [exact Hrepo|]].
  - unfold baseGitNode.getReferenceName. fold c. rewrite Hf. simpl.
    apply Hget. repeat constructor.
  - unfold baseGitNode.getWorkDir, baseGitNode.baseDir. fold c.
    rewrite Hrepo, Hd. simpl. rewrite Hget by repeat constructor. reflexivity.
Qed.

End RefSpecs.

(** X4 at the zero configuration and a message without metadata. *)
Lemma nothing_configured_resolves_to_empty_witness :
  let x := {| baseGitNode.Config := baseGitNode.zero |} in
  let msg := {| Type_ := "test"; DataType := JSON; Data := ""; Metadata := ∅ |} in
  @baseGitNode.getReferenceName Ref.templates x msg None = ""
  /\ @baseGitNode.getRepository Ref.templates x msg None = ""
  /\ @baseGitNode.getWorkDir Ref.templates x msg None = "".
Proof.
  intros x msg.
  apply (@nothing_configured_resolves_to_empty Ref.templates x msg None
           eq_refl eq_refl eq_refl).
  intros key _. apply lookup_empty.
Defined.

(** ** What an invocation leaves of the message *)

Section Frame.
Context `{GoStd} `{Templates} `{GitOps}.

(** The message a git node hands back is the incoming one with the work
    directory recorded, and beyond that only the hash of a successful commit
    or tag, or the entries of a successful log query. *)
Lemma outcome_shape (n : GitNode) (msg : RuleMsg) (w : World) :
  let workDir := baseGitNode.getWorkDir (embedded n) msg (baseGitNode.evnOf (flag n) msg) in
  let msg0 := msg_PutValue msg KeyWorkDir workDir in
  let o := (OnMsg n msg w).1 in
  outcome_msg o = msg0
  \/ (writesHash n = true /\ is_success o = true
      /\ exists h, outcome_msg o = msg_PutValue msg0 KeyHash h)
  \/ (writesData n = true /\ is_success o = true
      /\ exists entries, outcome_msg o = msg_SetData msg0 JSON (ToString entries)).
Proof.
  destruct n as [x|x|x|x|x]; simpl;
    [unfold GitCloneNode.OnMsg | unfold GitCommitNode.OnMsg
     | unfold GitCreateTagNode.OnMsg | unfold GitPushNode.OnMsg
     | unfold GitLogNode.OnMsg];
    run_act; repeat case_match; simplify_eq/=;
    first [ left; reflexivity
          | right; left; repeat split; eexists; reflexivity
          | right; right; repeat split; eexists; reflexivity ].
Qed.

Lemma PutValue_other (md : gmap string string) (key key' value : string) :
  key <> key' -> PutValue md key value !! key' = md !! key'.
Proof.
  intros Hk. unfold PutValue. destruct (String.eqb key ""); [reflexivity|].
  now apply lookup_insert_ne.
Qed.

Lemma metadata_outside_workDir_and_hash (n : GitNode) (msg : RuleMsg) (w : World) (key : string) :
  key <> KeyWorkDir -> key <> KeyHash ->
  Metadata (outcome_msg (OnMsg n msg w).1) !! key = Metadata msg !! key.
Proof.
  intros Hw Hk.
  destruct (outcome_shape n msg w) as [E|[(_ & _ & h & E)|(_ & _ & entries & E)]];
    rewrite E; simpl.
  - now apply PutValue_other.
  - rewrite PutValue_other by congruence. now apply PutValue_other.
  - now apply PutValue_other.
Qed.

(** X5. A git node changes no metadata entry other than "workDir" and
    "hash": every other key holds after the invocation what it held before,
    whatever the outcome. The entry "hash" itself is changed only by a commit
    or a tag that tells Success. *)
Theorem git_node_metadata_frame (n : GitNode) (msg : RuleMsg) (w : World) :
  let o := (OnMsg n msg w).1 in
  (forall key, key <> KeyWorkDir -> key <> KeyHash ->
               Metadata (outcome_msg o) !! key = Metadata msg !! key)
  /\ (writesHash n = false \/ is_success o = false ->
      Metadata (outcome_msg o) !! KeyHash = Metadata msg !! KeyHash).
Proof.
  intros o. subst o. split.
  - intros key Hw Hk. now apply metadata_outside_workDir_and_hash.
  - destruct (outcome_shape n msg w) as [E|[(Hh & Hs & h & E)|(Hd & Hs & entries & E)]];
      rewrite E; simpl.
    + intros _. now apply PutValue_other.
    + intros [Hn|Hn]; congruence.
    + intros _. now apply PutValue_other.
Qed.

(** X6. Only a log query that tells Success replaces the data of the
    message: after any other invocation the data and its type are the
    incoming ones, and the message type is never changed. *)
Theorem git_node_data_frame (n : GitNode) (msg : RuleMsg) (w : World) :
  let o := (OnMsg n msg w).1 in
  Type_ (outcome_msg o) = Type_ msg
  /\ (writesData n = false \/ is_success o = false ->
      Data (outcome_msg o) = Data msg /\ DataType (outcome_msg o) = DataType msg).
Proof.
  intros o. subst o.
  destruct (outcome_shape n msg w) as [E|[(Hh & Hs & h & E)|(Hd & Hs & entries & E)]];
    rewrite E; simpl; (split; [reflexivity|]).
  - intros _. split; reflexivity.
  - intros _. split; reflexivity.
  - intros [Hn|Hn]; congruence.
Qed.

(** X7. A node whose directory is not configured takes the recorded work
    directory of the node before it as its base and joins the repository
    name once more: invoked on the message the first node handed back, it
    resolves [path.Join] of the first node's work directory and the
    repository name. *)
Theorem unconfigured_directory_rejoins_name (n1 n2 : GitNode) (msg : RuleMsg) (w : World) :
  let msg' := outcome_msg (OnMsg n1 msg w).1 in
  let evn' := baseGitNode.evnOf (flag n2) msg' in
  baseGitNode.Directory (baseGitNode.Config (embedded n2)) = "" ->
  baseGitNode.getWorkDir (embedded n2) msg' evn'
  = path.Join [baseGitNode.getWorkDir (embedded n1) msg (baseGitNode.evnOf (flag n1) msg);
               baseGitNode.getRepoName (baseGitNode.getRepository (embedded n2) msg' evn')].
Proof.
  intros msg' evn' Hd. unfold baseGitNode.getWorkDir at 1, baseGitNode.baseDir.
  rewrite Hd. simpl. unfold msg'. now rewrite recorded_workDir.
Qed.

(** X8. A node with a configured directory and no template resolves the same
    work directory on the message another node handed back as on the
    message that node received: the recorded work directory does not feed
    back into it. *)
Theorem configured_directory_is_stable (n1 n2 : GitNode) (msg : RuleMsg) (w : World) :
  let msg' := outcome_msg (OnMsg n1 msg w).1 in
  baseGitNode.Directory (baseGitNode.Config (embedded n2)) <> "" ->
  flag n2 = false ->
  baseGitNode.getWorkDir (embedded n2) msg' (baseGitNode.evnOf (flag n2) msg')
  = baseGitNode.getWorkDir (embedded n2) msg (baseGitNode.evnOf (flag n2) msg).
Proof.
  intros msg' Hd Hf. rewrite Hf. simpl.
  pose proof (metadata_outside_workDir_and_hash n1 msg w) as Hframe.
  unfold baseGitNode.getWorkDir, baseGitNode.baseDir, baseGitNode.getRepository, GetValue.
  rewrite eqb_false by exact Hd.
  fold msg' in Hframe.
  rewrite (Hframe KeyGitSshUrl), (Hframe KeyGitHttpUrl) by discriminate.
  reflexivity.
Qed.

End Frame.

(** ** The paths through the nodes *)

Section Paths.
Context `{GoStd} `{Templates} `{GitOps}.

Lemma getAuthMethod_unsupported (x : baseGitNode.t) (w : World) :
  baseGitNode.AuthType (baseGitNode.Config x)
    ∉ ["token"; "username-password"; "password"; "ssh-key"; "ssh"] ->
  baseGitNode.getAuthMethod x w
  = (Err (errors_New ("not authType=" +:+ baseGitNode.AuthType (baseGitNode.Config x))), w).
Proof.
  intros Hnot. unfold baseGitNode.getAuthMethod.
  rewrite !eqb_false; [reflexivity | | | | |];
    intros E; apply Hnot; rewrite E; repeat constructor.
Qed.

(** X9. Clone-or-pull when the work directory does not exist: a failure of
    the auth method selection is told as that Failure and nothing is cloned;
    otherwise the clone runs with the resolved URL, proxy, reference and
    credential, and its error, if any, is told as a Failure, no error as
    Success. An unknown auth type therefore ends the invocation with
    "not authType=<tag>" in the world the directory test left. *)
Theorem clone_when_directory_absent (x : GitCloneNode.t) (msg : RuleMsg) (w w1 : World) :
  let evn := baseGitNode.evnOf (GitCloneNode.hasVar x) msg in
  let workDir := baseGitNode.getWorkDir (GitCloneNode.base x) msg evn in
  let msg' := msg_PutValue msg KeyWorkDir workDir in
  os_Stat_IsNotExist workDir w = (true, w1) ->
  (forall err w2,
      baseGitNode.getAuthMethod (GitCloneNode.base x) w1 = (Err err, w2) ->
      OnMsg (Clone x) msg w = (TellFailure msg' err, w2))
  /\ (forall auth w2 perr w3,
         baseGitNode.getAuthMethod (GitCloneNode.base x) w1 = (Ok auth, w2) ->
         PlainClone workDir false (cloneOptionsOf x msg auth) w2 = (perr, w3) ->
         OnMsg (Clone x) msg w
         = (match perr with
            | Some err => TellFailure msg' err
            | None => TellSuccess msg'
            end, w3))
  /\ (baseGitNode.AuthType (baseGitNode.Config (GitCloneNode.base x))
        ∉ ["token"; "username-password"; "password"; "ssh-key"; "ssh"] ->
      OnMsg (Clone x) msg w
      = (TellFailure msg'
           (errors_New ("not authType="
                        +:+ baseGitNode.AuthType (baseGitNode.Config (GitCloneNode.base x)))),
         w1)).
Proof.
  intros evn workDir msg' Hs.
  assert (forall err w2,
             baseGitNode.getAuthMethod (GitCloneNode.base x) w1 = (Err err, w2) ->
             OnMsg (Clone x) msg w = (TellFailure msg' err, w2)) as Hfail.
  { intros err w2 Ha. unfold OnMsg, GitCloneNode.OnMsg. run_act.
    fold evn workDir msg'. rewrite Hs, Ha. reflexivity. }
  split; [exact Hfail|]. split.
  - intros auth w2 perr w3 Ha Hc. unfold cloneOptionsOf in Hc. fold evn workDir msg' in Hc.
    unfold OnMsg, GitCloneNode.OnMsg. run_act.
    fold evn workDir msg'. rewrite Hs, Ha, Hc. destruct perr; reflexivity.
  - intros Hnot. apply Hfail. now apply getAuthMethod_unsupported.
Qed.

(** X10. A commit on a working tree with pending changes: a failure of
    [AddGlob] is told as that Failure and nothing is committed; otherwise the
    commit is made with the resolved message and the author signed at the
    current time, its error is told as a Failure, and its hash is written
    under the metadata key "hash" of the message told as Success. *)
Theorem commit_pending_changes (x : GitCommitNode.t) (msg : RuleMsg)
        (w w1 w2 w3 : World) (r : Repository) (wt : Worktree) (status : Status) :
  let evn := baseGitNode.evnOf (GitCommitNode.hasVar x) msg in
  let workDir := baseGitNode.getWorkDir (GitCommitNode.base x) msg evn in
  let msg' := msg_PutValue msg KeyWorkDir workDir in
  PlainOpen workDir w = (Ok r, w1) ->
  Repository_Worktree r w1 = (Ok wt, w2) ->
  Worktree_Status wt w2 = (Ok status, w3) ->
  Status_IsClean status = false ->
  (forall err w4,
      Worktree_AddGlob wt (GitCommitNode.getPattern x msg evn) w3 = (Some err, w4) ->
      OnMsg (CommitChanges x) msg w = (TellFailure msg' err, w4))
  /\ (forall w4 now w5 res w6,
         Worktree_AddGlob wt (GitCommitNode.getPattern x msg evn) w3 = (None, w4) ->
         time_Now w4 = (now, w5) ->
         Worktree_Commit wt (GitCommitNode.getMessage x msg evn) (authorOf x msg now) w5
         = (res, w6) ->
         OnMsg (CommitChanges x) msg w
         = (match res with
            | Ok commit => TellSuccess (msg_PutValue msg' KeyHash commit)
            | Err err => TellFailure msg' err
            end, w6)
         /\ forall commit, res = Ok commit ->
                           GetValue (Metadata (outcome_msg (OnMsg (CommitChanges x) msg w).1))
                                    KeyHash = commit).
Proof.
  intros evn workDir msg' Ho Hw Hs Hc. split.
  - intros err w4 Ha. unfold OnMsg, GitCommitNode.OnMsg. run_act.
    fold evn workDir msg'. rewrite Ho, Hw, Hs, Hc.
    unfold GitCommitNode.getPattern in *. rewrite Ha. reflexivity.
  - intros w4 now w5 res w6 Ha Hn Hcm.
    assert (OnMsg (CommitChanges x) msg w
            = (match res with
               | Ok commit => TellSuccess (msg_PutValue msg' KeyHash commit)
               | Err err => TellFailure msg' err
               end, w6)) as Hout.
    { unfold OnMsg, GitCommitNode.OnMsg. run_act.
      fold evn workDir msg'. rewrite Ho, Hw, Hs, Hc.
      unfold GitCommitNode.getPattern in *. rewrite Ha, Hn.
      unfold authorOf, GitCommitNode.getMessage, GitCommitNode.getSignatureName,
        GitCommitNode.getSignatureEmail in *. fold evn in Hcm. rewrite Hcm.
      destruct res; reflexivity. }
    split; [exact Hout|]. intros commit ->. rewrite Hout. simpl.
    now apply GetValue_PutValue.
Qed.

(** X11. Create-tag when [r.Head()] returns a reference, with or without an
    error beside it: a failure to fetch the commit object is told as that
    Failure; otherwise the annotated tag is created on the hash of the
    fetched commit object, with the resolved name, message and the tagger
    signed at the current time; its error is told as a Failure, and its
    hash is written under the metadata key "hash" of the message told as
    Success. *)
Theorem create_tag_on_head (x : GitCreateTagNode.t) (msg : RuleMsg) (w w1 w2 : World)
        (r : Repository) (head : Reference) (herr : option error) :
  let evn := baseGitNode.evnOf (GitCreateTagNode.hasVar x) msg in
  let workDir := baseGitNode.getWorkDir (GitCreateTagNode.base x) msg evn in
  let msg' := msg_PutValue msg KeyWorkDir workDir in
  PlainOpen workDir w = (Ok r, w1) ->
  Repository_Head r w1 = ((Some head, herr), w2) ->
  (forall err w3,
      Repository_CommitObject r (Reference_Hash head) w2 = (Err err, w3) ->
      OnMsg (CreateTag x) msg w = (TellFailure msg' err, w3))
  /\ (forall commitObj w3 now w4 res w5,
         Repository_CommitObject r (Reference_Hash head) w2 = (Ok commitObj, w3) ->
         time_Now w3 = (now, w4) ->
         Repository_CreateTag r (GitCreateTagNode.getTag x msg evn)
                              (Commit_Hash commitObj) (tagOptionsOf x msg now) w4
         = (res, w5) ->
         OnMsg (CreateTag x) msg w
         = (match res with
            | Ok annotatedTag =>
                TellSuccess (msg_PutValue msg' KeyHash (Reference_Hash annotatedTag))
            | Err err => TellFailure msg' err
            end, w5)).
Proof.
  intros evn workDir msg' Ho Hh. split.
  - intros err w3 Hc. unfold OnMsg, GitCreateTagNode.OnMsg. run_act.
    fold evn workDir msg'. rewrite Ho, Hh. simpl. rewrite Hc. reflexivity.
  - intros commitObj w3 now w4 res w5 Hc Hn Ht.
    unfold OnMsg, GitCreateTagNode.OnMsg. run_act.
    fold evn workDir msg'. rewrite Ho, Hh. simpl. rewrite Hc, Hn.
    unfold tagOptionsOf, GitCreateTagNode.getTag, GitCreateTagNode.getMessage,
      GitCreateTagNode.getSignatureName, GitCreateTagNode.getSignatureEmail in *.
    fold evn in Ht. rewrite Ht. destruct res; reflexivity.
Qed.

(** X12. A push opens the repository first, then selects the auth method,
    then pushes: a failure to open is told before the auth method is
    selected, a failure of the selection before anything is pushed, and the
    push itself tells its error as a Failure and no error as Success. *)
Theorem push_steps (x : GitPushNode.t) (msg : RuleMsg) (w : World) :
  let evn := baseGitNode.evnOf (GitPushNode.hasVar x) msg in
  let workDir := baseGitNode.getWorkDir (GitPushNode.base x) msg evn in
  let msg' := msg_PutValue msg KeyWorkDir workDir in
  (forall err w1, PlainOpen workDir w = (Err err, w1) ->
                  OnMsg (Push x) msg w = (TellFailure msg' err, w1))
  /\ (forall r w1 err w2,
         PlainOpen workDir w = (Ok r, w1) ->
         baseGitNode.getAuthMethod (GitPushNode.base x) w1 = (Err err, w2) ->
         OnMsg (Push x) msg w = (TellFailure msg' err, w2))
  /\ (forall r w1 auth w2 perr w3,
         PlainOpen workDir w = (Ok r, w1) ->
         baseGitNode.getAuthMethod (GitPushNode.base x) w1 = (Ok auth, w2) ->
         Repository_Push r (pushOptionsOf x msg auth) w2 = (perr, w3) ->
         OnMsg (Push x) msg w
         = (match perr with
            | Some err => TellFailure msg' err
            | None => TellSuccess msg'
            end, w3)).
Proof.
  intros evn workDir msg'. split; [|split].
  - intros err w1 Ho. unfold OnMsg, GitPushNode.OnMsg. run_act.
    fold evn workDir msg'. rewrite Ho. reflexivity.
  - intros r w1 err w2 Ho Ha. unfold OnMsg, GitPushNode.OnMsg. run_act.
    fold evn workDir msg'. rewrite Ho, Ha. reflexivity.
  - intros r w1 auth w2 perr w3 Ho Ha Hp. unfold pushOptionsOf in Hp.
    fold evn workDir msg' in Hp.
    unfold OnMsg, GitPushNode.OnMsg. run_act.
    fold evn workDir msg'. rewrite Ho, Ha, Hp. destruct perr; reflexivity.
Qed.

(** X13. A push reads neither the proxy nor the reference of its
    configuration: two push nodes that agree on every other field of the
    shared configuration and on the flag behave alike on every message in
    every world. *)
Theorem push_ignores_proxy_and_reference (x x' : GitPushNode.t) (msg : RuleMsg) (w : World) :
  pushView (baseGitNode.Config (GitPushNode.base x))
  = pushView (baseGitNode.Config (GitPushNode.base x')) ->
  GitPushNode.hasVar x = GitPushNode.hasVar x' ->
  OnMsg (Push x) msg w = OnMsg (Push x') msg w.
Proof.
  destruct x as [[c] cfg f], x' as [[c'] cfg' f'].
  destruct c, c'. unfold pushView. simpl. intros E ->. inversion E; subst.
  reflexivity.
Qed.

End Paths.

(** ** Defaults and the fields the flags leave out *)

Section Defaults.
Context `{GoStd} `{Templates} `{GitOps}.

(** X14. The default reference "refs/heads/main" that [New] gives a clone
    node is not what the node resolves: it lives in the node's own
    configuration, and the accessor reads the embedded one, so without a
    "reference" entry the reference comes from the metadata key "ref". *)
Theorem clone_default_reference_is_not_used (configuration : types_Configuration)
        (msg : RuleMsg) (evn : option Env) :
  let x := GitCloneNode.Init GitCloneNode.New configuration in
  reference configuration = None ->
  GitCloneNode.Reference (GitCloneNode.Config x) = "refs/heads/main"
  /\ baseGitNode.getReferenceName (GitCloneNode.base x) msg evn
     = GetValue (Metadata msg) KeyRef.
Proof.
  intros x Hr. subst x. unfold baseGitNode.getReferenceName. simpl.
  rewrite Hr. split; reflexivity.
Qed.

(** X15. The flags of the commit and tag nodes do not scan the message:
    when the scanned fields (directory, pattern or tag, author name and
    email) hold no marker, no environment is built and the message is used
    as configured, markers or not. *)
Theorem message_is_not_scanned (configuration : types_Configuration) (msg : RuleMsg) :
  let c := GitCommitNode.Init GitCommitNode.New configuration in
  let t := GitCreateTagNode.Init GitCreateTagNode.New configuration in
  let author := decode (signature configuration) {| AuthorName := ""; AuthorEmail := "" |} in
  CheckHasVar (decode (directory configuration) "") = false ->
  CheckHasVar (decode (pattern configuration) "") = false ->
  CheckHasVar (decode (tag configuration) "") = false ->
  CheckHasVar (AuthorName author) = false ->
  CheckHasVar (AuthorEmail author) = false ->
  GitCommitNode.getMessage c msg (baseGitNode.evnOf (GitCommitNode.hasVar c) msg)
  = decode (message configuration) ""
  /\ GitCreateTagNode.getMessage t msg (baseGitNode.evnOf (GitCreateTagNode.hasVar t) msg)
     = decode (message configuration) "".
Proof.
  intros c t author Hd Hp Ht Hn He. subst c t author.
  unfold GitCommitNode.getMessage, GitCreateTagNode.getMessage. simpl.
  rewrite Hd, Hp, Ht, Hn, He. split; reflexivity.
Qed.

(** X16. A log query with a nonzero limit never returns more entries than
    the limit, or than one entry when the limit is negative; a node
    initialised without a "limit" entry keeps the limit 10 of [New]. *)
Theorem log_entries_bounded (x : GitLogNode.t) (msg : RuleMsg) (w w' : World)
        (iter : list Commit) :
  let cap := GitLogNode.Limit (GitLogNode.Config x) in
  log_reports x msg w iter w' ->
  exists entries,
    OnMsg (Log x) msg w = (TellSuccess (logged x msg entries), w')
    /\ (cap <> 0 -> Z.of_nat (length entries) <= Z.max 1 cap)
    /\ (forall configuration,
           x = GitLogNode.Init GitLogNode.New configuration ->
           limit configuration = None ->
           (length entries <= 10)%nat).
Proof.
  intros cap Hlog. eexists. split; [apply (log_outcome x msg w w' iter Hlog)|].
  fold cap. rewrite logLoop_upTo. simpl. rewrite length_map.
  assert (cap <> 0 ->
          Z.of_nat (length (upTo (quota cap 0)
                                 (matching (startTimeOf x msg) (endTimeOf x msg) iter)))
          <= Z.max 1 cap) as Hb.
  { intros Hl. unfold upTo, quota. destruct (Z.eqb_spec cap 0); [contradiction|].
    rewrite length_take. lia. }
  split; [exact Hb|].
  intros configuration -> Hn. subst cap. simpl in *. rewrite Hn in *. simpl in *.
  specialize (Hb ltac:(discriminate)). lia.
Qed.

(** X17. Whatever the limit, negative ones included, the entries of a log
    query are those of an initial part of the matching commits, which are in
    turn picked from the history in its order: no entry is invented,
    reordered, or taken from outside the window. *)
Theorem log_entries_are_matching_commits (x : GitLogNode.t) (msg : RuleMsg) (w w' : World)
        (iter : list Commit) :
  log_reports x msg w iter w' ->
  exists returned,
    OnMsg (Log x) msg w
    = (TellSuccess (logged x msg (map GitLogNode.toLogMsg returned)), w')
    /\ returned `prefix_of` matching (startTimeOf x msg) (endTimeOf x msg) iter
    /\ matching (startTimeOf x msg) (endTimeOf x msg) iter `sublist_of` iter
    /\ forall c, c ∈ returned ->
                 c ∈ iter /\ inBounds (startTimeOf x msg) (endTimeOf x msg) (committerTime c).
Proof.
  intros Hlog.
  set (wanted := matching (startTimeOf x msg) (endTimeOf x msg) iter).
  exists (upTo (quota (GitLogNode.Limit (GitLogNode.Config x)) 0) wanted).
  assert (upTo (quota (GitLogNode.Limit (GitLogNode.Config x)) 0) wanted `prefix_of` wanted)
    as Hp.
  { unfold upTo. destruct (quota _ 0); [apply prefix_take | reflexivity]. }
  split; [|split; [exact Hp|split]].
  - rewrite (log_outcome x msg w w' iter Hlog). now rewrite logLoop_upTo.
  - apply sublist_filter.
  - intros c Hc. destruct Hp as [rest Hp].
    assert (c ∈ wanted) as Hin by (rewrite Hp; apply elem_of_app; now left).
    unfold wanted, matching in Hin. apply list_elem_of_filter in Hin. tauto.
Qed.

(** X18. A window whose end lies before its start, both set, matches no
    commit: the log query tells Success with no entry. *)
Theorem log_empty_window (x : GitLogNode.t) (msg : RuleMsg) (w w' : World)
        (iter : list Commit) :
  log_reports x msg w iter w' ->
  startTimeOf x msg <> 0 -> endTimeOf x msg <> 0 ->
  endTimeOf x msg < startTimeOf x msg ->
  OnMsg (Log x) msg w = (TellSuccess (logged x msg []), w').
Proof.
  intros Hlog Hs He Hlt.
  rewrite (log_outcome x msg w w' iter Hlog), logLoop_upTo.
  assert (matching (startTimeOf x msg) (endTimeOf x msg) iter = []) as ->.
  { unfold matching. clear Hlog. induction iter as [|c iter IH]; [reflexivity|].
    rewrite filter_cons, decide_False; [exact IH|].
    unfold inBounds. lia. }
  unfold upTo. destruct (quota _ 0); [rewrite take_nil|]; reflexivity.
Qed.

End Defaults.

(** ** More on the host metrics *)

Section HostMetricsMore.
Context `{Gopsutil} (json_Marshal : gmap string PsNode.Value -> string).
Import PsNode.

(** X19. The result of the metrics node never has a key outside the nine
    options, and options that name none of the nine collect nothing: the
    node still tells Success, with the empty map. *)
Theorem unknown_options_collect_nothing (configuration : types_Configuration)
        (msg : RuleMsg) (h : Host) :
  let x := Init New configuration in
  exists result h',
    collectAll x h = (inl result, h')
    /\ exec (OnMsg json_Marshal x msg) h
       = (TellSuccess (msg_SetData msg (DataType msg) (json_Marshal result)), h')
    /\ (forall k, k ∈ dom result -> k ∈ allOptions)
    /\ (Options (Config x) <> [] ->
        (forall o, o ∈ Options (Config x) -> o ∉ allOptions) ->
        result = ∅).
Proof.
  intros x.
  destruct (collectAll_run x h) as (result & h' & E & D & _).
  pose proof (contains_Init configuration) as C. cbv zeta in C. fold x in C.
  exists result, h'. split; [exact E|]. split; [|split].
  - unfold OnMsg, exec. rewrite (bind_inl _ _ _ _ _ E). reflexivity.
  - intros k Hk. now apply D in Hk.
  - intros Hne Hunknown. apply dom_empty_iff_L. apply set_eq. intros k.
    rewrite D, C, elem_of_empty. split; [|intros []].
    intros [Hk [Hnil|Hin]]; [contradiction|]. now apply (Hunknown k).
Qed.


End HostMetricsMore.

(** ** The stand-alone clone node against the one on [baseGitNode] *)

Section Standalone.
Context `{GoStd} `{Templates} `{GitOps}.
Import StandaloneGitCloneNode.

(** X21. The stand-alone accessors resolve what the shared accessors
    resolve for the same configuration: reference and proxy always;
    repository URL and work directory unless the URL is unset and the auth
    type is "ssh", where the stand-alone node reads "gitHttpUrl" and the
    shared accessor "gitSshUrl". *)
Theorem standalone_accessors_agree (x : t) (pemFile : string) (msg : RuleMsg)
        (evn : option Env) :
  getReferenceName x msg evn = baseGitNode.getReferenceName (rebased x pemFile) msg evn
  /\ getProxy x = baseGitNode.getProxy (rebased x pemFile)
  /\ (AuthType (Config x) <> "ssh" \/ Repository (Config x) <> "" ->
      getRepository x msg evn = baseGitNode.getRepository (rebased x pemFile) msg evn
      /\ getWorkDir x msg evn = baseGitNode.getWorkDir (rebased x pemFile) msg evn)
  /\ (AuthType (Config x) = "ssh" -> Repository (Config x) = "" ->
      getRepository x msg evn = GetValue (Metadata msg) KeyGitHttpUrl
      /\ baseGitNode.getRepository (rebased x pemFile) msg evn
         = GetValue (Metadata msg) KeyGitSshUrl).
Proof.
  split; [reflexivity|]. split; [reflexivity|]. split.
  - intros Hcase.
    assert (getRepository x msg evn
            = baseGitNode.getRepository (rebased x pemFile) msg evn) as Hrepo.
    { unfold getRepository, baseGitNode.getRepository. simpl.
      destruct (String.eqb_spec (Repository (Config x)) "") as [Hr|Hr]; [|reflexivity].
      destruct Hcase as [Ha|Ha]; [|contradiction].
      rewrite (eqb_false _ "ssh" Ha). now rewrite orb_false_r. }
    split; [exact Hrepo|].
    unfold getWorkDir, baseGitNode.getWorkDir, baseGitNode.baseDir.
    rewrite Hrepo. reflexivity.
  - intros Ha Hr. unfold getRepository, baseGitNode.getRepository. simpl.
    rewrite Ha, Hr. split; reflexivity.
Qed.

(** X22. The auth method selector of the stand-alone node: "token" and
    "username-password" yield the basic credential; "ssh-key" yields the key
    loaded for the user "git" from the file named by the user field, or the
    loader's error; every other tag, the aliases "ssh" and "password"
    included, yields the error "not authType=<tag>". *)
Theorem standalone_auth_selector (x : t) (w : World) :
  let c := Config x in
  (AuthType c ∈ ["token"; "username-password"] ->
   getAuthMethod x w = (Ok (BasicAuth (AuthUser c) (AuthPassword c)), w))
  /\ (AuthType c = "ssh-key" ->
      getAuthMethod x w
      = match NewPublicKeysFromFile "git" (AuthUser c) (AuthPassword c) w with
        | (Ok sshKey, w') => (Ok (PublicKeysAuth sshKey), w')
        | (Err err, w') => (Err err, w')
        end)
  /\ (AuthType c ∉ ["token"; "username-password"; "ssh-key"] ->
      getAuthMethod x w = (Err (errors_New ("not authType=" +:+ AuthType c)), w))
  /\ (AuthType c ∈ ["ssh"; "password"] ->
      getAuthMethod x w = (Err (errors_New ("not authType=" +:+ AuthType c)), w)).
Proof.
  intros c. unfold getAuthMethod. fold c. repeat split.
  - intros Hin. repeat (apply elem_of_cons in Hin as [->|Hin]); try reflexivity.
    now apply elem_of_nil in Hin.
  - intros ->. simpl.
    destruct (NewPublicKeysFromFile _ _ _ w) as [[k|e] w']; reflexivity.
  - intros Hnot.
    rewrite !eqb_false; [reflexivity | | |];
      intros E; apply Hnot; rewrite E; repeat constructor.
  - intros Hin. repeat (apply elem_of_cons in Hin as [->|Hin]); try reflexivity.
    now apply elem_of_nil in Hin.
Qed.

(** X24. The default reference "main" of the stand-alone node is the one it
    resolves: without a "reference" entry and without markers in the other
    two scanned fields, the reference is "main" whatever the metadata
    holds. *)
Theorem standalone_default_reference `{!TemplatesLawful}
        (configuration : types_Configuration) (msg : RuleMsg) :
  let x := Init New configuration in
  reference configuration = None ->
  CheckHasVar "main" = false ->
  getReferenceName x msg (baseGitNode.evnOf (hasVar x) msg) = "main".
Proof.
  intros x Hr Hm. subst x. unfold getReferenceName. simpl. rewrite Hr. simpl.
  destruct (baseGitNode.evnOf _ msg); [|reflexivity].
  now apply ExecuteTemplate_literal.
Qed.

End Standalone.

Section StandaloneRefines.
Context `{GoStd} `{Templates} `{GitOps}.

(** X23. Under the auth types "token" and "username-password" the
    stand-alone clone node and the clone node on [baseGitNode] holding the
    same configuration behave alike on every message in every world. *)
Theorem standalone_behaves_like_clone (x : StandaloneGitCloneNode.t)
        (cfg : GitCloneNode.Configuration) (pemFile : string) (msg : RuleMsg) (w : World) :
  StandaloneGitCloneNode.AuthType (StandaloneGitCloneNode.Config x)
    ∈ ["token"; "username-password"] ->
  exec (StandaloneGitCloneNode.OnMsg x msg) w
  = OnMsg (Clone {| GitCloneNode.base := StandaloneGitCloneNode.rebased x pemFile;
                    GitCloneNode.Config := cfg;
                    GitCloneNode.hasVar := StandaloneGitCloneNode.hasVar x |}) msg w.
Proof.
  destruct x as [[r d f a u p pu pn pp] flag]. simpl.
  intros Hin. repeat (apply elem_of_cons in Hin as [->|Hin]); try reflexivity.
  now apply elem_of_nil in Hin.
Qed.

End StandaloneRefines.

Section PullBranch.
Context `{GoStd} `{Templates} `{GitOps}.

(** X25. Clone-or-pull when the work directory exists never clones: a
    directory that does not open as a repository is told as that Failure, as
    is a failure to get the working tree; the auth method is selected only
    after both, and its failure is told before anything is pulled. *)
Theorem existing_directory_is_not_cloned (x : GitCloneNode.t) (msg : RuleMsg) (w w1 : World) :
  let evn := baseGitNode.evnOf (GitCloneNode.hasVar x) msg in
  let workDir := baseGitNode.getWorkDir (GitCloneNode.base x) msg evn in
  let msg' := msg_PutValue msg KeyWorkDir workDir in
  os_Stat_IsNotExist workDir w = (false, w1) ->
  (forall err w2, PlainOpen workDir w1 = (Err err, w2) ->
                  OnMsg (Clone x) msg w = (TellFailure msg' err, w2))
  /\ (forall r w2 err w3,
         PlainOpen workDir w1 = (Ok r, w2) ->
         Repository_Worktree r w2 = (Err err, w3) ->
         OnMsg (Clone x) msg w = (TellFailure msg' err, w3))
  /\ (forall r w2 wt w3 err w4,
         PlainOpen workDir w1 = (Ok r, w2) ->
         Repository_Worktree r w2 = (Ok wt, w3) ->
         baseGitNode.getAuthMethod (GitCloneNode.base x) w3 = (Err err, w4) ->
         OnMsg (Clone x) msg w = (TellFailure msg' err, w4)).
Proof.
  intros evn workDir msg' Hs. split; [|split].
  - intros err w2 Ho. unfold OnMsg, GitCloneNode.OnMsg. run_act.
    fold evn workDir msg'. rewrite Hs, Ho. reflexivity.
  - intros r w2 err w3 Ho Hw. unfold OnMsg, GitCloneNode.OnMsg. run_act.
    fold evn workDir msg'. rewrite Hs, Ho, Hw. reflexivity.
  - intros r w2 wt w3 err w4 Ho Hw Ha. unfold OnMsg, GitCloneNode.OnMsg. run_act.
    fold evn workDir msg'. rewrite Hs, Ho, Hw, Ha. reflexivity.
Qed.

End PullBranch.

(** ** The further properties on the reference collaborators *)

(** The assertions of [TestGitCloneNode] (src/ci/action/git_clone_test.go). *)
Example TestGitCloneNode_InitNode :
  let metaData : gmap string string :=
    {[ KeyWorkDir := "d://"; KeyRef := "main";
       KeyGitSshUrl := "git@github.com:rulego/rulego-components-ci.git";
       KeyGitHttpUrl := "https://github.com/rulego/rulego-components-ci" ]} in
  let msg := {| Type_ := "test"; DataType := JSON; Data := ""; Metadata := metaData |} in
  let evn := Some (@GetEvnAndMetadata Ref.templates msg) in
  let node (repository directory reference authType : string) :=
    GitCloneNode.base
      (Cases.cloner (Scenario.configured repository directory reference authType None "" "")) in
  @baseGitNode.getWorkDir Ref.templates (node "" "" "" "ssh") msg evn
  = "d:/rulego-components-ci"
  /\ @baseGitNode.getRepository Ref.templates (node "" "" "" "ssh") msg evn
     = "git@github.com:rulego/rulego-components-ci.git"
  /\ @baseGitNode.getReferenceName Ref.templates (node "" "" "" "ssh") msg evn = "main"
  /\ @baseGitNode.getRepository Ref.templates (node "" "" "" "token") msg evn
     = "https://github.com/rulego/rulego-components-ci"
  /\ @baseGitNode.getRepository Ref.templates
       (node "${metadata.gitHttpUrl}" "${metadata.workDir}" "${metadata.ref}" "token") msg evn
     = "https://github.com/rulego/rulego-components-ci".
Proof. vm_compute. repeat split. Qed.

Section MoreOnReference.
#[local] Existing Instances Ref.go Ref.templates RefWorld.types RefWorld.git RefWorld.ps.
Import Scenario.

(** X7: a clone followed by a commit whose directory is not configured. *)
Lemma unconfigured_directory_rejoins_name_witness :
  let msg' := outcome_msg (@OnMsg Ref.go Ref.templates RefWorld.types RefWorld.git
                                  (Clone clone) msg clean).1 in
  baseGitNode.Directory (baseGitNode.Config (GitCommitNode.base commit)) = ""
  /\ GetValue (Metadata msg') KeyWorkDir = "/base/repo"
  /\ @baseGitNode.getWorkDir Ref.templates (GitCommitNode.base commit) msg'
       (@baseGitNode.evnOf Ref.templates (GitCommitNode.hasVar commit) msg')
     = "/base/repo/repo".
Proof.
  intros msg'. split; [reflexivity|]. split; [reflexivity|].
  etransitivity.
  - exact (@unconfigured_directory_rejoins_name Ref.go Ref.templates RefWorld.types
             RefWorld.git (Clone clone) (CommitChanges commit) msg clean eq_refl).
  - vm_compute. reflexivity.
Defined.

(** X8: the same chain with the directory "/work" configured. *)
Lemma configured_directory_is_stable_witness :
  let n := CommitChanges (Cases.committer MoreCases.atWork) in
  let msg' := outcome_msg (@OnMsg Ref.go Ref.templates RefWorld.types RefWorld.git
                                  (Clone (Cases.cloner MoreCases.atWork)) msg clean).1 in
  flag n = false
  /\ GetValue (Metadata msg') KeyWorkDir = "/work/repo"
  /\ @baseGitNode.getWorkDir Ref.templates (embedded n) msg'
       (@baseGitNode.evnOf Ref.templates (flag n) msg')
     = "/work/repo".
Proof.
  intros n msg'. split; [reflexivity|]. split; [reflexivity|].
  etransitivity.
  - exact (@configured_directory_is_stable Ref.go Ref.templates RefWorld.types
             RefWorld.git (Clone (Cases.cloner MoreCases.atWork)) n msg clean
             ltac:(discriminate) eq_refl).
  - vm_compute. reflexivity.
Defined.

(** X9: the directory does not exist; a token, and an unknown auth type. *)
Lemma clone_when_directory_absent_witness :
  os_Stat_IsNotExist "/base/repo" empty = (true, empty)
  /\ is_success (@OnMsg Ref.go Ref.templates RefWorld.types RefWorld.git
                        (Clone clone) msg empty).1 = true
  /\ @OnMsg Ref.go Ref.templates RefWorld.types RefWorld.git (Clone MoreCases.oauth) msg empty
     = (TellFailure (msg_PutValue msg KeyWorkDir "/base/repo")
                    (errors_New "not authType=oauth"), empty).
Proof.
  split; [reflexivity|]. split.
  - rewrite (proj1 (proj2 (@clone_when_directory_absent Ref.go Ref.templates RefWorld.types
                             RefWorld.git clone msg empty empty eq_refl))
                   (BasicAuth "ci" "secret") empty None
                   (RefWorld.withRepo empty "/base/repo"
                      {| RefWorld.history := []; RefWorld.pending := false |})
                   eq_refl eq_refl).
    reflexivity.
  - apply (proj2 (proj2 (@clone_when_directory_absent Ref.go Ref.templates RefWorld.types
                           RefWorld.git MoreCases.oauth msg empty empty eq_refl))).
    apply (bool_decide_eq_false_1 _). vm_compute. reflexivity.
Defined.

(** X10: pending changes on top of three commits. *)
Lemma commit_pending_changes_witness :
  status_reports commit msg Cases.dirty false Cases.dirty
  /\ is_success (@OnMsg Ref.go Ref.templates RefWorld.types RefWorld.git
                        (CommitChanges commit) msg Cases.dirty).1 = true
  /\ GetValue (Metadata (outcome_msg
                           (@OnMsg Ref.go Ref.templates RefWorld.types RefWorld.git
                                   (CommitChanges commit) msg Cases.dirty).1)) KeyHash
     = "c3".
Proof.
  assert (@status_reports Ref.templates RefWorld.types RefWorld.git
            commit msg Cases.dirty false Cases.dirty) as Hs.
  { exists Cases.dirty, Cases.dirty, "/base/repo", "/base/repo", false. repeat split. }
  destruct (proj2 (@commit_pending_changes Ref.go Ref.templates RefWorld.types RefWorld.git
                     commit msg Cases.dirty Cases.dirty Cases.dirty Cases.dirty
                     "/base/repo" "/base/repo" false eq_refl eq_refl eq_refl eq_refl)
                  Cases.dirty (RefWorld.clock Cases.dirty) _ (Ok "c3") _
                  eq_refl eq_refl eq_refl) as [Hout Hhash].
  split; [exact Hs|]. split.
  - rewrite Hout. reflexivity.
  - apply Hhash. reflexivity.
Defined.

(** X11: a tag on the newest of the three commits. *)
Lemma create_tag_on_head_witness :
  (Repository_Head "/base/repo" clean).1 = (Some "c3", None)
  /\ @OnMsg Ref.go Ref.templates RefWorld.types RefWorld.git (CreateTag tagger) msg clean
     = (TellSuccess (msg_PutValue (msg_PutValue msg KeyWorkDir "/base/repo") KeyHash "tag-v1"),
        snd (RefWorld.now clean)).
Proof.
  split; [reflexivity|].
  exact (proj2 (@create_tag_on_head Ref.go Ref.templates RefWorld.types RefWorld.git
                  tagger msg clean clean clean "/base/repo" "c3" None eq_refl eq_refl)
               c3 clean (RefWorld.clock clean) (snd (RefWorld.now clean)) (Ok "tag-v1")
               (snd (RefWorld.now clean)) eq_refl eq_refl eq_refl).
Defined.

(** X13: the same push with and without a proxy. *)
Lemma push_ignores_proxy_and_reference_witness :
  baseGitNode.getProxy (GitPushNode.base (Cases.pusher MoreCases.proxied))
  <> baseGitNode.getProxy (GitPushNode.base (Cases.pusher MoreCases.direct))
  /\ @OnMsg Ref.go Ref.templates RefWorld.types RefWorld.git
            (Push (Cases.pusher MoreCases.proxied)) msg clean
     = @OnMsg Ref.go Ref.templates RefWorld.types RefWorld.git
              (Push (Cases.pusher MoreCases.direct)) msg clean.
Proof.
  split; [discriminate|].
  exact (@push_ignores_proxy_and_reference Ref.go Ref.templates RefWorld.types RefWorld.git
           (Cases.pusher MoreCases.proxied) (Cases.pusher MoreCases.direct) msg clean
           eq_refl eq_refl).
Defined.

(** X14: no "reference" entry; the metadata holds ref = "dev". *)
Lemma clone_default_reference_is_not_used_witness :
  let x := Cases.cloner Cases.bare in
  GitCloneNode.Reference (GitCloneNode.Config x) = "refs/heads/main"
  /\ @baseGitNode.getReferenceName Ref.templates (GitCloneNode.base x) msg None = "dev".
Proof.
  intros x.
  destruct (@clone_default_reference_is_not_used Ref.templates Cases.bare msg None eq_refl)
    as [Hd Hr].
  split; [exact Hd|]. etransitivity; [exact Hr | reflexivity].
Defined.

(** X15: the message "release ${metadata.root}" is committed as written,
    although it renders to "release /srv". *)
Lemma message_is_not_scanned_witness :
  let c := Cases.committer MoreCases.release in
  @CheckHasVar Ref.templates "release ${metadata.root}" = true
  /\ @ExecuteTemplate Ref.templates "release ${metadata.root}"
                      (@GetEvnAndMetadata Ref.templates msg) = "release /srv"
  /\ @GitCommitNode.getMessage Ref.templates c msg
       (@baseGitNode.evnOf Ref.templates (GitCommitNode.hasVar c) msg)
     = "release ${metadata.root}".
Proof.
  intros c. split; [reflexivity|]. split; [reflexivity|].
  exact (proj1 (@message_is_not_scanned Ref.templates MoreCases.release msg
                  eq_refl eq_refl eq_refl eq_refl eq_refl)).
Defined.

End MoreOnReference.

Section LogMoreOnReference.
#[local] Existing Instances Ref.go Ref.templates RefWorld.types RefWorld.git RefWorld.ps.
Import Scenario.

(** X16: the limit -1 returns one entry; the default limit is 10. *)
Lemma log_entries_bounded_witness :
  log_reports minusOne msg clean [c3; c2; c1] clean
  /\ GitLogNode.Limit (GitLogNode.Config MoreCases.defaultLimit) = 10
  /\ (exists entries,
         OnMsg (Log minusOne) msg clean = (TellSuccess (logged minusOne msg entries), clean)
         /\ Z.of_nat (length entries) <= 1)
  /\ (exists entries,
         OnMsg (Log MoreCases.defaultLimit) msg clean
         = (TellSuccess (logged MoreCases.defaultLimit msg entries), clean)
         /\ (length entries <= 10)%nat).
Proof.
  pose proof (log_finds_history minusOne eq_refl) as Hlog.
  pose proof (log_finds_history MoreCases.defaultLimit eq_refl) as Hlog'.
  split; [exact Hlog|]. split; [reflexivity|]. split.
  - destruct (@log_entries_bounded Ref.go Ref.templates RefWorld.types RefWorld.git
                minusOne msg clean clean [c3; c2; c1] Hlog) as (entries & Ho & Hb & _).
    exists entries. split; [exact Ho|]. exact (Hb ltac:(discriminate)).
  - destruct (@log_entries_bounded Ref.go Ref.templates RefWorld.types RefWorld.git
                MoreCases.defaultLimit msg clean clean [c3; c2; c1] Hlog')
      as (entries & Ho & _ & Hd).
    exists entries. split; [exact Ho|]. exact (Hd plain eq_refl eq_refl).
Defined.

(** X17: the limit -1 again; what is returned comes from the history. *)
Lemma log_entries_are_matching_commits_witness :
  log_reports minusOne msg clean [c3; c2; c1] clean
  /\ exists returned,
      OnMsg (Log minusOne) msg clean
      = (TellSuccess (logged minusOne msg (map GitLogNode.toLogMsg returned)), clean)
      /\ forall c, c ∈ returned -> c ∈ [c3; c2; c1].
Proof.
  pose proof (log_finds_history minusOne eq_refl) as Hlog.
  split; [exact Hlog|].
  destruct (@log_entries_are_matching_commits Ref.go Ref.templates RefWorld.types
              RefWorld.git minusOne msg clean clean [c3; c2; c1] Hlog)
    as (returned & Ho & _ & _ & Hin).
  exists returned. split; [exact Ho|]. intros c Hc. exact (proj1 (Hin c Hc)).
Defined.

(** X18: the window from January 3 back to January 1. *)
Lemma log_empty_window_witness :
  log_reports MoreCases.backwards msg clean [c3; c2; c1] clean
  /\ endTimeOf MoreCases.backwards msg < startTimeOf MoreCases.backwards msg
  /\ OnMsg (Log MoreCases.backwards) msg clean
     = (TellSuccess (logged MoreCases.backwards msg []), clean).
Proof.
  pose proof (log_finds_history MoreCases.backwards eq_refl) as Hlog.
  assert (endTimeOf MoreCases.backwards msg < startTimeOf MoreCases.backwards msg) as Hlt
      by (vm_compute; reflexivity).
  split; [exact Hlog|]. split; [exact Hlt|].
  apply (@log_empty_window Ref.go Ref.templates RefWorld.types RefWorld.git
           MoreCases.backwards msg clean clean [c3; c2; c1] Hlog);
    [vm_compute; discriminate | vm_compute; discriminate | exact Hlt].
Defined.

(** X23: the stand-alone node and the clone node on the [plain]
    configuration, the clone being up to date. *)
Lemma standalone_behaves_like_clone_witness :
  let x := Cases.standalone plain in
  StandaloneGitCloneNode.AuthType (StandaloneGitCloneNode.Config x) = "token"
  /\ exec (StandaloneGitCloneNode.OnMsg x msg) clean
     = OnMsg (Clone {| GitCloneNode.base := StandaloneGitCloneNode.rebased x "";
                       GitCloneNode.Config := GitCloneNode.Config clone;
                       GitCloneNode.hasVar := StandaloneGitCloneNode.hasVar x |}) msg clean.
Proof.
  intros x. split; [reflexivity|].
  apply (@standalone_behaves_like_clone Ref.go Ref.templates RefWorld.types RefWorld.git
           x (GitCloneNode.Config clone) "" msg clean).
  vm_compute. repeat constructor.
Defined.

(** X24: no "reference" entry; the metadata holds ref = "dev". *)
Lemma standalone_default_reference_witness :
  let x := Cases.standalone Cases.bare in
  TemplatesLawful
  /\ GetValue (Metadata msg) KeyRef = "dev"
  /\ StandaloneGitCloneNode.getReferenceName x msg
       (baseGitNode.evnOf (StandaloneGitCloneNode.hasVar x) msg) = "main".
Proof.
  intros x. split; [exact Ref_templates_lawful|]. split; [reflexivity|].
  exact (@standalone_default_reference Ref.templates Ref_templates_lawful
           Cases.bare msg eq_refl eq_refl).
Defined.

(** X25: "/base/repo" exists without holding a repository; and an unknown
    auth type on the existing clone. *)
Lemma existing_directory_is_not_cloned_witness :
  @os_Stat_IsNotExist RefWorld.types PlainDirs.git "/base/repo" empty = (false, empty)
  /\ @OnMsg Ref.go Ref.templates RefWorld.types PlainDirs.git (Clone clone) msg empty
     = (TellFailure (msg_PutValue msg KeyWorkDir "/base/repo") RefWorld.notFound, empty)
  /\ OnMsg (Clone MoreCases.oauth) msg clean
     = (TellFailure (msg_PutValue msg KeyWorkDir "/base/repo")
                    (errors_New "not authType=oauth"), clean).
Proof.
  split; [reflexivity|]. split.
  - exact (proj1 (@existing_directory_is_not_cloned Ref.go Ref.templates RefWorld.types
                    PlainDirs.git clone msg empty empty eq_refl)
                 RefWorld.notFound empty eq_refl).
  - exact (proj2 (proj2 (@existing_directory_is_not_cloned Ref.go Ref.templates
                           RefWorld.types RefWorld.git MoreCases.oauth msg clean clean
                           eq_refl))
                 "/base/repo" clean "/base/repo" clean (errors_New "not authType=oauth")
                 clean eq_refl eq_refl eq_refl).
Defined.

End LogMoreOnReference.
